(** * SynergySphere analytics and finance services: a shallow embedding

    The development follows [backend/services/analytics_service.py] and
    [backend/services/finance_service.py].

    Conventions of the embedding.
    - Python [float] and [int] quantities that take part in divisions are
      exact rationals ([Q]); counts are [nat], the additive risk score and
      whole days are [Z].  The arithmetic is the idealised one: no rounding
      error of binary floating point is modelled, so that a number of
      the model can differ from the one the code returns where the exact
      value is rounded: at a tie of the last decimal kept, or in a total
      kept by repeated additions and subtractions.  Where a property
      turns on this, the operations are replayed on binary64 numbers
      ([Ledger64]).
    - A [datetime] is a UTC instant, counted in microseconds from
      1970-01-01T00:00:00; a [timedelta] is a number of microseconds.
    - A Python exception is a value of [exn]; code that can raise lives in
      the [result] monad, [try_except] is the [try: ... except Exception]
      statement.
    - The database is an explicit value [DB.t]; a query is a function of it,
      a mutating service call returns the database after [commit].  A call
      that raises returns no database: nothing was committed.
    - One service call reads the clock once: every [get_utc_now()] of a call
      is the same instant [now]. *)

From Stdlib Require Import ZArith QArith Qround List String Bool Lia Lqa
  Permutation Sorted.
From Stdlib Require PrimFloat.
Import ListNotations.

(* ------------------------------------------------------------------ *)
(** ** Python runtime *)

Module Py.

Inductive exn : Type :=
| NotFound                       (* raised by [get_or_404] *)
| PermissionError (msg : string)
| ValueError (msg : string)
| ZeroDivisionError
| AttributeError
| OverflowError.                 (* a date or [timedelta] out of range *)

Inductive result (A : Type) : Type :=
| Ok (a : A)
| Raise (e : exn).
Arguments Ok {A} a.
Arguments Raise {A} e.

Definition bind {A B} (c : result A) (k : A -> result B) : result B :=
  match c with
  | Ok a => k a
  | Raise e => Raise e
  end.

(** [try: body  except Exception as e: handler e] *)
Definition try_except {A} (body : result A) (handler : exn -> result A)
  : result A :=
  match body with
  | Ok a => Ok a
  | Raise e => handler e
  end.

Definition Qltb (x y : Q) : bool := negb (Qle_bool y x).

Definition Qnat (n : nat) : Q := inject_Z (Z.of_nat n).

Definition Qmax (x y : Q) : Q := if Qle_bool x y then y else x.
Definition Qmin (x y : Q) : Q := if Qle_bool x y then x else y.

(** [x / y]: true division raises on a zero divisor. *)
Definition truediv (x y : Q) : result Q :=
  if Qeq_bool y 0 then Raise ZeroDivisionError else Ok (x / y).

(** [sum(xs)] *)
Definition sum (xs : list Q) : Q := fold_left Qplus xs 0.

Definition sumZ (xs : list Z) : Z := fold_left Z.add xs 0%Z.

(** Nearest integer, ties to the even one. *)
Definition round_half_even (x : Q) : Z :=
  let f := Qfloor x in
  let r := x - inject_Z f in
  if Qltb r (1#2) then f
  else if Qltb (1#2) r then (f + 1)%Z
  else if Z.even f then f else (f + 1)%Z.

(** [round(x, ndigits)] *)
Definition round (x : Q) (ndigits : nat) : Q :=
  let s := inject_Z (10 ^ Z.of_nat ndigits) in
  Qred (inject_Z (round_half_even (x * s)) / s).

(** [abs(x)] *)
Definition abs (x : Q) : Q := if Qle_bool 0 x then x else - x.

(** [np.mean(xs)]: [None] stands for the [nan] numpy yields (with a
    warning, not an exception) on an empty sequence. *)
Definition np_mean (xs : list Q) : option Q :=
  match xs with
  | [] => None
  | _ => Some (sum xs / Qnat (List.length xs))
  end.

(** [np.var(xs)] (population variance) *)
Definition np_var (xs : list Q) : option Q :=
  match np_mean xs with
  | None => None
  | Some m => np_mean (map (fun x => (x - m) * (x - m)) xs)
  end.

(** A comprehension or loop whose body can raise. *)
Fixpoint mapM {A B} (f : A -> result B) (l : list A) : result (list B) :=
  match l with
  | [] => Ok []
  | x :: l' =>
      match f x with
      | Ok y =>
          match mapM f l' with
          | Ok ys => Ok (y :: ys)
          | Raise e => Raise e
          end
      | Raise e => Raise e
      end
  end.

(** [range(n)] *)
Definition range (n : nat) : list nat := seq 0 n.

(** [x or default] on an optional string: [None] and [''] are falsy. *)
Definition str_or (x : option string) (default : string) : string :=
  match x with
  | None => default
  | Some s => if String.eqb s "" then default else s
  end.

(** Stable sort by decreasing key: [sorted(l, key=key, reverse=True)]
    and [l.sort(key=key, reverse=True)]; elements with equal keys keep
    their order. *)
Section Sorting.
Context {A : Type} (key : A -> Q).

Fixpoint insert_desc (x : A) (l : list A) : list A :=
  match l with
  | [] => [x]
  | y :: l' =>
      if Qltb (key x) (key y) then y :: insert_desc x l'
      else x :: y :: l'
  end.

Definition sorted_desc (l : list A) : list A :=
  fold_right insert_desc [] l.
End Sorting.

(** A dictionary that accumulates amounts, in insertion order:
    [d[k] = d.get(k, 0) + v], and [d[k] += v] on a [defaultdict(float)]. *)
Section Dict.
Context {K : Type} (eqb : K -> K -> bool).

Fixpoint dict_add (k : K) (v : Q) (d : list (K * Q)) : list (K * Q) :=
  match d with
  | [] => [(k, v)]
  | (k', v') :: d' =>
      if eqb k' k then (k', v' + v) :: d' else (k', v') :: dict_add k v d'
  end.

(** [d[k] += 1] on a [defaultdict(int)]. *)
Fixpoint dict_incr (k : K) (d : list (K * nat)) : list (K * nat) :=
  match d with
  | [] => [(k, 1%nat)]
  | (k', n) :: d' =>
      if eqb k' k then (k', S n) :: d' else (k', n) :: dict_incr k d'
  end.

(** [d[k]] of a key that is present. *)
Definition dict_get {V} (k : K) (d : list (K * V)) : option V :=
  match find (fun kv => eqb (fst kv) k) d with
  | Some kv => Some (snd kv)
  | None => None
  end.

(** Insertion of [k] in a set kept in first-insertion order. *)
Fixpoint set_add (k : K) (s : list K) : list K :=
  match s with
  | [] => [k]
  | k' :: s' => if eqb k' k then s else k' :: set_add k s'
  end.

(** [list(set(l))]; the order of a Python set is unspecified, the
    model keeps first occurrences in order. *)
Definition list_set (l : list K) : list K :=
  fold_left (fun s k => set_add k s) l [].
End Dict.


(** A [defaultdict] of counters [{'created': 0, 'completed': 0}], in
    insertion order: a task is tallied under its key as created, and as
    completed when it is. *)
Section Tally.
Context {K : Type} (eqb : K -> K -> bool).

Fixpoint tally_add (k : K) (is_completed : bool)
    (d : list (K * (nat * nat))) : list (K * (nat * nat)) :=
  match d with
  | [] => [(k, (1%nat, if is_completed then 1%nat else 0%nat))]
  | (k', (created, completed)) :: d' =>
      if eqb k' k
      then (k', (S created,
                 if is_completed then S completed else completed)) :: d'
      else (k', (created, completed)) :: tally_add k is_completed d'
  end.

(** [d[k]]; a key never seen reads as the zero counters. *)
Definition tally_get (k : K) (d : list (K * (nat * nat))) : nat * nat :=
  match find (fun kv => eqb (fst kv) k) d with
  | Some kv => snd kv
  | None => (0%nat, 0%nat)
  end.
End Tally.

(** [l[-n:]] for a positive [n]: the last [n] elements, all of [l] when
    it is shorter. *)
Definition last_n {A} (n : nat) (l : list A) : list A :=
  skipn (List.length l - n) l.

(** [l[-a:-b]] for positive [a] and [b]. *)
Definition slice_from_end {A} (a b : nat) (l : list A) : list A :=
  let start := (List.length l - a)%nat in
  let stop := (List.length l - b)%nat in
  firstn (stop - start) (skipn start l).

End Py.

Export Py.

Declare Scope py_scope.
Notation "x <- c ;; k" := (Py.bind c (fun x => k))
  (at level 61, c at next level, right associativity) : py_scope.
Open Scope py_scope.

(* ------------------------------------------------------------------ *)
(** ** datetime *)

Module DateTime.
Local Open Scope Z_scope.

Definition datetime : Type := Z.
Definition timedelta : Type := Z.

Definition SECOND : timedelta := 1000000.
Definition DAY : timedelta := 86400 * SECOND.

(** [timedelta(days=n)], [timedelta(weeks=n)] *)
Definition days (n : Z) : timedelta := n * DAY.
Definition weeks (n : Z) : timedelta := n * 7 * DAY.

(** [td.days]: whole days, rounded towards minus infinity. *)
Definition td_days (td : timedelta) : Z := td / DAY.

(** Proleptic Gregorian date of a day number (days from 1970-01-01). *)
Definition civil_from_days (z : Z) : Z * Z * Z :=
  let z := z + 719468 in
  let era := z / 146097 in
  let doe := z - era * 146097 in
  let yoe := (doe - doe / 1460 + doe / 36524 - doe / 146096) / 365 in
  let y := yoe + era * 400 in
  let doy := doe - (365 * yoe + yoe / 4 - yoe / 100) in
  let mp := (5 * doy + 2) / 153 in
  let d := doy - (153 * mp + 2) / 5 + 1 in
  let m := if mp <? 10 then mp + 3 else mp - 9 in
  (if m <=? 2 then y + 1 else y, m, d).

Definition date_of (t : datetime) : Z * Z * Z := civil_from_days (t / DAY).

Definition day_of_month (t : datetime) : Z := snd (date_of t).

(** [t.replace(day=1)]: same month, same time of day. *)
Definition replace_day_1 (t : datetime) : datetime :=
  t - days (day_of_month t - 1).

(** [t.strftime('%Y-%m')], as the pair (year, month). *)
Definition strftime_Ym (t : datetime) : Z * Z :=
  let '(y, m, _) := date_of t in (y, m).

(** [t.strftime('%Y-%m-%d')], as the triple (year, month, day). *)
Definition strftime_Ymd (t : datetime) : Z * Z * Z := date_of t.

Definition Ym_eqb (a b : Z * Z) : bool :=
  (fst a =? fst b) && (snd a =? snd b).

(** Modelled from the spec: [utils.datetime_utils.ensure_utc] is not part
    of the sources at hand; every instant of the model already is a UTC
    instant, so the normalisation leaves it as it is. *)
Definition ensure_utc (t : datetime) : datetime := t.

(** Day number of a proleptic Gregorian date. *)
Definition days_from_civil (y m d : Z) : Z :=
  let y := if m <=? 2 then y - 1 else y in
  let era := y / 400 in
  let yoe := y - era * 400 in
  let doy := (153 * (if 2 <? m then m - 3 else m + 9) + 2) / 5 + d - 1 in
  let doe := yoe * 365 + yoe / 4 - yoe / 100 + doy in
  era * 146097 + doe - 719468.

(** Day of the week of a day number, Sunday being 0; day 0 is a
    Thursday. *)
Definition weekday_from_days (z : Z) : Z := (z + 4) mod 7.

(** [t.strftime('%Y-W%U')], as the pair (year, week): the week of the
    year, weeks starting on Sunday, the days before the first Sunday of
    the year being in week 0. *)
Definition strftime_YWU (t : datetime) : Z * Z :=
  let z := t / DAY in
  let '(y, _, _) := civil_from_days z in
  let yday := z - days_from_civil y 1 1 in
  (y, (yday + 7 - weekday_from_days z) / 7).

Definition Ymd_eqb (a b : Z * Z * Z) : bool :=
  let '(y1, m1, d1) := a in
  let '(y2, m2, d2) := b in
  (y1 =? y2) && (m1 =? m2) && (d1 =? d2).

(** [datetime.min] and [datetime.max]: the first instant of year 1 and
    the last microsecond of year 9999. *)
Definition datetime_min : datetime := days_from_civil 1 1 1 * DAY.
Definition datetime_max : datetime :=
  (days_from_civil 9999 12 31 + 1) * DAY - 1.

End DateTime.

Export DateTime.

(* ------------------------------------------------------------------ *)
(** ** models *)

Module User.
Record t : Type := mk
  { id : Z; email : string; notify_email : bool }.
End User.

Module Project.
Record t : Type := mk
  { id : Z;
    name : string;
    deadline : option datetime;
    members : list User.t;
    owner_id : Z }.
End Project.

Module TaskStatus.
Inductive t : Type := pending | in_progress | completed.

Definition eqb (a b : t) : bool :=
  match a, b with
  | pending, pending | in_progress, in_progress | completed, completed => true
  | _, _ => false
  end.
End TaskStatus.

Module Task.
Record t : Type := mk
  { id : Z;
    title : string;
    status : TaskStatus.t;
    owner_id : Z;
    project_id : Z;
    created_at : option datetime;
    due_date : option datetime;
    last_progress_update : option datetime;
    subtasks : nat                (* number of subtasks *) }.

(** Modelled from the spec: [Task.is_overdue] lives in [models], which is
    not part of the sources at hand.  "[is_overdue] holds iff status is
    not completed and due date exists and is strictly before current
    time." *)
Definition is_overdue (now : datetime) (task : t) : bool :=
  negb (TaskStatus.eqb (status task) TaskStatus.completed) &&
  match due_date task with
  | Some due => (ensure_utc due <? now)%Z
  | None => false
  end.
End Task.

Module Expense.
Record t : Type := mk
  { id : Z;
    project_id : Z;
    task_id : option Z;
    amount : Q;
    description : string;
    category : option string;
    created_by : Z;
    incurred_at : datetime }.
End Expense.

Module Budget.
Record t : Type := mk
  { id : Z;
    project_id : Z;
    allocated_amount : Q;
    spent_amount : Q;
    currency : string }.

(** Modelled from the spec: the properties of [models.Budget] are not
    part of the sources at hand.  "remaining = allocated - spent". *)
Definition remaining_amount (b : t) : Q :=
  allocated_amount b - spent_amount b.

(** Modelled from the spec: "utilization% = spent/allocated * 100
    (guarded when allocated = 0)", "utilization reported as 0". *)
Definition utilization_percentage (b : t) : Q :=
  if Qeq_bool (allocated_amount b) 0 then 0
  else spent_amount b / allocated_amount b * 100.

Definition with_spent_amount (b : t) (s : Q) : t :=
  mk (id b) (project_id b) (allocated_amount b) s (currency b).
End Budget.

Module Notification.
(** The text of a notification; the only one the services write is the
    budget overrun alert
    ["Budget overrun in project '{name}'! Overspent by {currency}
      {overrun_amount:.2f} ({overrun_percentage:.1f}% over budget)"]. *)
Inductive message : Type :=
| budget_overrun (project_name currency : string)
                 (overrun_amount overrun_percentage : Q).

Record t : Type := mk { user_id : Z; text : message }.
End Notification.

(** The tables a service call works on, each in primary-key order. *)
Module DB.
Record t : Type := mk
  { projects : list Project.t;
    tasks : list Task.t;
    budgets : list Budget.t;
    expenses : list Expense.t;
    notifications : list Notification.t }.

(** [Project.query.get_or_404(project_id)] *)
Definition get_project_or_404 (db : t) (project_id : Z) : result Project.t :=
  match find (fun p => (Project.id p =? project_id)%Z) (projects db) with
  | Some p => Ok p
  | None => Raise NotFound
  end.

(** [Expense.query.get_or_404(expense_id)] *)
Definition get_expense_or_404 (db : t) (expense_id : Z) : result Expense.t :=
  match find (fun e => (Expense.id e =? expense_id)%Z) (expenses db) with
  | Some e => Ok e
  | None => Raise NotFound
  end.

(** [Budget.query.filter_by(project_id=project_id).first()] *)
Definition budget_of (db : t) (project_id : Z) : option Budget.t :=
  find (fun b => (Budget.project_id b =? project_id)%Z) (budgets db).

(** [Expense.query.filter_by(project_id=project_id).all()] *)
Definition expenses_of (db : t) (project_id : Z) : list Expense.t :=
  filter (fun e => (Expense.project_id e =? project_id)%Z) (expenses db).

(** [Task.query.filter_by(project_id=project_id).all()] *)
Definition tasks_of (db : t) (project_id : Z) : list Task.t :=
  filter (fun t => (Task.project_id t =? project_id)%Z) (tasks db).
End DB.

(** [any(member.id == user_id for member in project.members)] *)
Definition any_member (project : Project.t) (user_id : Z) : bool :=
  existsb (fun member => (User.id member =? user_id)%Z) (Project.members project).

(** The membership check of the analytics calls that admit members only. *)
Definition require_member (db : DB.t) (project_id user_id : Z)
  : result Project.t :=
  project <- DB.get_project_or_404 db project_id ;;
  if negb (any_member project user_id)
  then Raise (PermissionError "User is not a member of this project")
  else Ok project.

(** The membership check of the calls that admit the owner as well. *)
Definition require_member_or_owner (db : DB.t) (project_id user_id : Z)
  : result Project.t :=
  project <- DB.get_project_or_404 db project_id ;;
  let is_member :=
    any_member project user_id || (Project.owner_id project =? user_id)%Z in
  if negb is_member
  then Raise (PermissionError "User is not a member of this project")
  else Ok project.

Definition is_completed (t : Task.t) : bool :=
  TaskStatus.eqb (Task.status t) TaskStatus.completed.

(* ------------------------------------------------------------------ *)
(** ** analytics_service.py *)

(** Returned dictionaries, one record per shape. *)

Module WeekEntry.
Record t : Type := mk { week : Z * Z * Z; completed : nat }.
End WeekEntry.

Module MonthAmount.
Record t : Type := mk { month : Z * Z; amount : Q }.
End MonthAmount.

Module ProductivityMetrics.
Record t : Type := mk
  { total_tasks : nat;
    completed_tasks : nat;
    in_progress_tasks : nat;
    pending_tasks : nat;
    overdue_tasks : nat;
    completion_rate : Q;
    avg_completion_time_days : Q;
    tasks_completed_per_week : list WeekEntry.t }.
End ProductivityMetrics.

Module BudgetData.
Record t : Type := mk
  { allocated_amount : Q;
    spent_amount : Q;
    remaining_amount : Q;
    utilization_percentage : Q;
    is_over_budget : bool }.
End BudgetData.

Module ResourceUtilization.
Record t : Type := mk
  { budget : option BudgetData.t;          (* [None] is the empty dict *)
    total_expenses : Q;
    expenses_by_category : list (string * Q);
    monthly_expenses : list MonthAmount.t;
    cost_per_completed_task : Q;
    expenses_count : nat }.
End ResourceUtilization.

Module Bottleneck.
Record t : Type := mk
  { id : Z; title : string; subtask_count : nat; days_overdue : Z }.
End Bottleneck.

Module HealthStatus.
Inductive t : Type := healthy | warning | critical.
End HealthStatus.

Module ProjectHealth.
Record t : Type := mk
  { total_tasks : nat;
    completed_tasks : option nat;   (* the keys [completed_tasks] and *)
    overdue_tasks : option nat;     (* [overdue_tasks] are absent for an
                                       empty project *)
    overdue_percentage : Q;
    on_time_completion_rate : Q;
    average_delay_days : Q;
    health_score : Q;
    status : HealthStatus.t;
    bottleneck_tasks : list Bottleneck.t }.
End ProjectHealth.

Module ProjectStats.
Record t : Type := mk
  { project_id : Z;
    productivity_metrics : ProductivityMetrics.t;
    resource_utilization : ResourceUtilization.t;
    project_health : ProjectHealth.t;
    generated_at : datetime }.
End ProjectStats.

Module RiskFactor.
Inductive kind : Type := deadline | task_overdue | budget | workload | velocity.
Inductive level : Type := low | medium | high | critical.

(** The formatted text of a factor, by its template and arguments. *)
Inductive text : Type :=
| deadline_passed (days_ago : Z)
| deadline_close (days_left : Z) (incomplete : nat)
| tasks_overdue (overdue : nat) (percent_of_total : Q)
| budget_exceeded (by_percent : Q)
| budget_approaching_limit (utilization : Q)
| budget_monitor_closely (utilization : Q)
| high_task_load (tasks_per_member : Q)
| low_completion_rate (completion_rate : Q).

Record t : Type := mk
  { type : kind; severity : level; message : text; impact : Z }.
End RiskFactor.

(** Advisory strings, one constructor per literal (or template). *)
Module Advice.
Inductive t : Type :=
(* _generate_risk_recommendations *)
| prioritize_critical_tasks     (* "Prioritize critical tasks and consider deadline extension" *)
| add_team_members              (* "Consider adding team members or redistributing tasks" *)
| optimize_expenses             (* "Review and optimize expenses immediately" *)
| stricter_budget_monitoring    (* "Implement stricter budget monitoring and approval processes" *)
| redistribute_tasks            (* "Redistribute tasks more evenly across team members" *)
| automation_or_outsourcing     (* "Consider using task automation or outsourcing" *)
| complete_existing_tasks       (* "Focus on completing existing tasks before starting new ones" *)
| remove_impediments            (* "Analyze blockers and remove impediments" *)
| project_on_track              (* "Project is on track - maintain current practices" *)
(* _generate_performance_recommendations *)
| review_prioritization         (* "Review current task prioritization and focus areas" *)
| address_blockers              (* "Identify and address potential blockers or distractions" *)
| great_progress                (* "Great progress! Document successful practices for consistency" *)
| reduce_task_complexity        (* "Consider reducing task complexity or breaking down larger tasks" *)
| time_blocking                 (* "Implement time-blocking techniques for better focus" *)
| excellent_productivity        (* "Excellent productivity! Consider taking on additional responsibilities" *)
| consistent_work_patterns      (* "Build more consistent work patterns for better predictability" *)
(* _generate_variance_recommendations *)
| significant_variance          (* "Significant budget variance detected - immediate review required" *)
| monitor_category (category : string) (percent_over_plan : Q)
                                (* "Monitor {category} spending - {..:.1f}% over plan" *)
| category_under_budget (category : string)
                                (* "{category} under budget - consider reallocating funds" *)
| weekly_budget_reviews         (* "Implement weekly budget reviews and approval processes" *)
| analyze_each_expense          (* "Analyze each expense against project value and necessity" *)
| variance_acceptable           (* "Budget variance within acceptable range - maintain current controls" *)
| create_a_budget               (* "Create a budget for this project to enable variance analysis" *)
(* _generate_forecast_recommendations *)
| projected_to_exceed (overage : Q)
                                (* "Projected to exceed budget by {overage:.2f}" *)
| reduce_discretionary          (* "Consider reducing discretionary expenses or increasing budget" *)
| expenses_trending_upward      (* "Expenses trending upward - review spending drivers" *)
| stricter_approval_thresholds  (* "Implement stricter expense approval thresholds" *)
| expenses_trending_downward    (* "Expenses trending downward - good cost control" *)
| forecast_confidence_low       (* "Forecast confidence is low - establish more consistent spending patterns" *)
| add_more_expenses             (* "Add more expenses to enable forecasting" *)
(* get_cost_optimization_analysis and its recommendations *)
| start_tracking_expenses       (* "Start tracking expenses to enable cost optimization analysis" *)
| focus_on_high_priority        (* "Focus on high-priority optimization opportunities first" *)
| potential_savings_identified (total_potential : Q)
                                (* "Potential savings of {total_potential:.2f} identified" *)
| largest_category_review (category : string)
                                (* "{category} is largest expense category - review for optimization" *)
| cost_per_task_high            (* "Cost per task is high - review task complexity and resource allocation" *)
| regular_expense_audits        (* "Regular expense audits and vendor negotiations recommended" *)
(* the handlers of the finance analyses *)
| try_again_or_contact_support. (* "Please try again or contact support if the issue persists" *)

(** Equality of the strings the risk generator can emit; the set built
    by [list(set(recommendations))] compares them. *)
Definition eqb (a b : t) : bool :=
  match a, b with
  | prioritize_critical_tasks, prioritize_critical_tasks
  | add_team_members, add_team_members
  | optimize_expenses, optimize_expenses
  | stricter_budget_monitoring, stricter_budget_monitoring
  | redistribute_tasks, redistribute_tasks
  | automation_or_outsourcing, automation_or_outsourcing
  | complete_existing_tasks, complete_existing_tasks
  | remove_impediments, remove_impediments
  | project_on_track, project_on_track => true
  | _, _ => false
  end.
End Advice.

Module RiskAssessment.
Record t : Type := mk
  { overall_risk_score : Z;
    risk_level : RiskFactor.level;
    risk_factors : list RiskFactor.t;
    recommendations : list Advice.t }.
End RiskAssessment.

Module AnalyticsService.
Local Open Scope Q_scope.

(** *** get_productivity_metrics *)

Definition week_start (now : datetime) (i : nat) : datetime :=
  (now - weeks (Z.of_nat i + 1))%Z.

Definition week_end (now : datetime) (i : nat) : datetime :=
  (now - weeks (Z.of_nat i))%Z.

(** The condition of the comprehension that counts a week's tasks. *)
Definition completed_in_week (now : datetime) (i : nat) (t : Task.t) : bool :=
  is_completed t &&
  match Task.last_progress_update t with
  | Some upd => (week_start now i <=? upd)%Z && (upd <=? week_end now i)%Z
  | None => false
  end.

Definition week_completed (now : datetime) (tasks : list Task.t) (i : nat)
  : nat :=
  List.length (filter (completed_in_week now i) tasks).

Definition week_data (now : datetime) (tasks : list Task.t)
  : list WeekEntry.t :=
  rev (map (fun i => WeekEntry.mk (strftime_Ymd (week_start now i))
                                  (week_completed now tasks i))
           (range 12)).

(** [project_id] is optional; [if project_id:] also skips the value 0. *)
Definition get_productivity_metrics (db : DB.t) (now : datetime)
    (user_id : Z) (project_id : option Z) : result ProductivityMetrics.t :=
  let query := filter (fun t => (Task.owner_id t =? user_id)%Z) (DB.tasks db) in
  let tasks :=
    match project_id with
    | Some p =>
        if (p =? 0)%Z then query
        else filter (fun t => (Task.project_id t =? p)%Z) query
    | None => query
    end in
  let total_tasks := List.length tasks in
  let completed_tasks := List.length (filter is_completed tasks) in
  let in_progress_tasks :=
    List.length (filter (fun t => TaskStatus.eqb (Task.status t)
                                    TaskStatus.in_progress) tasks) in
  let pending_tasks :=
    List.length (filter (fun t => TaskStatus.eqb (Task.status t)
                                    TaskStatus.pending) tasks) in
  let overdue_tasks := List.length (filter (Task.is_overdue now) tasks) in
  completion_rate <-
    (if (0 <? total_tasks)%nat
     then q <- truediv (Qnat completed_tasks) (Qnat total_tasks) ;;
          Ok (q * 100)
     else Ok 0) ;;
  let completed_task_times :=
    flat_map (fun task =>
                match Task.created_at task with
                | Some created =>
                    if is_completed task
                    then [td_days (now - created)%Z] else []
                | None => []
                end) tasks in
  avg_completion_time <-
    (match completed_task_times with
     | [] => Ok 0
     | _ => truediv (inject_Z (sumZ completed_task_times))
                    (Qnat (List.length completed_task_times))
     end) ;;
  Ok (ProductivityMetrics.mk
        total_tasks completed_tasks in_progress_tasks pending_tasks
        overdue_tasks
        (round completion_rate 1)
        (round avg_completion_time 1)
        (week_data now tasks)).

(** *** get_resource_utilization *)

Definition month_start (now : datetime) (i : nat) : datetime :=
  (replace_day_1 now - days (Z.of_nat i * 30))%Z.

Definition month_end (now : datetime) (i : nat) : datetime :=
  (month_start now i + days 30)%Z.

(** The condition of the comprehension that sums a month's expenses. *)
Definition incurred_in_month (now : datetime) (i : nat) (e : Expense.t)
  : bool :=
  (month_start now i <=? Expense.incurred_at e)%Z &&
  (Expense.incurred_at e <=? month_end now i)%Z.

Definition month_total (now : datetime) (expenses : list Expense.t) (i : nat)
  : Q :=
  sum (map Expense.amount (filter (incurred_in_month now i) expenses)).

Definition monthly_expenses (now : datetime) (expenses : list Expense.t)
  : list MonthAmount.t :=
  rev (map (fun i => MonthAmount.mk (strftime_Ym (month_start now i))
                                    (month_total now expenses i))
           (range 12)).

Definition get_resource_utilization (db : DB.t) (now : datetime)
    (project_id user_id : Z) : result ResourceUtilization.t :=
  project <- require_member db project_id user_id ;;
  let budget := DB.budget_of db project_id in
  let expenses := DB.expenses_of db project_id in
  let tasks := DB.tasks_of db project_id in
  let budget_data :=
    match budget with
    | Some budget =>
        Some (BudgetData.mk
                (Budget.allocated_amount budget)
                (Budget.spent_amount budget)
                (Budget.remaining_amount budget)
                (Budget.utilization_percentage budget)
                (Qltb (Budget.allocated_amount budget)
                      (Budget.spent_amount budget)))
    | None => None
    end in
  let expenses_by_category :=
    fold_left (fun d expense =>
                 dict_add String.eqb
                   (str_or (Expense.category expense) "Uncategorized")
                   (Expense.amount expense) d)
              expenses [] in
  let completed_tasks := filter is_completed tasks in
  let total_expenses := sum (map Expense.amount expenses) in
  cost_per_task <-
    (match completed_tasks with
     | [] => Ok 0
     | _ => truediv total_expenses (Qnat (List.length completed_tasks))
     end) ;;
  Ok (ResourceUtilization.mk
        budget_data total_expenses expenses_by_category
        (monthly_expenses now expenses)
        (round cost_per_task 2)
        (List.length expenses)).

(** *** get_project_health *)

(** One turn of the loop over the completed tasks; the state is
    [(on_time_completed, total_delays)]. *)
Definition on_time_step (acc : nat * Z) (task : Task.t) : nat * Z :=
  let '(on_time_completed, total_delays) := acc in
  match Task.due_date task, Task.last_progress_update task with
  | Some due, Some upd =>
      let due_date := ensure_utc due in
      let completion_date := ensure_utc upd in
      if (completion_date <=? due_date)%Z
      then (S on_time_completed, total_delays)
      else (on_time_completed,
            (total_delays + td_days (completion_date - due_date))%Z)
  | _, _ => acc
  end.

Definition bottlenecks (now : datetime) (tasks : list Task.t)
  : list Bottleneck.t :=
  flat_map (fun task =>
              if (0 <? Task.subtasks task)%nat && Task.is_overdue now task
              then [Bottleneck.mk (Task.id task) (Task.title task)
                      (Task.subtasks task)
                      match Task.due_date task with
                      | Some due => td_days (now - ensure_utc due)%Z
                      | None => 0%Z
                      end]
              else []) tasks.

Definition bottleneck_key (b : Bottleneck.t) : Q :=
  inject_Z (Z.of_nat (Bottleneck.subtask_count b) * Bottleneck.days_overdue b).

(** [max(0, 100 - (overdue_percentage * 2) - ((100 - on_time_rate) * 0.5))] *)
Definition health_score_of (overdue_percentage on_time_rate : Q) : Q :=
  Qmax 0 (100 - (overdue_percentage * 2) - ((100 - on_time_rate) * (1#2))).

Definition status_of (health_score : Q) : HealthStatus.t :=
  if Qle_bool 80 health_score then HealthStatus.healthy
  else if Qle_bool 60 health_score then HealthStatus.warning
  else HealthStatus.critical.

Definition get_project_health (db : DB.t) (now : datetime)
    (project_id user_id : Z) : result ProjectHealth.t :=
  project <- require_member db project_id user_id ;;
  let tasks := DB.tasks_of db project_id in
  match tasks with
  | [] =>
      Ok (ProjectHealth.mk 0 None None 0 100 0 100 HealthStatus.healthy [])
  | _ =>
      let total_tasks := List.length tasks in
      let overdue_tasks := filter (Task.is_overdue now) tasks in
      let completed_tasks := filter is_completed tasks in
      let '(on_time_completed, total_delays) :=
        fold_left on_time_step completed_tasks (0%nat, 0%Z) in
      on_time_rate <-
        (match completed_tasks with
         | [] => Ok 100
         | _ => q <- truediv (Qnat on_time_completed)
                             (Qnat (List.length completed_tasks)) ;;
                Ok (q * 100)
         end) ;;
      avg_delay <-
        (if (0 <? List.length completed_tasks - on_time_completed)%nat
         then truediv (inject_Z total_delays)
                      (Qnat (List.length completed_tasks - on_time_completed))
         else Ok 0) ;;
      let bottleneck_tasks :=
        sorted_desc bottleneck_key (bottlenecks now tasks) in
      q <- truediv (Qnat (List.length overdue_tasks)) (Qnat total_tasks) ;;
      let overdue_percentage := q * 100 in
      let health_score := health_score_of overdue_percentage on_time_rate in
      let status := status_of health_score in
      Ok (ProjectHealth.mk
            total_tasks
            (Some (List.length completed_tasks))
            (Some (List.length overdue_tasks))
            (round overdue_percentage 1)
            (round on_time_rate 1)
            (round avg_delay 1)
            (round health_score 1)
            status
            (firstn 5 bottleneck_tasks))
  end.

(** *** get_project_stats *)

Definition get_project_stats (db : DB.t) (now : datetime)
    (user_id project_id : Z) : result ProjectStats.t :=
  productivity <- get_productivity_metrics db now user_id (Some project_id) ;;
  resources <- get_resource_utilization db now project_id user_id ;;
  health <- get_project_health db now project_id user_id ;;
  Ok (ProjectStats.mk project_id productivity resources health now).

(** *** get_risk_assessment *)

(** The accumulators of the assessment: [(risk_factors, risk_score)]. *)
Definition risk_state : Type := (list RiskFactor.t * Z)%type.

Definition fire (st : risk_state) (f : RiskFactor.t) (points : Z)
  : risk_state :=
  (fst st ++ [f], (snd st + points)%Z).

(** "Deadline risk analysis": the whole [if project.deadline:] block. *)
Definition deadline_risk (now : datetime) (project : Project.t)
    (tasks : list Task.t) (st : risk_state) : result risk_state :=
  match Project.deadline project with
  | Some deadline =>
      let project_deadline := ensure_utc deadline in
      let days_to_deadline := td_days (project_deadline - now)%Z in
      let incomplete_tasks := filter (fun t => negb (is_completed t)) tasks in
      let overdue_tasks := filter (Task.is_overdue now) tasks in
      if (days_to_deadline <=? 0)%Z then
        Ok (fire st (RiskFactor.mk RiskFactor.deadline RiskFactor.critical
                       (RiskFactor.deadline_passed (Z.abs days_to_deadline))
                       90) 40)
      else if (days_to_deadline <=? 7)%Z
              && (0 <? List.length incomplete_tasks)%nat then
        Ok (fire st (RiskFactor.mk RiskFactor.deadline RiskFactor.high
                       (RiskFactor.deadline_close days_to_deadline
                          (List.length incomplete_tasks))
                       70) 30)
      else if Qltb (Qnat (List.length tasks) * (3#10))
                   (Qnat (List.length overdue_tasks)) then
        q <- truediv (Qnat (List.length overdue_tasks))
                     (Qnat (List.length tasks)) ;;
        Ok (fire st (RiskFactor.mk RiskFactor.task_overdue RiskFactor.medium
                       (RiskFactor.tasks_overdue
                          (List.length overdue_tasks) (q * 100))
                       50) 20)
      else Ok st
  | None => Ok st
  end.

(** "Budget risk analysis" *)
Definition budget_risk (budget : option Budget.t) (st : risk_state)
  : risk_state :=
  match budget with
  | Some budget =>
      let utilization := Budget.utilization_percentage budget in
      if Qltb 100 utilization then
        fire st (RiskFactor.mk RiskFactor.budget RiskFactor.critical
                   (RiskFactor.budget_exceeded (utilization - 100)) 80) 35
      else if Qltb 90 utilization then
        fire st (RiskFactor.mk RiskFactor.budget RiskFactor.high
                   (RiskFactor.budget_approaching_limit utilization) 60) 25
      else if Qltb 75 utilization then
        fire st (RiskFactor.mk RiskFactor.budget RiskFactor.medium
                   (RiskFactor.budget_monitor_closely utilization) 40) 15
      else st
  | None => st
  end.

(** "Team workload risk" *)
Definition workload_risk (project : Project.t) (tasks : list Task.t)
    (st : risk_state) : result risk_state :=
  let team_size := (List.length (Project.members project) + 1)%nat in
  tasks_per_member <-
    (if (0 <? team_size)%nat
     then truediv (Qnat (List.length tasks)) (Qnat team_size)
     else Ok (Qnat (List.length tasks))) ;;
  if Qltb 10 tasks_per_member then
    Ok (fire st (RiskFactor.mk RiskFactor.workload RiskFactor.medium
                   (RiskFactor.high_task_load tasks_per_member) 45) 15)
  else Ok st.

(** "Velocity risk" *)
Definition velocity_risk (tasks : list Task.t) (st : risk_state)
  : result risk_state :=
  completion_rate <-
    (match tasks with
     | [] => Ok 0
     | _ => q <- truediv (Qnat (List.length (filter is_completed tasks)))
                         (Qnat (List.length tasks)) ;;
            Ok (q * 100)
     end) ;;
  if Qltb completion_rate 30 then
    Ok (fire st (RiskFactor.mk RiskFactor.velocity RiskFactor.high
                   (RiskFactor.low_completion_rate completion_rate) 65) 25)
  else Ok st.

Definition risk_level_of (risk_score : Z) : RiskFactor.level :=
  if (risk_score <? 30)%Z then RiskFactor.low
  else if (risk_score <? 60)%Z then RiskFactor.medium
  else if (risk_score <? 80)%Z then RiskFactor.high
  else RiskFactor.critical.

Definition critical_or_high (s : RiskFactor.level) : bool :=
  match s with
  | RiskFactor.critical | RiskFactor.high => true
  | _ => false
  end.

(** The advice one risk factor contributes (one turn of the loop). *)
Definition risk_advice (risk : RiskFactor.t) : list Advice.t :=
  match RiskFactor.type risk with
  | RiskFactor.deadline =>
      if critical_or_high (RiskFactor.severity risk)
      then [Advice.prioritize_critical_tasks; Advice.add_team_members]
      else []
  | RiskFactor.budget =>
      if critical_or_high (RiskFactor.severity risk)
      then [Advice.optimize_expenses; Advice.stricter_budget_monitoring]
      else []
  | RiskFactor.workload =>
      [Advice.redistribute_tasks; Advice.automation_or_outsourcing]
  | RiskFactor.velocity =>
      [Advice.complete_existing_tasks; Advice.remove_impediments]
  | RiskFactor.task_overdue => []
  end.

Definition _generate_risk_recommendations (risk_factors : list RiskFactor.t)
    (project : Project.t) (tasks : list Task.t) : list Advice.t :=
  let recommendations := flat_map risk_advice risk_factors in
  let recommendations :=
    match recommendations with
    | [] => recommendations ++ [Advice.project_on_track]
    | _ => recommendations
    end in
  list_set Advice.eqb recommendations.

Definition impact_key (f : RiskFactor.t) : Q := inject_Z (RiskFactor.impact f).

Definition get_risk_assessment (db : DB.t) (now : datetime)
    (project_id user_id : Z) : result RiskAssessment.t :=
  project <- require_member_or_owner db project_id user_id ;;
  let tasks := DB.tasks_of db project_id in
  let budget := DB.budget_of db project_id in
  let st : risk_state := ([], 0%Z) in
  st <- deadline_risk now project tasks st ;;
  let st := budget_risk budget st in
  st <- workload_risk project tasks st ;;
  st <- velocity_risk tasks st ;;
  let '(risk_factors, risk_score) := st in
  let risk_score := Z.min risk_score 100 in
  let risk_level := risk_level_of risk_score in
  Ok (RiskAssessment.mk
        risk_score risk_level
        (sorted_desc impact_key risk_factors)
        (_generate_risk_recommendations risk_factors project tasks)).

(** *** _generate_performance_recommendations *)

Inductive trend : Type := improving | declining | stable.
Inductive confidence : Type := high | medium | low.

Definition _generate_performance_recommendations (trend : trend)
    (predicted_rate : Q) (confidence : confidence) : list Advice.t :=
  let recommendations : list Advice.t := [] in
  let recommendations :=
    match trend with
    | declining => recommendations
                     ++ [Advice.review_prioritization; Advice.address_blockers]
    | improving => recommendations ++ [Advice.great_progress]
    | stable => recommendations
    end in
  let recommendations :=
    if Qltb predicted_rate 50
    then recommendations ++ [Advice.reduce_task_complexity; Advice.time_blocking]
    else if Qltb 80 predicted_rate
    then recommendations ++ [Advice.excellent_productivity]
    else recommendations in
  let recommendations :=
    match confidence with
    | low => recommendations ++ [Advice.consistent_work_patterns]
    | _ => recommendations
    end in
  recommendations.


(** *** get_trend_analysis and _generate_trend_insights *)

Module DayEntry.
Record t : Type := mk
  { date : Z * Z * Z;
    productivity_score : Q;
    tasks_created : nat;
    tasks_completed : nat }.
End DayEntry.

Module Insight.
Inductive t : Type :=
| strong_improvement      (* "Strong productivity improvement trend detected" *)
| gradual_improvement     (* "Gradual productivity improvement observed" *)
| significant_decline     (* "Significant productivity decline - review workload and processes" *)
| slight_decline          (* "Slight productivity decline - monitor closely" *)
| stable_levels           (* "Stable productivity levels maintained" *)
| excellent_performance   (* "Excellent recent performance - keep up the great work!" *)
| consider_breaking_down. (* "Consider breaking down tasks or adjusting workload" *)
End Insight.

Module TrendSummary.
Record t : Type := mk
  { direction : trend;
    velocity : Q;
    recent_average : Q;
    earlier_average : Q }.
End TrendSummary.

Module TrendAnalysis.
Record t : Type := mk
  { period : datetime * datetime;      (* start_date, end_date *)
    productivity_trend : list DayEntry.t;
    trend_summary : TrendSummary.t;
    insights : list Insight.t }.
End TrendAnalysis.

(** The query of the trend and prediction calls: the tasks of the owner
    created at or after [start_date], of one project if [project_id] is
    given and not 0.  A task without creation timestamp does not pass
    the comparison. *)
Definition tasks_created_since (db : DB.t) (user_id : Z)
    (project_id : option Z) (start_date : datetime) : list Task.t :=
  let query :=
    filter (fun t => (Task.owner_id t =? user_id)%Z
                     && match Task.created_at t with
                        | Some created => (start_date <=? created)%Z
                        | None => false
                        end)
           (DB.tasks db) in
  match project_id with
  | Some p =>
      if (p =? 0)%Z then query
      else filter (fun t => (Task.project_id t =? p)%Z) query
  | None => query
  end.

Definition _generate_trend_insights (trend_data : list DayEntry.t)
    (direction : trend) (velocity : Q) : list Insight.t :=
  let insights : list Insight.t := [] in
  let insights :=
    match direction with
    | improving =>
        if Qltb 10 velocity then insights ++ [Insight.strong_improvement]
        else insights ++ [Insight.gradual_improvement]
    | declining =>
        if Qltb 10 velocity then insights ++ [Insight.significant_decline]
        else insights ++ [Insight.slight_decline]
    | stable => insights ++ [Insight.stable_levels]
    end in
  let recent_week :=
    if (7 <=? List.length trend_data)%nat then last_n 7 trend_data
    else trend_data in
  let avg_score := np_mean (map DayEntry.productivity_score recent_week) in
  match avg_score with
  | Some avg_score =>
      if Qltb 80 avg_score then insights ++ [Insight.excellent_performance]
      else if Qltb avg_score 40
      then insights ++ [Insight.consider_breaking_down]
      else insights
  | None => insights         (* comparisons with [nan] are false *)
  end.

(** The counters of the tasks, by the key of their creation timestamp. *)
Definition tally_by {K} (eqb : K -> K -> bool) (key : datetime -> K)
    (tasks : list Task.t) : list (K * (nat * nat)) :=
  fold_left (fun d task =>
               match Task.created_at task with
               | Some created => tally_add eqb (key created) (is_completed task) d
               | None => d
               end)
            tasks [].

(** [(completed / max(created, 1)) * 100] *)
Definition rate_of (counters : nat * nat) : result Q :=
  let '(created, completed) := counters in
  q <- truediv (Qnat completed) (Qnat (Nat.max created 1)) ;;
  Ok (q * 100).

(** [t - timedelta(days=n)]: the constructor of the [timedelta] refuses
    more than 999999999 days, the subtraction a result before
    [datetime.min] or after [datetime.max]; both raise [OverflowError]. *)
Definition minus_days (t : datetime) (n : Z) : result datetime :=
  if (999999999 <? Z.abs n)%Z then Raise OverflowError
  else
    let r := (t - DateTime.days n)%Z in
    if (r <? datetime_min)%Z || (datetime_max <? r)%Z
    then Raise OverflowError
    else Ok r.

(** [end_date] is the reading of the clock; the days of the loop lie
    between [start_date] and [end_date]. *)
Definition get_trend_analysis (db : DB.t) (now : datetime) (user_id : Z)
    (project_id : option Z) (days : Z) : result TrendAnalysis.t :=
  let end_date := now in
  start_date <- minus_days end_date days ;;
  let tasks := tasks_created_since db user_id project_id start_date in
  let daily_data := tally_by Ymd_eqb strftime_Ymd tasks in
  productivity_trend <-
    mapM (fun i =>
            let day := strftime_Ymd (end_date - DateTime.days (Z.of_nat i))%Z in
            let data := tally_get Ymd_eqb day daily_data in
            productivity_score <- rate_of data ;;
            Ok (DayEntry.mk day (round productivity_score 1)
                            (fst data) (snd data)))
         (range (Z.to_nat days)) ;;
  let productivity_trend := rev productivity_trend in
  let recent_scores :=
    map DayEntry.productivity_score (last_n 14 productivity_trend) in
  let earlier_scores :=
    map DayEntry.productivity_score
        (slice_from_end 28 14 productivity_trend) in
  let recent_avg :=
    match np_mean recent_scores with Some m => m | None => 0 end in
  let earlier_avg :=
    match np_mean earlier_scores with Some m => m | None => 0 end in
  let trend_direction :=
    if Qltb earlier_avg recent_avg then improving
    else if Qltb recent_avg earlier_avg then declining
    else stable in
  let trend_velocity := abs (recent_avg - earlier_avg) in
  Ok (TrendAnalysis.mk
        (start_date, end_date)
        productivity_trend
        (TrendSummary.mk trend_direction (round trend_velocity 1)
                         (round recent_avg 1) (round earlier_avg 1))
        (_generate_trend_insights productivity_trend trend_direction
                                  trend_velocity)).

(** *** get_performance_prediction *)

Module PerformancePrediction.
Record t : Type := mk
  { predicted_weekly_completion_rate : Q;
    trend : option AnalyticsService.trend;   (* [None] is ['unknown'] *)
    trend_slope : option Q;
    prediction_confidence : confidence;
    insufficient_data : bool;    (* the key [message] is present *)
    historical_average : option Q;
    data_points : option nat;
    recommendations : option (list Advice.t) }.
End PerformancePrediction.

(** Least-squares line through [(0, y0), (1, y1), ...]: slope and
    intercept. *)
Definition linear_regression (y : list Q) : result (Q * Q) :=
  let x := map Qnat (range (List.length y)) in
  let n := Qnat (List.length x) in
  let sum_x := sum x in
  let sum_y := sum y in
  let sum_xy := sum (map (fun xy => fst xy * snd xy) (combine x y)) in
  let sum_x2 := sum (map (fun xi => xi * xi) x) in
  slope <-
    (if negb (Qeq_bool (n * sum_x2 - sum_x * sum_x) 0)
     then truediv (n * sum_xy - sum_x * sum_y) (n * sum_x2 - sum_x * sum_x)
     else Ok 0) ;;
  intercept <- truediv (sum_y - slope * sum_x) n ;;
  Ok (slope, intercept).

Definition get_performance_prediction (db : DB.t) (now : datetime)
    (user_id : Z) (project_id : option Z)
  : result PerformancePrediction.t :=
  let end_date := now in
  let start_date := (end_date - DateTime.days 60)%Z in
  let tasks := tasks_created_since db user_id project_id start_date in
  let weekly_data := tally_by Ym_eqb strftime_YWU tasks in
  weekly_rates <- mapM (fun kv => rate_of (snd kv)) weekly_data ;;
  if (List.length weekly_rates <? 3)%nat
  then Ok (PerformancePrediction.mk 0 None None low true None None None)
  else
    line <- linear_regression weekly_rates ;;
    let '(slope, intercept) := line in
    let next_week_x := Qnat (List.length weekly_rates) in
    let predicted_rate := slope * next_week_x + intercept in
    let predicted_rate := Qmax 0 (Qmin 100 predicted_rate) in
    let trend :=
      if Qltb 2 slope then improving
      else if Qltb slope (-2) then declining
      else stable in
    let variance :=
      if (1 <? List.length weekly_rates)%nat
      then match np_var weekly_rates with Some v => v | None => 0 end
      else 0 in
    let confidence :=
      if Qltb variance 100 then high
      else if Qltb variance 400 then medium
      else low in
    Ok (PerformancePrediction.mk
          (round predicted_rate 1)
          (Some trend)
          (Some (round slope 2))
          confidence
          false
          (match np_mean weekly_rates with
           | Some m => Some (round m 1)
           | None => None
           end)
          (Some (List.length weekly_rates))
          (Some (_generate_performance_recommendations
                   trend predicted_rate confidence))).

(** *** get_user_dashboard

    The messages the function prints are left out.  A user row is read
    through [Account]: its name fields and the projects of the user. *)

Module Account.
Record t : Type := mk
  { id : Z;
    full_name : option string;
    username : string;
    projects : list Project.t }.
End Account.

Module ProjectSummary.
Record t : Type := mk
  { id : Z;
    name : string;
    health_score : Q;
    status : option HealthStatus.t;     (* [None] is ['unknown'] *)
    total_tasks : nat;
    overdue_tasks : nat }.
End ProjectSummary.

Module StatusDistribution.
Record t : Type := mk
  { pending : nat; in_progress : nat; completed : nat }.
End StatusDistribution.

Module Activity.
Record t : Type := mk
  { id : Z;
    title : string;
    status : TaskStatus.t;
    project_name : string;
    last_updated : option datetime }.
End Activity.

Module Dashboard.
Record t : Type := mk
  { user_id : Z;
    user_name : string;
    total_tasks : nat;
    completed_tasks : nat;
    productivity_metrics : ProductivityMetrics.t;
    project_summaries : list ProjectSummary.t;
    status_distribution : StatusDistribution.t;
    recent_activity : list Activity.t;
    projects_count : nat;
    generated_at : datetime }.
End Dashboard.

(** [User.query.get_or_404(user_id)] *)
Definition get_user_or_404 (users : list Account.t) (user_id : Z)
  : result Account.t :=
  match find (fun u => (Account.id u =? user_id)%Z) users with
  | Some u => Ok u
  | None => Raise NotFound
  end.

(** The metrics that stand in when the productivity section fails. *)
Definition default_productivity : ProductivityMetrics.t :=
  ProductivityMetrics.mk 0 0 0 0 0 0 0 [].

(** The summary that stands in when the health section of a project
    fails. *)
Definition minimal_summary (project : Project.t) : ProjectSummary.t :=
  ProjectSummary.mk (Project.id project) (Project.name project)
    0 None 0 0.

(** One turn of the loop over the projects: the body of the [try] reads
    four keys of the health dictionary; a key that is absent raises
    [KeyError], which the handler catches like any other exception. *)
Definition project_summary (db : DB.t) (now : datetime) (user_id : Z)
    (project : Project.t) : ProjectSummary.t :=
  match get_project_health db now (Project.id project) user_id with
  | Ok health =>
      match ProjectHealth.overdue_tasks health with
      | Some overdue_tasks =>
          ProjectSummary.mk (Project.id project) (Project.name project)
            (ProjectHealth.health_score health)
            (Some (ProjectHealth.status health))
            (ProjectHealth.total_tasks health)
            overdue_tasks
      | None => minimal_summary project
      end
  | Raise _ => minimal_summary project
  end.

(** [task.project.name if task.project else 'Unknown'] *)
Definition project_name_of (db : DB.t) (task : Task.t) : string :=
  match find (fun p => (Project.id p =? Task.project_id task)%Z)
             (DB.projects db) with
  | Some p => Project.name p
  | None => "Unknown"
  end.

Definition get_user_dashboard (db : DB.t) (users : list Account.t)
    (now : datetime) (user_id : Z) : result Dashboard.t :=
  user <- get_user_or_404 users user_id ;;
  let projects := Account.projects user in
  let overall_productivity :=
    match get_productivity_metrics db now user_id None with
    | Ok m => m
    | Raise _ => default_productivity
    end in
  let project_summaries := map (project_summary db now user_id) projects in
  let all_tasks :=
    filter (fun t => (Task.owner_id t =? user_id)%Z) (DB.tasks db) in
  let status_distribution :=
    StatusDistribution.mk
      (List.length (filter (fun t => TaskStatus.eqb (Task.status t)
                                       TaskStatus.pending) all_tasks))
      (List.length (filter (fun t => TaskStatus.eqb (Task.status t)
                                       TaskStatus.in_progress) all_tasks))
      (List.length (filter is_completed all_tasks)) in
  let recent_cutoff := (now - DateTime.days 7)%Z in
  let recent_tasks :=
    filter (fun t => match Task.last_progress_update t with
                     | Some upd => (recent_cutoff <=? upd)%Z
                     | None => false
                     end) all_tasks in
  let recent_activity :=
    map (fun task =>
           Activity.mk (Task.id task) (Task.title task) (Task.status task)
             (project_name_of db task)
             (Task.last_progress_update task))
        (last_n 10 recent_tasks) in
  let user_name :=
    match Account.full_name user with
    | Some n => if String.eqb n "" then Account.username user else n
    | None => Account.username user
    end in
  Ok (Dashboard.mk
        user_id user_name
        (ProductivityMetrics.total_tasks overall_productivity)
        (ProductivityMetrics.completed_tasks overall_productivity)
        overall_productivity
        project_summaries
        status_distribution
        recent_activity
        (List.length projects)
        now).

End AnalyticsService.

(* ------------------------------------------------------------------ *)
(** ** finance_service.py *)

(** The [data] dictionary of an expense request; [None] is an absent key.
    Numbers arrive well-formed, so [float(...)] of them does not raise. *)
Module ExpenseData.
Record t : Type := mk
  { task_id : option (option Z);
    amount : option Q;
    description : option string;
    category : option (option string) }.
End ExpenseData.

Module CategoryAnalysis.
Record t : Type := mk
  { planned : Q; actual : Q; variance : Q; variance_percentage : Q;
    expense_count : nat }.
End CategoryAnalysis.

Module MonthVariance.
Record t : Type := mk
  { month : Z * Z; planned : Q; actual : Q; variance : Q;
    variance_percentage : Q }.
End MonthVariance.

Module Impact.
Inductive t : Type := high | medium | low.
End Impact.

Module CostDriver.
Record t : Type := mk
  { category : string; variance : Q; variance_percentage : Q;
    impact : Impact.t }.
End CostDriver.

Module VarianceAnalysis.
Inductive status_t : Type :=
| no_budget | error
| on_track | minor_variance | significant_variance | critical_variance.

Inductive message_t : Type :=
| no_budget_defined             (* "No budget defined for this project" *)
| error_analyzing (e : exn).    (* "Error analyzing budget variance: {e}" *)

Record t : Type := mk
  { has_budget : bool;
    message : option message_t;
    budget_amount : Q;
    total_spent : Q;
    total_variance : Q;
    variance_percentage : Q;
    category_analysis : list (string * CategoryAnalysis.t);
    monthly_variance : list MonthVariance.t;
    cost_drivers : list CostDriver.t;
    status : status_t;
    recommendations : list Advice.t }.
End VarianceAnalysis.

Module ForecastPoint.
Record t : Type := mk
  { month : Z * Z; predicted_amount : Q; confidence : Impact.t }.
End ForecastPoint.

Module HistoricalData.
Inductive direction : Type := increasing | decreasing | stable.
Record t : Type := mk
  { months_analyzed : nat;
    average_monthly_spending : Q;
    trend_direction : direction;
    trend_rate : Q }.
End HistoricalData.

Module BudgetImpact.
Record t : Type := mk
  { remaining_budget : Q;
    forecast_vs_remaining : Q;
    will_exceed_budget : bool;
    projected_total_spending : Q;
    projected_budget_utilization : Q }.
End BudgetImpact.

Module CategoryForecast.
Record t : Type := mk { monthly_average : Q; forecast_total : Q }.
End CategoryForecast.

Module ExpenseForecast.
Inductive message_t : Type :=
| insufficient_data   (* "Insufficient historical data for forecasting
                          (minimum 3 expenses required)" *)
| error_generating (e : exn).   (* "Error generating expense forecast: {e}" *)

Record t : Type := mk
  { forecast_available : bool;
    message : option message_t;
    data_points : option nat;          (* absent from a forecast *)
    forecast_period_months : Z;
    historical_data : option HistoricalData.t;   (* [None]: empty dict *)
    forecast_data : list ForecastPoint.t;
    total_forecast : Q;
    budget_impact : option BudgetImpact.t;       (* [None]: empty dict *)
    category_forecasts : list (string * CategoryForecast.t);
    recommendations : list Advice.t }.
End ExpenseForecast.

Module Opportunity.
Inductive t : Type :=
| high_cost_category (category : string) (amount percentage : Q)
                     (potential_savings : Q) (priority : Impact.t)
| frequent_small_expenses (category : string) (count : nat)
                     (average_amount : Q)
                     (potential_savings : Q) (priority : Impact.t)
| spending_spike (month : Z * Z) (amount average_monthly : Q)
                     (potential_savings : Q) (priority : Impact.t).

Definition potential_savings (o : t) : Q :=
  match o with
  | high_cost_category _ _ _ s _
  | frequent_small_expenses _ _ _ s _
  | spending_spike _ _ _ s _ => s
  end.

Definition priority (o : t) : Impact.t :=
  match o with
  | high_cost_category _ _ _ _ p
  | frequent_small_expenses _ _ _ _ p
  | spending_spike _ _ _ _ p => p
  end.
End Opportunity.

Module CostEfficiency.
Inductive rating : Type := excellent | good | needs_improvement.
Record t : Type := mk
  { cost_per_completed_task : Q;
    total_completed_tasks : nat;
    efficiency_rating : rating }.
End CostEfficiency.

Module CostOptimization.
Inductive message_t : Type :=
| no_expenses_found             (* "No expenses found for analysis" *)
| error_analyzing (e : exn).    (* "Error analyzing cost optimization: {e}" *)

Record t : Type := mk
  { has_expenses : bool;
    message : option message_t;
    total_spending : Q;
    category_breakdown : list (string * Q);
    optimization_opportunities : list Opportunity.t;
    cost_efficiency : option CostEfficiency.t;   (* [None]: empty dict *)
    potential_total_savings : Q;
    recommendations : list Advice.t }.
End CostOptimization.

Module FinanceService.
Local Open Scope Q_scope.

(** *** Rows of the session *)

(** The first row satisfying [p] is the object a query's [.first()] or
    [get_or_404] hands out; assigning to its attributes rewrites that row. *)
Fixpoint update_first {A} (p : A -> bool) (f : A -> A) (l : list A) : list A :=
  match l with
  | [] => []
  | x :: l' => if p x then f x :: l' else x :: update_first p f l'
  end.

(** [db.session.delete(row)] *)
Fixpoint remove_first {A} (p : A -> bool) (l : list A) : list A :=
  match l with
  | [] => []
  | x :: l' => if p x then l' else x :: remove_first p l'
  end.

(** The primary key the database gives a new row. *)
Definition next_id (ids : list Z) : Z :=
  (fold_left Z.max ids 0 + 1)%Z.

Definition set_budget (db : DB.t) (project_id : Z) (f : Budget.t -> Budget.t)
  : DB.t :=
  DB.mk (DB.projects db) (DB.tasks db)
    (update_first (fun b => (Budget.project_id b =? project_id)%Z) f
       (DB.budgets db))
    (DB.expenses db) (DB.notifications db).

Definition set_expenses (db : DB.t) (expenses : list Expense.t) : DB.t :=
  DB.mk (DB.projects db) (DB.tasks db) (DB.budgets db) expenses
    (DB.notifications db).

Definition add_notifications (db : DB.t) (ns : list Notification.t) : DB.t :=
  DB.mk (DB.projects db) (DB.tasks db) (DB.budgets db) (DB.expenses db)
    (DB.notifications db ++ ns).

(** *** create_budget

    The [data] of the request: the allocated amount and the currency,
    each possibly absent.  A new budget has spent nothing. *)
Definition create_budget (db : DB.t) (user_id project_id : Z)
    (allocated_amount : option Q) (currency : option string)
  : result (DB.t * Budget.t) :=
  project <- require_member db project_id user_id ;;
  match DB.budget_of db project_id with
  | Some _ => Raise (ValueError "Budget already exists for this project")
  | None =>
      let budget :=
        Budget.mk (next_id (map Budget.id (DB.budgets db))) project_id
          (match allocated_amount with Some a => a | None => 0 end)
          0
          (match currency with Some c => c | None => "USD"%string end) in
      Ok (DB.mk (DB.projects db) (DB.tasks db) (DB.budgets db ++ [budget])
            (DB.expenses db) (DB.notifications db),
          budget)
  end.

(** *** _create_budget_overrun_notification

    Adds one notification per member to the session.  The e-mails are
    left out: a failure to send one is caught and logged on the spot. *)
Definition _create_budget_overrun_notification (db : DB.t)
    (project : Project.t) (budget : Budget.t) (user_id : Z) : result DB.t :=
  let overrun_amount :=
    Budget.spent_amount budget - Budget.allocated_amount budget in
  q <- truediv overrun_amount (Budget.allocated_amount budget) ;;
  let overrun_percentage := q * 100 in
  let message :=
    Notification.budget_overrun (Project.name project)
      (Budget.currency budget) overrun_amount overrun_percentage in
  Ok (add_notifications db
        (map (fun member => Notification.mk (User.id member) message)
             (Project.members project))).

(** *** add_expense

    The new expense is stamped with the instant of the call. *)
Definition add_expense (db : DB.t) (now : datetime) (user_id project_id : Z)
    (data : ExpenseData.t) : result (DB.t * Expense.t) :=
  project <- require_member db project_id user_id ;;
  let expense :=
    Expense.mk
      (next_id (map Expense.id (DB.expenses db)))
      project_id
      (match ExpenseData.task_id data with Some v => v | None => None end)
      (match ExpenseData.amount data with Some v => v | None => 0 end)
      (match ExpenseData.description data with
       | Some v => v | None => ""%string end)
      (match ExpenseData.category data with
       | Some v => v | None => Some "General"%string end)
      user_id
      now in
  let db := set_expenses db (DB.expenses db ++ [expense]) in
  db <-
    (match DB.budget_of db project_id with
     | Some budget =>
         let budget :=
           Budget.with_spent_amount budget
             (Budget.spent_amount budget + Expense.amount expense) in
         let db := set_budget db project_id (fun _ => budget) in
         if Qltb (Budget.allocated_amount budget) (Budget.spent_amount budget)
         then _create_budget_overrun_notification db project budget user_id
         else Ok db
     | None => Ok db
     end) ;;
  Ok (db, expense).

(** [expense.project]: the project row the expense points to. *)
Definition project_of_expense (db : DB.t) (expense : Expense.t)
  : result Project.t :=
  match find (fun p => (Project.id p =? Expense.project_id expense)%Z)
             (DB.projects db) with
  | Some p => Ok p
  | None => Raise AttributeError
  end.

(** *** update_expense *)
Definition update_expense (db : DB.t) (user_id expense_id : Z)
    (data : ExpenseData.t) : result (DB.t * Expense.t) :=
  expense <- DB.get_expense_or_404 db expense_id ;;
  project <- project_of_expense db expense ;;
  if negb (any_member project user_id)
  then Raise (PermissionError "User is not a member of this project")
  else
    let old_amount := Expense.amount expense in
    let expense :=
      Expense.mk
        (Expense.id expense)
        (Expense.project_id expense)
        (match ExpenseData.task_id data with
         | Some v => v | None => Expense.task_id expense end)
        (match ExpenseData.amount data with
         | Some v => v | None => Expense.amount expense end)
        (match ExpenseData.description data with
         | Some v => v | None => Expense.description expense end)
        (match ExpenseData.category data with
         | Some v => v | None => Expense.category expense end)
        (Expense.created_by expense)
        (Expense.incurred_at expense) in
    let db :=
      set_expenses db
        (update_first (fun e => (Expense.id e =? expense_id)%Z)
           (fun _ => expense) (DB.expenses db)) in
    let db :=
      match DB.budget_of db (Expense.project_id expense) with
      | Some budget =>
          let amount_difference := Expense.amount expense - old_amount in
          set_budget db (Expense.project_id expense)
            (fun b => Budget.with_spent_amount b
                        (Budget.spent_amount b + amount_difference))
      | None => db
      end in
    Ok (db, expense).

(** *** delete_expense *)
Definition delete_expense (db : DB.t) (user_id expense_id : Z)
  : result (DB.t * bool) :=
  expense <- DB.get_expense_or_404 db expense_id ;;
  project <- project_of_expense db expense ;;
  if negb (any_member project user_id)
  then Raise (PermissionError "User is not a member of this project")
  else
    let db :=
      match DB.budget_of db (Expense.project_id expense) with
      | Some budget =>
          set_budget db (Expense.project_id expense)
            (fun b => Budget.with_spent_amount b
                        (Budget.spent_amount b - Expense.amount expense))
      | None => db
      end in
    let db :=
      set_expenses db
        (remove_first (fun e => (Expense.id e =? expense_id)%Z)
           (DB.expenses db)) in
    Ok (db, true).

(** *** get_budget_variance_analysis *)

Definition category_of (e : Expense.t) : string :=
  str_or (Expense.category e) "General".

Definition current_month (now : datetime) : datetime := replace_day_1 now.

Definition month_start (now : datetime) (i : nat) : datetime :=
  (current_month now - days (Z.of_nat i * 30))%Z.

Definition month_end (now : datetime) (i : nat) : datetime :=
  (month_start now i + days 30)%Z.

(** The condition of the comprehension that selects a month's expenses. *)
Definition incurred_in_month (now : datetime) (i : nat) (e : Expense.t)
  : bool :=
  (month_start now i <=? Expense.incurred_at e)%Z &&
  (Expense.incurred_at e <=? month_end now i)%Z.

Definition month_expenses (now : datetime) (expenses : list Expense.t)
    (i : nat) : list Expense.t :=
  filter (incurred_in_month now i) expenses.

Definition month_actual (now : datetime) (expenses : list Expense.t)
    (i : nat) : Q :=
  sum (map Expense.amount (month_expenses now expenses i)).

(** One turn of the loop over the last six months. *)
Definition month_variance (now : datetime) (budget : Budget.t)
    (expenses : list Expense.t) (i : nat) : result MonthVariance.t :=
  let month_actual := month_actual now expenses i in
  month_planned <-
    (if Qltb 0 (Budget.allocated_amount budget)
     then truediv (Budget.allocated_amount budget) 12
     else Ok 0) ;;
  let variance := month_actual - month_planned in
  variance_percentage <-
    (if Qltb 0 month_planned
     then q <- truediv (month_actual - month_planned) month_planned ;;
          Ok (q * 100)
     else Ok 0) ;;
  Ok (MonthVariance.mk
        (strftime_Ym (month_start now i))
        (round month_planned 2) (round month_actual 2)
        (round variance 2) (round variance_percentage 1)).

Definition _get_variance_status (variance_percentage : Q)
  : VarianceAnalysis.status_t :=
  if Qle_bool (abs variance_percentage) 5 then VarianceAnalysis.on_track
  else if Qle_bool (abs variance_percentage) 15
  then VarianceAnalysis.minor_variance
  else if Qle_bool (abs variance_percentage) 30
  then VarianceAnalysis.significant_variance
  else VarianceAnalysis.critical_variance.

Definition _generate_variance_recommendations
    (category_analysis : list (string * CategoryAnalysis.t))
    (cost_drivers : list CostDriver.t) (variance_percentage : Q)
  : list Advice.t :=
  let recommendations : list Advice.t := [] in
  let recommendations :=
    if Qltb 20 (abs variance_percentage)
    then recommendations ++ [Advice.significant_variance]
    else recommendations in
  let recommendations :=
    fold_left
      (fun recommendations driver =>
         if Qltb 0 (CostDriver.variance driver)
         then recommendations
                ++ [Advice.monitor_category (CostDriver.category driver)
                      (abs (CostDriver.variance_percentage driver))]
         else recommendations
                ++ [Advice.category_under_budget (CostDriver.category driver)])
      (firstn 3 cost_drivers) recommendations in
  let recommendations :=
    if Qltb 10 variance_percentage
    then recommendations
           ++ [Advice.weekly_budget_reviews; Advice.analyze_each_expense]
    else recommendations in
  match recommendations with
  | [] => recommendations ++ [Advice.variance_acceptable]
  | _ => recommendations
  end.

Definition no_budget_payload : VarianceAnalysis.t :=
  VarianceAnalysis.mk false (Some VarianceAnalysis.no_budget_defined)
    0 0 0 0 [] [] [] VarianceAnalysis.no_budget [Advice.create_a_budget].

(** The "safe default response" of the handler. *)
Definition variance_error_payload (e : exn) : VarianceAnalysis.t :=
  VarianceAnalysis.mk false (Some (VarianceAnalysis.error_analyzing e))
    0 0 0 0 [] [] [] VarianceAnalysis.error
    [Advice.try_again_or_contact_support].

Definition cost_driver_key (d : CostDriver.t) : Q :=
  abs (CostDriver.variance d).

(** The body of the [try] statement. *)
Definition variance_analysis_body (db : DB.t) (now : datetime)
    (user_id project_id : Z) : result VarianceAnalysis.t :=
  project <- require_member_or_owner db project_id user_id ;;
  let budget := DB.budget_of db project_id in
  let expenses := DB.expenses_of db project_id in
  match budget with
  | None => Ok no_budget_payload
  | Some budget =>
      let unique_categories :=
        fold_left (fun s expense => set_add String.eqb (category_of expense) s)
                  expenses [] in
      let unique_categories :=
        match unique_categories with
        | [] => ["General"%string]
        | _ => unique_categories
        end in
      planned_per_category <-
        (if (0 <? List.length unique_categories)%nat
         then truediv (Budget.allocated_amount budget)
                      (Qnat (List.length unique_categories))
         else Ok 0) ;;
      category_analysis <-
        mapM (fun category =>
                let category_expenses :=
                  filter (fun e => String.eqb (category_of e) category)
                         expenses in
                let actual_amount :=
                  sum (map Expense.amount category_expenses) in
                let variance := actual_amount - planned_per_category in
                variance_percentage <-
                  (if Qltb 0 planned_per_category
                   then q <- truediv (actual_amount - planned_per_category)
                                     planned_per_category ;;
                        Ok (q * 100)
                   else Ok 0) ;;
                Ok (category,
                    CategoryAnalysis.mk
                      (round planned_per_category 2)
                      (round actual_amount 2)
                      (round variance 2)
                      (round variance_percentage 1)
                      (List.length category_expenses)))
             unique_categories ;;
      monthly_variance <- mapM (month_variance now budget expenses) (range 6) ;;
      let monthly_variance := rev monthly_variance in
      let total_spent := sum (map Expense.amount expenses) in
      let total_variance := total_spent - Budget.allocated_amount budget in
      variance_percentage <-
        (if Qltb 0 (Budget.allocated_amount budget)
         then q <- truediv total_variance (Budget.allocated_amount budget) ;;
              Ok (q * 100)
         else Ok 0) ;;
      let cost_drivers :=
        flat_map
          (fun '(category, data) =>
             if Qltb 20 (abs (CategoryAnalysis.variance_percentage data))
             then [CostDriver.mk category
                     (CategoryAnalysis.variance data)
                     (CategoryAnalysis.variance_percentage data)
                     (if Qltb 50 (abs (CategoryAnalysis.variance_percentage data))
                      then Impact.high else Impact.medium)]
             else [])
          category_analysis in
      let cost_drivers := sorted_desc cost_driver_key cost_drivers in
      Ok (VarianceAnalysis.mk
            true None
            (round (Budget.allocated_amount budget) 2)
            (round total_spent 2)
            (round total_variance 2)
            (round variance_percentage 1)
            category_analysis monthly_variance cost_drivers
            (_get_variance_status variance_percentage)
            (_generate_variance_recommendations
               category_analysis cost_drivers variance_percentage))
  end.

Definition get_budget_variance_analysis (db : DB.t) (now : datetime)
    (user_id project_id : Z) : result VarianceAnalysis.t :=
  try_except (variance_analysis_body db now user_id project_id)
             (fun e => Ok (variance_error_payload e)).

(** *** get_expense_forecasting *)

(** [cv < c] for [cv = (np.sqrt(variance) / mean) if mean > 0 else 0] and
    a positive [c], without the square root: for a positive mean the
    test is [variance < (c * mean)^2]. *)
Definition cv_lt (variance mean_amount c : Q) : bool :=
  if Qltb 0 mean_amount
  then Qltb variance ((c * mean_amount) * (c * mean_amount))
  else Qltb 0 c.

Definition _calculate_forecast_confidence (historical_amounts : list Q)
    (trend_slope : Q) : Impact.t :=
  if (List.length historical_amounts <? 3)%nat then Impact.low
  else
    match np_var historical_amounts, np_mean historical_amounts with
    | Some variance, Some mean_amount =>
        if cv_lt variance mean_amount (2#10)
           && Qltb (abs trend_slope) (mean_amount * (1#10))
        then Impact.high
        else if cv_lt variance mean_amount (5#10) then Impact.medium
        else Impact.low
    | _, _ => Impact.medium  (* not reached: the list is not empty *)
    end.

Definition confidence_weight (f : ForecastPoint.t) : Q :=
  match ForecastPoint.confidence f with
  | Impact.high => 1
  | Impact.medium => 6#10
  | Impact.low => 3#10
  end.

Definition _generate_forecast_recommendations
    (forecast_data : list ForecastPoint.t)
    (budget_impact : option BudgetImpact.t) (trend_slope : Q)
  : list Advice.t :=
  let recommendations : list Advice.t := [] in
  let recommendations :=
    match budget_impact with
    | Some bi =>
        if BudgetImpact.will_exceed_budget bi
        then recommendations
               ++ [Advice.projected_to_exceed
                     (BudgetImpact.forecast_vs_remaining bi);
                   Advice.reduce_discretionary]
        else recommendations
    | None => recommendations
    end in
  let recommendations :=
    if Qltb 100 trend_slope
    then recommendations
           ++ [Advice.expenses_trending_upward;
               Advice.stricter_approval_thresholds]
    else if Qltb trend_slope (-50)
    then recommendations ++ [Advice.expenses_trending_downward]
    else recommendations in
  let avg_confidence := np_mean (map confidence_weight forecast_data) in
  let recommendations :=
    match avg_confidence with
    | Some c =>
        if Qltb c (5#10)
        then recommendations ++ [Advice.forecast_confidence_low]
        else recommendations
    | None => recommendations    (* [nan < 0.5] is false *)
    end in
  recommendations.

(** Least-squares slope of [y] against [0, 1, ..., len(y) - 1]. *)
Definition linear_trend (y : list Q) : result Q :=
  let x := map Qnat (range (List.length y)) in
  let n := Qnat (List.length x) in
  let sum_x := sum x in
  let sum_y := sum y in
  let sum_xy := sum (map (fun xy => fst xy * snd xy) (combine x y)) in
  let sum_x2 := sum (map (fun xi => xi * xi) x) in
  if negb (Qeq_bool (n * sum_x2 - sum_x * sum_x) 0)
  then truediv (n * sum_xy - sum_x * sum_y) (n * sum_x2 - sum_x * sum_x)
  else Ok 0.

(** [category_monthly[category][month_key] += amount] *)
Fixpoint dict2_add (category : string) (month_key : Z * Z) (v : Q)
    (d : list (string * list (Z * Z * Q))) : list (string * list (Z * Z * Q)) :=
  match d with
  | [] => [(category, [(month_key, v)])]
  | (c, md) :: d' =>
      if String.eqb c category
      then (c, dict_add Ym_eqb month_key v md) :: d'
      else (c, md) :: dict2_add category month_key v d'
  end.

(** [monthly_expenses]: the totals by ['%Y-%m'] key, in insertion order. *)
Definition monthly_totals (expenses : list Expense.t) : list (Z * Z * Q) :=
  fold_left (fun d expense =>
               dict_add Ym_eqb (strftime_Ym (Expense.incurred_at expense))
                        (Expense.amount expense) d)
            expenses [].

Definition forecast_point (now : datetime) (avg_monthly trend_slope : Q)
    (historical_amounts : list Q) (i : nat) : ForecastPoint.t :=
  let future_month := (current_month now + days (Z.of_nat i * 30))%Z in
  let predicted_amount :=
    avg_monthly
    + trend_slope * Qnat (List.length historical_amounts + i) in
  let predicted_amount := Qmax 0 predicted_amount in
  ForecastPoint.mk (strftime_Ym future_month) (round predicted_amount 2)
    (_calculate_forecast_confidence historical_amounts trend_slope).

Definition insufficient_payload (data_points : nat) (forecast_months : Z)
  : ExpenseForecast.t :=
  ExpenseForecast.mk false (Some ExpenseForecast.insufficient_data)
    (Some data_points) forecast_months None [] 0 None []
    [Advice.add_more_expenses].

Definition forecast_error_payload (e : exn) (forecast_months : Z)
  : ExpenseForecast.t :=
  ExpenseForecast.mk false (Some (ExpenseForecast.error_generating e))
    (Some 0%nat) forecast_months None [] 0 None []
    [Advice.try_again_or_contact_support].

(** The body of the [try] statement. *)
Definition expense_forecasting_body (db : DB.t) (now : datetime)
    (user_id project_id : Z) (forecast_months : Z)
  : result ExpenseForecast.t :=
  project <- require_member_or_owner db project_id user_id ;;
  let expenses := DB.expenses_of db project_id in
  let budget := DB.budget_of db project_id in
  if (List.length expenses <? 3)%nat
  then Ok (insufficient_payload (List.length expenses) forecast_months)
  else
    let monthly_expenses := monthly_totals expenses in
    let category_monthly :=
      fold_left (fun d expense =>
                   dict2_add (category_of expense)
                     (strftime_Ym (Expense.incurred_at expense))
                     (Expense.amount expense) d)
                expenses [] in
    let historical_amounts := map snd monthly_expenses in
    trend <-
      (if (List.length historical_amounts <? 2)%nat
       then Ok (match historical_amounts with
                | a :: _ => a
                | [] => 0
                end, 0)
       else
         let avg_monthly :=
           match np_mean historical_amounts with
           | Some m => m
           | None => 0       (* not reached: two amounts or more *)
           end in
         trend_slope <- linear_trend historical_amounts ;;
         Ok (avg_monthly, trend_slope)) ;;
    let '(avg_monthly, trend_slope) := trend in
    let forecast_data :=
      map (forecast_point now avg_monthly trend_slope historical_amounts)
          (range (Z.to_nat forecast_months)) in
    let total_forecast := sum (map ForecastPoint.predicted_amount forecast_data) in
    let current_spent := sum (map Expense.amount expenses) in
    let projected_total := current_spent + total_forecast in
    budget_impact <-
      (match budget with
       | Some budget =>
           let remaining_budget :=
             Budget.allocated_amount budget - current_spent in
           utilization <-
             (if Qltb 0 (Budget.allocated_amount budget)
              then q <- truediv projected_total
                                (Budget.allocated_amount budget) ;;
                   Ok (q * 100)
              else Ok 0) ;;
           Ok (Some (BudgetImpact.mk
                       remaining_budget
                       (total_forecast - remaining_budget)
                       (Qltb remaining_budget total_forecast)
                       projected_total
                       utilization))
       | None => Ok None
       end) ;;
    let category_forecasts :=
      flat_map
        (fun '(category, month_data) =>
           let amounts := map snd month_data in
           match np_mean amounts with
           | Some cat_avg =>
               [(category,
                 CategoryForecast.mk
                   (round cat_avg 2)
                   (round (cat_avg * inject_Z forecast_months) 2))]
           | None => []
           end)
        category_monthly in
    Ok (ExpenseForecast.mk
          true None None forecast_months
          (Some (HistoricalData.mk
                   (List.length historical_amounts)
                   (round avg_monthly 2)
                   (if Qltb 5 trend_slope then HistoricalData.increasing
                    else if Qltb trend_slope (-5)
                    then HistoricalData.decreasing
                    else HistoricalData.stable)
                   (round trend_slope 2)))
          forecast_data
          (round total_forecast 2)
          budget_impact
          category_forecasts
          (_generate_forecast_recommendations
             forecast_data budget_impact trend_slope)).

Definition get_expense_forecasting (db : DB.t) (now : datetime)
    (user_id project_id : Z) (forecast_months : Z)
  : result ExpenseForecast.t :=
  try_except (expense_forecasting_body db now user_id project_id forecast_months)
             (fun e => Ok (forecast_error_payload e forecast_months)).

(** *** get_cost_optimization_analysis

    In the file the statements between the early return and the final
    return stand one indentation level to the left of the [try] they
    belong to; they are read here as the rest of its body, up to the
    [except] clause that closes the function. *)

(** [amount > mean + 2 * np.std(amounts)], without the square root. *)
Definition above_two_std (amount mean_monthly variance : Q) : bool :=
  Qltb 0 (amount - mean_monthly)
  && Qltb (4 * variance) ((amount - mean_monthly) * (amount - mean_monthly)).

(** [max(category_totals.items(), key=lambda x: x[1])]: the first of the
    largest entries; an empty sequence raises. *)
Definition max_item (items : list (string * Q)) : result (string * Q) :=
  match items with
  | [] => Raise (ValueError "max() arg is an empty sequence")
  | x :: l =>
      Ok (fold_left (fun best y => if Qltb (snd best) (snd y) then y else best)
                    l x)
  end.

Definition _generate_cost_optimization_recommendations
    (opportunities : list Opportunity.t)
    (category_totals : list (string * Q))
    (cost_efficiency : option CostEfficiency.t) : result (list Advice.t) :=
  let recommendations : list Advice.t := [] in
  let recommendations :=
    match opportunities with
    | [] => recommendations
    | _ =>
        let high_priority :=
          filter (fun opp => match Opportunity.priority opp with
                             | Impact.high => true
                             | _ => false
                             end) opportunities in
        let recommendations :=
          match high_priority with
          | [] => recommendations
          | _ => recommendations ++ [Advice.focus_on_high_priority]
          end in
        let total_potential :=
          sum (map Opportunity.potential_savings opportunities) in
        if Qltb 1000 total_potential
        then recommendations
               ++ [Advice.potential_savings_identified total_potential]
        else recommendations
    end in
  largest_category <- max_item category_totals ;;
  let recommendations :=
    if Qltb (sum (map snd category_totals) * (4#10)) (snd largest_category)
    then recommendations
           ++ [Advice.largest_category_review (fst largest_category)]
    else recommendations in
  let recommendations :=
    match cost_efficiency with
    | Some ce =>
        match CostEfficiency.efficiency_rating ce with
        | CostEfficiency.needs_improvement =>
            recommendations ++ [Advice.cost_per_task_high]
        | _ => recommendations
        end
    | None => recommendations
    end in
  Ok (recommendations ++ [Advice.regular_expense_audits]).

Definition no_expenses_payload : CostOptimization.t :=
  CostOptimization.mk false (Some CostOptimization.no_expenses_found)
    0 [] [] None 0 [Advice.start_tracking_expenses].

Definition cost_error_payload (e : exn) : CostOptimization.t :=
  CostOptimization.mk false (Some (CostOptimization.error_analyzing e))
    0 [] [] None 0 [Advice.try_again_or_contact_support].

(** The body of the [try] statement. *)
Definition cost_optimization_body (db : DB.t) (user_id project_id : Z)
  : result CostOptimization.t :=
  project <- require_member_or_owner db project_id user_id ;;
  let expenses := DB.expenses_of db project_id in
  match expenses with
  | [] => Ok no_expenses_payload
  | _ =>
      let category_totals :=
        fold_left (fun d expense =>
                     dict_add String.eqb (category_of expense)
                              (Expense.amount expense) d)
                  expenses [] in
      let category_counts :=
        fold_left (fun d expense => dict_incr String.eqb (category_of expense) d)
                  expenses [] in
      category_avg <-
        mapM (fun '(category, total) =>
                match dict_get String.eqb category category_counts with
                | Some count =>
                    q <- truediv total (Qnat count) ;; Ok (category, q)
                | None => Raise AttributeError   (* not reached *)
                end)
             category_totals ;;
      let total_spending := sum (map snd category_totals) in
      high_cost <-
        mapM (fun '(category, amount) =>
                percentage <-
                  (if Qltb 0 total_spending
                   then q <- truediv amount total_spending ;; Ok (q * 100)
                   else Ok 0) ;;
                Ok (if Qltb 30 percentage
                    then [Opportunity.high_cost_category category amount
                            (round percentage 1)
                            (round (amount * (1#10)) 2)
                            (if Qltb 50 percentage
                             then Impact.high else Impact.medium)]
                    else []))
             category_totals ;;
      let frequent_small :=
        flat_map
          (fun '(category, count) =>
             let avg_amount :=
               match dict_get String.eqb category category_avg with
               | Some a => a
               | None => 0     (* [defaultdict(float)] *)
               end in
             if (10 <? count)%nat && Qltb avg_amount 100
             then [Opportunity.frequent_small_expenses category count
                     (round avg_amount 2)
                     (round (Qnat count * avg_amount * (5#100)) 2)
                     Impact.low]
             else [])
          category_counts in
      let monthly_spending := monthly_totals expenses in
      let spikes :=
        if (3 <=? List.length monthly_spending)%nat
        then
          let amounts := map snd monthly_spending in
          match np_mean amounts, np_var amounts with
          | Some mean_monthly, Some variance =>
              flat_map
                (fun '(month, amount) =>
                   if above_two_std amount mean_monthly variance
                   then [Opportunity.spending_spike month amount
                           (round mean_monthly 2)
                           (round (amount - mean_monthly) 2)
                           Impact.medium]
                   else [])
                monthly_spending
          | _, _ => []      (* not reached: three months or more *)
          end
        else [] in
      let optimization_opportunities :=
        List.concat high_cost ++ frequent_small ++ spikes in
      let tasks := DB.tasks_of db project_id in
      let completed_tasks := filter is_completed tasks in
      cost_efficiency <-
        (match completed_tasks with
         | [] => Ok None
         | _ =>
             cost_per_task <-
               truediv total_spending (Qnat (List.length completed_tasks)) ;;
             Ok (Some (CostEfficiency.mk
                         (round cost_per_task 2)
                         (List.length completed_tasks)
                         (if Qltb cost_per_task 1000
                          then CostEfficiency.excellent
                          else if Qltb cost_per_task 5000
                          then CostEfficiency.good
                          else CostEfficiency.needs_improvement)))
         end) ;;
      recommendations <-
        _generate_cost_optimization_recommendations
          optimization_opportunities category_totals cost_efficiency ;;
      Ok (CostOptimization.mk
            true None
            (round total_spending 2)
            (map (fun '(k, v) => (k, round v 2)) category_totals)
            (sorted_desc Opportunity.potential_savings
                         optimization_opportunities)
            cost_efficiency
            (round (sum (map Opportunity.potential_savings
                             optimization_opportunities)) 2)
            recommendations)
  end.

Definition get_cost_optimization_analysis (db : DB.t) (user_id project_id : Z)
  : result CostOptimization.t :=
  try_except (cost_optimization_body db user_id project_id)
             (fun e => Ok (cost_error_payload e)).


(** *** update_budget and delete_budget *)

(** [Budget.query.get_or_404(budget_id)] *)
Definition get_budget_or_404 (db : DB.t) (budget_id : Z) : result Budget.t :=
  match find (fun b => (Budget.id b =? budget_id)%Z) (DB.budgets db) with
  | Some b => Ok b
  | None => Raise NotFound
  end.

(** [budget.project]: the project row the budget points to. *)
Definition project_of_budget (db : DB.t) (budget : Budget.t)
  : result Project.t :=
  match find (fun p => (Project.id p =? Budget.project_id budget)%Z)
             (DB.projects db) with
  | Some p => Ok p
  | None => Raise AttributeError
  end.

Definition set_budgets (db : DB.t) (budgets : list Budget.t) : DB.t :=
  DB.mk (DB.projects db) (DB.tasks db) budgets (DB.expenses db)
    (DB.notifications db).

(** The [data] of the request: the new allocated amount and the new
    currency, each possibly absent. *)
Definition update_budget (db : DB.t) (user_id budget_id : Z)
    (allocated_amount : option Q) (currency : option string)
  : result (DB.t * Budget.t) :=
  budget <- get_budget_or_404 db budget_id ;;
  project <- project_of_budget db budget ;;
  if negb (any_member project user_id)
  then Raise (PermissionError "User is not a member of this project")
  else
    let budget :=
      Budget.mk (Budget.id budget) (Budget.project_id budget)
        (match allocated_amount with
         | Some a => a | None => Budget.allocated_amount budget end)
        (Budget.spent_amount budget)
        (match currency with
         | Some c => c | None => Budget.currency budget end) in
    Ok (set_budgets db
          (update_first (fun b => (Budget.id b =? budget_id)%Z)
             (fun _ => budget) (DB.budgets db)),
        budget).

Definition delete_budget (db : DB.t) (user_id budget_id : Z)
  : result (DB.t * bool) :=
  budget <- get_budget_or_404 db budget_id ;;
  project <- project_of_budget db budget ;;
  if negb (any_member project user_id)
  then Raise (PermissionError "User is not a member of this project")
  else
    Ok (set_budgets db
          (remove_first (fun b => (Budget.id b =? budget_id)%Z)
             (DB.budgets db)),
        true).

End FinanceService.


(* ------------------------------------------------------------------ *)
(** * Vocabulary of the statements *)

Module Spec.
Local Open Scope Q_scope.

(** [clamp(lo, hi, x)] *)
Definition clamp (lo hi x : Q) : Q := Qmax lo (Qmin hi x).

(** A task with a due date and a completion timestamp. *)
Definition has_due_and_completion (t : Task.t) : bool :=
  match Task.due_date t, Task.last_progress_update t with
  | Some _, Some _ => true
  | _, _ => false
  end.

(** A task completed at or before its due date. *)
Definition on_time (t : Task.t) : bool :=
  match Task.due_date t, Task.last_progress_update t with
  | Some due, Some upd => (upd <=? due)%Z
  | _, _ => false
  end.

Definition completed_tasks (tasks : list Task.t) : list Task.t :=
  filter is_completed tasks.

(** The on-time completions over all the completed tasks, as a
    percentage. *)
Definition on_time_rate (tasks : list Task.t) : Q :=
  match completed_tasks tasks with
  | [] => 100
  | _ => Qnat (List.length (filter on_time (completed_tasks tasks)))
         / Qnat (List.length (completed_tasks tasks)) * 100
  end.

(** The rate as the specification words it: the on-time completions over
    the completed tasks that have both a due date and a completion
    timestamp. *)
Definition on_time_rate_as_specified (tasks : list Task.t) : Q :=
  Qnat (List.length (filter on_time (completed_tasks tasks)))
  / Qnat (List.length (filter has_due_and_completion (completed_tasks tasks)))
  * 100.

Definition overdue_percentage (now : datetime) (tasks : list Task.t) : Q :=
  Qnat (List.length (filter (Task.is_overdue now) tasks))
  / Qnat (List.length tasks) * 100.

(** *** Risk factors *)

(** What identifies a risk factor: its type and its severity. *)
Definition tag : Type := (RiskFactor.kind * RiskFactor.level)%type.

Definition tag_of (f : RiskFactor.t) : tag :=
  (RiskFactor.type f, RiskFactor.severity f).

(** The points of the table of factors. *)
Definition points (t : tag) : Z :=
  match t with
  | (RiskFactor.deadline, RiskFactor.critical) => 40
  | (RiskFactor.deadline, RiskFactor.high) => 30
  | (RiskFactor.task_overdue, RiskFactor.medium) => 20
  | (RiskFactor.budget, RiskFactor.critical) => 35
  | (RiskFactor.budget, RiskFactor.high) => 25
  | (RiskFactor.budget, RiskFactor.medium) => 15
  | (RiskFactor.workload, RiskFactor.medium) => 15
  | (RiskFactor.velocity, RiskFactor.high) => 25
  | _ => 0
  end%Z.

Definition sum_tags (ts : list tag) : Z :=
  fold_right (fun t acc => (points t + acc)%Z) 0%Z ts.

Definition sum_points (fs : list RiskFactor.t) : Z :=
  sum_tags (map tag_of fs).

(** The additive score of a set of fired factors. *)
Definition capped_score (fs : list RiskFactor.t) : Z :=
  Z.min (sum_points fs) 100.

Definition days_to_deadline (now deadline : datetime) : Z :=
  td_days (deadline - now)%Z.

Definition incomplete_tasks (tasks : list Task.t) : list Task.t :=
  filter (fun t => negb (is_completed t)) tasks.

Definition overdue_tasks (now : datetime) (tasks : list Task.t)
  : list Task.t :=
  filter (Task.is_overdue now) tasks.

(** More than 30% of the tasks are overdue. *)
Definition overdue_ratio_high (now : datetime) (tasks : list Task.t) : bool :=
  Qltb (Qnat (List.length tasks) * (3#10))
       (Qnat (List.length (overdue_tasks now tasks))).

(** The deadline family of the table; all of it is gated by the
    presence of a project deadline. *)
Definition deadline_family (now : datetime) (project : Project.t)
    (tasks : list Task.t) : list tag :=
  match Project.deadline project with
  | None => []
  | Some deadline =>
      if (days_to_deadline now deadline <=? 0)%Z
      then [(RiskFactor.deadline, RiskFactor.critical)]
      else if (days_to_deadline now deadline <=? 7)%Z
              && negb (Nat.eqb (List.length (incomplete_tasks tasks)) 0)
      then [(RiskFactor.deadline, RiskFactor.high)]
      else if overdue_ratio_high now tasks
      then [(RiskFactor.task_overdue, RiskFactor.medium)]
      else []
  end.

Definition budget_family (budget : option Budget.t) : list tag :=
  match budget with
  | None => []
  | Some b =>
      if Qltb 100 (Budget.utilization_percentage b)
      then [(RiskFactor.budget, RiskFactor.critical)]
      else if Qltb 90 (Budget.utilization_percentage b)
      then [(RiskFactor.budget, RiskFactor.high)]
      else if Qltb 75 (Budget.utilization_percentage b)
      then [(RiskFactor.budget, RiskFactor.medium)]
      else []
  end.

Definition tasks_per_member (project : Project.t) (tasks : list Task.t) : Q :=
  Qnat (List.length tasks)
  / Qnat (List.length (Project.members project) + 1).

Definition workload_family (project : Project.t) (tasks : list Task.t)
  : list tag :=
  if Qltb 10 (tasks_per_member project tasks)
  then [(RiskFactor.workload, RiskFactor.medium)] else [].

Definition completion_rate (tasks : list Task.t) : Q :=
  match tasks with
  | [] => 0
  | _ => Qnat (List.length (completed_tasks tasks))
         / Qnat (List.length tasks) * 100
  end.

Definition velocity_family (tasks : list Task.t) : list tag :=
  if Qltb (completion_rate tasks) 30
  then [(RiskFactor.velocity, RiskFactor.high)] else [].

(** The table of factors: type, severity, points added. *)
Definition table : list (tag * Z) :=
  [ ((RiskFactor.deadline, RiskFactor.critical), 40%Z);
    ((RiskFactor.deadline, RiskFactor.high), 30%Z);
    ((RiskFactor.task_overdue, RiskFactor.medium), 20%Z);
    ((RiskFactor.budget, RiskFactor.critical), 35%Z);
    ((RiskFactor.budget, RiskFactor.high), 25%Z);
    ((RiskFactor.budget, RiskFactor.medium), 15%Z);
    ((RiskFactor.workload, RiskFactor.medium), 15%Z);
    ((RiskFactor.velocity, RiskFactor.high), 25%Z) ].

(** A state of the assessment that extends [st] by the factors [fs],
    each with the points of the table. *)
Definition extends (st st' : AnalyticsService.risk_state)
    (fs : list RiskFactor.t) : Prop :=
  fst st' = fst st ++ fs /\ snd st' = (snd st + sum_points fs)%Z.

(** The factors that fire, in the order of the assessment. *)
Definition fired (now : datetime) (project : Project.t)
    (tasks : list Task.t) (budget : option Budget.t) : list tag :=
  deadline_family now project tasks ++ budget_family budget
  ++ workload_family project tasks ++ velocity_family tasks.

(** *** Budgets and expenses *)

(** The sum of the amounts of a project's expenses. *)
Definition expenses_total (db : DB.t) (project_id : Z) : Q :=
  sum (map Expense.amount (DB.expenses_of db project_id)).

(** The running total of the project's budget, if it has one, is the sum
    of the project's expenses. *)
Definition consistent (db : DB.t) (project_id : Z) : Prop :=
  forall b, DB.budget_of db project_id = Some b ->
            Budget.spent_amount b == expenses_total db project_id.

End Spec.

(** * Sample data *)

Module Sample.
Local Open Scope Z_scope.

(** 2024-01-15T00:00:00 *)
Definition now : datetime := 19737 * DAY.

Definition alice : User.t := User.mk 1 "alice@example.org" false.
Definition bob : User.t := User.mk 2 "bob@example.org" false.

(** A project of Alice's, without deadline; Bob is not a member. *)
Definition apollo : Project.t := Project.mk 10 "Apollo" None [alice] 1.

Definition task (id : Z) (status : TaskStatus.t)
    (due_date last_progress_update : option datetime) : Task.t :=
  Task.mk id "task" status 1 10 (Some (19700 * DAY))
          due_date last_progress_update 0.

(** Two completed tasks: one finished a day early, one without due date. *)
Definition db_two_completed : DB.t :=
  DB.mk [apollo]
    [task 1 TaskStatus.completed (Some (19730 * DAY)) (Some (19729 * DAY));
     task 2 TaskStatus.completed None (Some (19729 * DAY))]
    [] [] [].

(** A project with a deadline thirty days ahead. *)
Definition gemini : Project.t :=
  Project.mk 11 "Gemini" (Some (19767 * DAY)) [alice] 1.

Definition task_of (project_id id : Z) (status : TaskStatus.t)
    (due_date last_progress_update : option datetime) : Task.t :=
  Task.mk id "task" status 1 project_id (Some (19700 * DAY))
          due_date last_progress_update 0.

(** In each project one task of three is overdue, the other two are
    completed. *)
Definition db_one_of_three_overdue : DB.t :=
  DB.mk [apollo; gemini]
    [task_of 10 1 TaskStatus.pending (Some (19730 * DAY)) None;
     task_of 10 2 TaskStatus.completed None (Some (19729 * DAY));
     task_of 10 3 TaskStatus.completed None (Some (19729 * DAY));
     task_of 11 4 TaskStatus.pending (Some (19730 * DAY)) None;
     task_of 11 5 TaskStatus.completed None (Some (19729 * DAY));
     task_of 11 6 TaskStatus.completed None (Some (19729 * DAY))]
    [] [] [].

(** A project past its deadline, over budget, with eleven pending tasks
    and nobody on the team but the owner. *)
Definition mercury : Project.t :=
  Project.mk 12 "Mercury" (Some (19700 * DAY)) [] 1.

Definition db_all_factors : DB.t :=
  DB.mk [mercury]
    (map (fun id => task_of 12 id TaskStatus.pending None None)
         [1; 2; 3; 4; 5; 6; 7; 8; 9; 10; 11])
    [Budget.mk 1 12 (100#1) (150#1) "USD"] [] [].

(** A project without budget, and the same after [create_budget] with
    no allocated amount in the request. *)
Definition db_no_budget : DB.t := DB.mk [apollo] [] [] [] [].

Definition zero_budget : Budget.t := Budget.mk 1 10 0 0 "USD".

Definition db_zero_budget : DB.t := DB.mk [apollo] [] [zero_budget] [] [].

Definition ten : ExpenseData.t := ExpenseData.mk None (Some (10#1)) None None.

Definition expense (id : Z) (amount : Q) (incurred_at : datetime)
  : Expense.t :=
  Expense.mk id 10 None amount "" (Some "Travel"%string) 1 incurred_at.

(** A budget of 1200 of which 60 are spent, in three expenses of the
    first days of January 2024. *)
Definition db_three_expenses : DB.t :=
  DB.mk [apollo] []
    [Budget.mk 1 10 (1200#1) (60#1) "USD"]
    [expense 1 (10#1) (19725 * DAY);
     expense 2 (20#1) (19726 * DAY);
     expense 3 (30#1) (19727 * DAY)]
    [].


(** One expense of 50, incurred on 2024-01-01T00:00:00, the instant
    where the month ending there meets the month starting there; one
    task completed exactly a week before [now]. *)
Definition db_on_the_boundary : DB.t :=
  DB.mk [apollo]
    [task 1 TaskStatus.completed None (Some (19730 * DAY))]
    [Budget.mk 1 10 (1200#1) (50#1) "USD"]
    [expense 1 (50#1) (19723 * DAY)]
    [].

End Sample.

(** * Further vocabulary *)

Module Notions.

(** The families of the table of risk factors. *)
Definition deadline_family (f : RiskFactor.t) : bool :=
  match RiskFactor.type f with
  | RiskFactor.deadline | RiskFactor.task_overdue => true
  | _ => false
  end.

Definition budget_family (f : RiskFactor.t) : bool :=
  match RiskFactor.type f with
  | RiskFactor.budget => true
  | _ => false
  end.

Definition workload_family (f : RiskFactor.t) : bool :=
  match RiskFactor.type f with
  | RiskFactor.workload => true
  | _ => false
  end.

Definition velocity_family (f : RiskFactor.t) : bool :=
  match RiskFactor.type f with
  | RiskFactor.velocity => true
  | _ => false
  end.

(** The number of elements of [l] that satisfy [p]. *)
Definition count {A} (p : A -> bool) (l : list A) : nat :=
  List.length (filter p l).

End Notions.

(** * Further sample data *)

Module Cases.
Local Open Scope Z_scope.

Definition task_with_subtasks (id : Z) (due : datetime) (subtasks : nat)
  : Task.t :=
  Task.mk id "task" TaskStatus.in_progress 1 10 (Some (19700 * DAY))
          (Some due) None subtasks.

(** Three overdue tasks with subtasks (3 subtasks 2 days late, 1 subtask
    10 days late, 2 subtasks 1 day late) and an overdue task without. *)
Definition db_bottlenecks : DB.t :=
  DB.mk [Sample.apollo]
    [task_with_subtasks 1 (19735 * DAY) 3;
     task_with_subtasks 2 (19727 * DAY) 1;
     task_with_subtasks 3 (19736 * DAY) 2;
     task_with_subtasks 4 (19730 * DAY) 0]
    [] [] [].

(** Three pending tasks of which one is overdue; nothing is completed. *)
Definition db_third_overdue : DB.t :=
  DB.mk [Sample.apollo]
    [Sample.task 1 TaskStatus.pending (Some (19730 * DAY)) None;
     Sample.task 2 TaskStatus.pending None None;
     Sample.task 3 TaskStatus.pending None None]
    [] [] [].

End Cases.

(** * The running total on binary64

    Python's [float] is an IEEE 754 double.  Each of the three expense
    mutations touches [budget.spent_amount] by one operation; [Ledger64]
    replays these operations on doubles for one project.  The state is the
    running total and the amounts of the project's expenses, oldest first;
    an expense is named by its position. *)

Module Ledger64.
Import PrimFloat.
#[local] Set Warnings "-inexact-float".
Local Open Scope float_scope.

Record t : Type := mk { spent_amount : float; amounts : list float }.

(** [budget.spent_amount += expense.amount] *)
Definition add_expense (s : t) (amount : float) : t :=
  mk (spent_amount s + amount) (amounts s ++ [amount]).

(** [amount_difference = expense.amount - old_amount] and
    [budget.spent_amount += amount_difference] *)
Definition update_expense (s : t) (i : nat) (amount : float) : t :=
  let old_amount := nth i (amounts s) 0 in
  let amount_difference := amount - old_amount in
  mk (spent_amount s + amount_difference)
     (firstn i (amounts s) ++ amount :: skipn (S i) (amounts s)).

(** [budget.spent_amount -= expense.amount] *)
Definition delete_expense (s : t) (i : nat) : t :=
  mk (spent_amount s - nth i (amounts s) 0)
     (firstn i (amounts s) ++ skipn (S i) (amounts s)).

(** [sum(e.amount for e in expenses)] *)
Definition expenses_total (s : t) : float := fold_left add (amounts s) 0.

Definition consistent (s : t) : bool :=
  eqb (spent_amount s) (expenses_total s).

(** A new budget, two expenses of 0.1 and 0.2, and the first of them
    deleted again. *)
Definition fresh : t := mk 0 [].
Definition two_expenses : t := add_expense (add_expense fresh 0.1) 0.2.
Definition one_deleted : t := delete_expense two_expenses 0.

Definition drifted_total : float := 0.20000000000000004.
Definition exact_total : float := 0.2.
End Ledger64.
(* ------------------------------------------------------------------ *)
(** * Properties *)

(** ** Arithmetic of the runtime *)

Section Runtime.
Local Open Scope Q_scope.

Lemma Qltb_lt (x y : Q) : Qltb x y = true <-> x < y.
Proof.
  unfold Qltb. rewrite negb_true_iff. split.
  - intros H. apply Qnot_le_lt. intros Hle.
    apply Qle_bool_iff in Hle. congruence.
  - intros H. destruct (Qle_bool y x) eqn:E; [|reflexivity].
    apply Qle_bool_iff in E. exfalso. eapply Qlt_not_le; eauto.
Qed.

Lemma Qltb_ge (x y : Q) : Qltb x y = false <-> y <= x.
Proof.
  unfold Qltb. rewrite negb_false_iff. apply Qle_bool_iff.
Qed.

Lemma Qle_bool_gt (x y : Q) : Qle_bool x y = false <-> y < x.
Proof.
  rewrite <- Qltb_lt. unfold Qltb.
  destruct (Qle_bool x y); simpl; intuition congruence.
Qed.

Lemma Qnat_nonneg (n : nat) : 0 <= Qnat n.
Proof.
  unfold Qnat. change 0 with (inject_Z 0). rewrite <- Zle_Qle. lia.
Qed.

Lemma Qnat_pos (n : nat) : (0 < n)%nat -> 0 < Qnat n.
Proof.
  intros H. unfold Qnat. change 0 with (inject_Z 0). rewrite <- Zlt_Qlt. lia.
Qed.

Lemma Qnat_le (n m : nat) : (n <= m)%nat -> Qnat n <= Qnat m.
Proof.
  intros H. unfold Qnat. rewrite <- Zle_Qle. lia.
Qed.

Lemma Qnat_lt_inv (n m : nat) : Qnat n < Qnat m -> (n < m)%nat.
Proof.
  unfold Qnat. rewrite <- Zlt_Qlt. lia.
Qed.

Lemma truediv_ok (x y : Q) : ~ y == 0 -> truediv x y = Ok (x / y).
Proof.
  intros H. unfold truediv. destruct (Qeq_bool y 0) eqn:E; [|reflexivity].
  apply Qeq_bool_iff in E. contradiction.
Qed.

Lemma truediv_pos (x y : Q) : 0 < y -> truediv x y = Ok (x / y).
Proof.
  intros H. apply truediv_ok. intros E. rewrite E in H.
  exact (Qlt_irrefl 0 H).
Qed.

Lemma truediv_zero (x y : Q) : y == 0 -> truediv x y = Raise ZeroDivisionError.
Proof.
  intros H. unfold truediv. apply Qeq_bool_iff in H. now rewrite H.
Qed.

(** A ratio of counts, as a percentage, lies between 0 and 100. *)
Lemma percentage_bounds (a b : nat) :
  (a <= b)%nat -> (0 < b)%nat ->
  0 <= Qnat a / Qnat b * 100 /\ Qnat a / Qnat b * 100 <= 100.
Proof.
  intros Hab Hb.
  pose proof (Qnat_nonneg a) as Ha.
  pose proof (Qnat_pos b Hb) as Hb'.
  pose proof (Qnat_le a b Hab) as Hle.
  assert (H0 : 0 <= Qnat a / Qnat b).
  { apply Qle_shift_div_l; [assumption|]. lra. }
  assert (H1 : Qnat a / Qnat b <= 1).
  { apply Qle_shift_div_r; [assumption|]. lra. }
  split; lra.
Qed.

Lemma percentage_nonneg (a b : nat) : 0 <= Qnat a / Qnat b * 100.
Proof.
  destruct b as [|b].
  - unfold Qdiv. change (/ Qnat 0) with 0. lra.
  - pose proof (Qnat_nonneg a) as Ha.
    assert (Hb : 0 < Qnat (S b)) by (apply Qnat_pos; lia).
    assert (H0 : 0 <= Qnat a / Qnat (S b)).
    { apply Qle_shift_div_l; [assumption|]. lra. }
    lra.
Qed.

(** *** Rounding *)

Lemma round_half_even_comp (x y : Q) :
  x == y -> round_half_even x = round_half_even y.
Proof.
  intros H. unfold round_half_even.
  rewrite (Qfloor_comp x y H).
  assert (E : forall a b c d, a == b -> c == d -> Qltb a c = Qltb b d).
  { intros a b c d Hab Hcd. unfold Qltb. now rewrite Hab, Hcd. }
  rewrite (E (x - inject_Z (Qfloor y)) (y - inject_Z (Qfloor y)) (1#2) (1#2))
    by (try reflexivity; now rewrite H).
  rewrite (E (1#2) (1#2) (x - inject_Z (Qfloor y)) (y - inject_Z (Qfloor y)))
    by (try reflexivity; now rewrite H).
  reflexivity.
Qed.

Lemma round_half_even_range (x : Q) :
  (round_half_even x = Qfloor x /\ x - inject_Z (Qfloor x) <= 1#2
   /\ (x - inject_Z (Qfloor x) == 1#2 -> Z.even (Qfloor x) = true))
  \/ (round_half_even x = (Qfloor x + 1)%Z /\ 1#2 <= x - inject_Z (Qfloor x)
      /\ (x - inject_Z (Qfloor x) == 1#2 -> Z.even (Qfloor x) = false)).
Proof.
  unfold round_half_even.
  destruct (Qltb (x - inject_Z (Qfloor x)) (1#2)) eqn:E1.
  - apply Qltb_lt in E1. left. repeat split; [lra|].
    intros H. rewrite H in E1. exfalso. exact (Qlt_irrefl _ E1).
  - apply Qltb_ge in E1.
    destruct (Qltb (1#2) (x - inject_Z (Qfloor x))) eqn:E2.
    + apply Qltb_lt in E2. right. repeat split; [lra|].
      intros H. rewrite H in E2. exfalso. exact (Qlt_irrefl _ E2).
    + apply Qltb_ge in E2.
      destruct (Z.even (Qfloor x)) eqn:E3.
      * left. repeat split; auto.
      * right. repeat split; auto.
Qed.

Lemma round_half_even_le (x y : Q) :
  x <= y -> (round_half_even x <= round_half_even y)%Z.
Proof.
  intros Hxy.
  pose proof (Qfloor_resp_le x y Hxy) as Hf.
  pose proof (Qfloor_le y) as Hy0.
  pose proof (Qlt_floor x) as Hx1.
  destruct (round_half_even_range x) as [[Rx [Hx Ex]]|[Rx [Hx Ex]]];
    destruct (round_half_even_range y) as [[Ry [Hy Ey]]|[Ry [Hy Ey]]];
    rewrite Rx, Ry; try lia.
  destruct (Z.eq_dec (Qfloor x) (Qfloor y)) as [E|NE]; [|lia].
  exfalso. rewrite E in *.
  assert (Hx' : x - inject_Z (Qfloor y) == 1#2) by lra.
  assert (Hy' : y - inject_Z (Qfloor y) == 1#2) by lra.
  specialize (Ex Hx'). specialize (Ey Hy'). congruence.
Qed.

Lemma round_comp (x y : Q) (n : nat) : x == y -> round x n = round y n.
Proof.
  intros H. unfold round. apply Qred_complete.
  rewrite (round_half_even_comp (x * inject_Z (10 ^ Z.of_nat n))
                                (y * inject_Z (10 ^ Z.of_nat n)));
    [reflexivity | now rewrite H].
Qed.

Lemma scale_pos (n : nat) : 0 < inject_Z (10 ^ Z.of_nat n).
Proof.
  change 0 with (inject_Z 0). rewrite <- Zlt_Qlt.
  apply Z.pow_pos_nonneg; lia.
Qed.

Lemma round_le (x y : Q) (n : nat) : x <= y -> round x n <= round y n.
Proof.
  intros H. unfold round. rewrite !Qred_correct.
  pose proof (scale_pos n) as Hs.
  apply Qmult_le_compat_r.
  - rewrite <- Zle_Qle. apply round_half_even_le.
    apply Qmult_le_compat_r; [assumption | now apply Qlt_le_weak].
  - apply Qlt_le_weak, Qinv_lt_0_compat, Hs.
Qed.

(** *** Sums *)

Lemma fold_Qplus_init (l : list Q) (a : Q) :
  fold_left Qplus l a == a + fold_left Qplus l 0.
Proof.
  revert a. induction l as [|x l IH]; intros a; simpl.
  - lra.
  - rewrite (IH (a + x)), (IH (0 + x)). lra.
Qed.

Lemma sum_cons (x : Q) (l : list Q) : sum (x :: l) == x + sum l.
Proof.
  unfold sum. simpl. rewrite fold_Qplus_init. lra.
Qed.

Lemma sum_app (l1 l2 : list Q) : sum (l1 ++ l2) == sum l1 + sum l2.
Proof.
  induction l1 as [|x l1 IH]; simpl.
  - unfold sum at 2. simpl. lra.
  - rewrite !sum_cons, IH. lra.
Qed.

End Runtime.

(** ** Project health *)

Section Health.
Local Open Scope Q_scope.
Import AnalyticsService.

Lemma on_time_step_count (l : list Task.t) (n : nat) (d : Z) :
  fst (fold_left on_time_step l (n, d))
  = (n + List.length (filter Spec.on_time l))%nat.
Proof.
  revert n d. induction l as [|t l IH]; intros n d; simpl.
  - lia.
  - unfold Spec.on_time at 1. unfold ensure_utc.
    destruct (Task.due_date t) as [due|];
      destruct (Task.last_progress_update t) as [upd|];
      try (rewrite IH; reflexivity).
    destruct (upd <=? due)%Z; rewrite IH; simpl; lia.
Qed.

Lemma filter_length_le {A} (p : A -> bool) (l : list A) :
  (List.length (filter p l) <= List.length l)%nat.
Proof.
  induction l as [|x l IH]; simpl; [lia|].
  destruct (p x); simpl; lia.
Qed.

(** What a call on a project with tasks returns. *)
Lemma get_project_health_run (db : DB.t) (now : datetime)
    (project_id user_id : Z) (project : Project.t) :
  require_member db project_id user_id = Ok project ->
  DB.tasks_of db project_id <> [] ->
  let tasks := DB.tasks_of db project_id in
  let op := Spec.overdue_percentage now tasks in
  let otr := Spec.on_time_rate tasks in
  exists h,
    get_project_health db now project_id user_id = Ok h
    /\ ProjectHealth.total_tasks h = List.length tasks
    /\ ProjectHealth.overdue_percentage h = round op 1
    /\ ProjectHealth.on_time_completion_rate h = round otr 1
    /\ ProjectHealth.health_score h = round (health_score_of op otr) 1
    /\ ProjectHealth.status h = status_of (health_score_of op otr).
Proof.
  intros Hreq Hne. cbv zeta.
  unfold get_project_health. rewrite Hreq. cbn [bind].
  remember (DB.tasks_of db project_id) as tasks eqn:Htasks.
  assert (Hlen : (0 < List.length tasks)%nat)
    by (destruct tasks; [contradiction | simpl; lia]).
  assert (Hm : forall (A : Type) (a b : A),
             match tasks with [] => a | _ :: _ => b end = b)
    by (destruct tasks; [contradiction | reflexivity]).
  rewrite Hm. clear Hm.
  unfold Spec.on_time_rate, Spec.overdue_percentage, Spec.completed_tasks.
  destruct (fold_left on_time_step (filter is_completed tasks) (0%nat, 0%Z))
    as [otc td] eqn:Efold.
  assert (Hotc : otc = List.length (filter Spec.on_time (filter is_completed tasks))).
  { pose proof (on_time_step_count (filter is_completed tasks) 0 0) as H.
    rewrite Efold in H. simpl in H. exact H. }
  rewrite (truediv_pos _ (Qnat (List.length tasks))) by now apply Qnat_pos.
  assert (Hd : exists avg_delay,
             (if (0 <? List.length (filter is_completed tasks) - otc)%nat
              then truediv (inject_Z td)
                     (Qnat (List.length (filter is_completed tasks) - otc))
              else Ok 0) = Ok avg_delay).
  { destruct (0 <? List.length (filter is_completed tasks) - otc)%nat eqn:E.
    - apply Nat.ltb_lt in E. rewrite truediv_pos by now apply Qnat_pos.
      eauto.
    - eauto. }
  destruct Hd as [avg_delay Hd]. rewrite Hd. clear Hd.
  destruct (filter is_completed tasks) as [|c cs] eqn:Ec.
  - cbn [bind]. eexists. split; [reflexivity|].
    cbn [ProjectHealth.total_tasks ProjectHealth.overdue_percentage
         ProjectHealth.on_time_completion_rate ProjectHealth.health_score
         ProjectHealth.status].
    repeat split; reflexivity.
  - rewrite <- Ec in *.
    rewrite (truediv_pos _ (Qnat (List.length (filter is_completed tasks))))
      by (apply Qnat_pos; rewrite Ec; simpl; lia).
    cbn [bind]. eexists. split; [reflexivity|].
    cbn [ProjectHealth.total_tasks ProjectHealth.overdue_percentage
         ProjectHealth.on_time_completion_rate ProjectHealth.health_score
         ProjectHealth.status].
    rewrite Hotc.
    repeat split; reflexivity.
Qed.

Lemma health_score_of_clamp (op otr : Q) :
  0 <= op -> otr <= 100 ->
  health_score_of op otr
  == Spec.clamp 0 100 (100 - op * 2 - (100 - otr) * (1#2)).
Proof.
  intros Hop Hotr. unfold health_score_of, Spec.clamp, Qmax, Qmin.
  destruct (Qle_bool 100 (100 - op * 2 - (100 - otr) * (1 # 2))) eqn:E1.
  - apply Qle_bool_iff in E1.
    destruct (Qle_bool 0 (100 - op * 2 - (100 - otr) * (1 # 2))) eqn:E2;
      destruct (Qle_bool 0 100) eqn:E3;
      try apply Qle_bool_iff in E2; try apply Qle_bool_gt in E2;
      try apply Qle_bool_gt in E3; lra.
  - reflexivity.
Qed.

Lemma health_score_of_bounds (op otr : Q) :
  0 <= op -> otr <= 100 ->
  0 <= health_score_of op otr /\ health_score_of op otr <= 100.
Proof.
  intros Hop Hotr. unfold health_score_of, Qmax.
  destruct (Qle_bool 0 (100 - op * 2 - (100 - otr) * (1 # 2))) eqn:E.
  - apply Qle_bool_iff in E. split; lra.
  - split; lra.
Qed.

Lemma health_score_of_antitone (op1 op2 otr1 otr2 : Q) :
  op1 <= op2 -> 100 - otr1 <= 100 - otr2 ->
  health_score_of op2 otr2 <= health_score_of op1 otr1.
Proof.
  intros Hop Hotr. unfold health_score_of, Qmax.
  destruct (Qle_bool 0 (100 - op2 * 2 - (100 - otr2) * (1 # 2))) eqn:E2;
    destruct (Qle_bool 0 (100 - op1 * 2 - (100 - otr1) * (1 # 2))) eqn:E1;
    try apply Qle_bool_iff in E1; try apply Qle_bool_iff in E2;
    try apply Qle_bool_gt in E1; try apply Qle_bool_gt in E2; lra.
Qed.

Lemma on_time_rate_le_100 (tasks : list Task.t) :
  Spec.on_time_rate tasks <= 100.
Proof.
  unfold Spec.on_time_rate.
  destruct (Spec.completed_tasks tasks) as [|c cs] eqn:E; [lra|].
  rewrite <- E.
  apply percentage_bounds.
  - apply filter_length_le.
  - rewrite E. simpl. lia.
Qed.

Lemma overdue_percentage_nonneg (now : datetime) (tasks : list Task.t) :
  0 <= Spec.overdue_percentage now tasks.
Proof. apply percentage_nonneg. Qed.

(** Rounding to one decimal moves a number by 0.05 at most. *)
Lemma round_1_close (x : Q) : x - (1#20) <= round x 1 /\ round x 1 <= x + (1#20).
Proof.
  unfold round. rewrite Qred_correct.
  change (inject_Z (10 ^ Z.of_nat 1)) with 10.
  pose proof (Qfloor_le (x * 10)) as Hlo.
  pose proof (Qlt_floor (x * 10)) as Hhi.
  rewrite inject_Z_plus in Hhi. change (inject_Z 1) with 1 in Hhi.
  destruct (round_half_even_range (x * 10)) as [[-> [H _]]|[-> [H _]]].
  - split; apply Qle_shift_div_l || apply Qle_shift_div_r; lra.
  - rewrite inject_Z_plus. change (inject_Z 1) with 1.
    split; apply Qle_shift_div_l || apply Qle_shift_div_r; lra.
Qed.

(** C7, as amended.  For a project with tasks, the health score
    [get_project_health] returns is [clamp(0, 100, 100 -
    overdue_percentage * 2 - (100 - on_time_rate) * 0.5)] rounded to one
    decimal, like every score of the payload: it is within 0.05 of that
    value and need not equal it.  It lies between 0 and 100, and of two
    projects the one with the larger overdue percentage and the larger
    [100 - on_time_rate] never has the larger score. *)
Theorem health_score_is_rounded_clamp (db : DB.t) (now : datetime)
    (project_id user_id : Z) (project : Project.t) :
  require_member db project_id user_id = Ok project ->
  DB.tasks_of db project_id <> [] ->
  let op := Spec.overdue_percentage now (DB.tasks_of db project_id) in
  let otr := Spec.on_time_rate (DB.tasks_of db project_id) in
  let clamped := Spec.clamp 0 100 (100 - op * 2 - (100 - otr) * (1#2)) in
  exists h,
    get_project_health db now project_id user_id = Ok h
    /\ clamped - (1#20) <= ProjectHealth.health_score h
    /\ ProjectHealth.health_score h <= clamped + (1#20)
    /\ 0 <= ProjectHealth.health_score h <= 100
    /\ (forall db' now' project_id' user_id' project' h',
          require_member db' project_id' user_id' = Ok project' ->
          DB.tasks_of db' project_id' <> [] ->
          get_project_health db' now' project_id' user_id' = Ok h' ->
          op <= Spec.overdue_percentage now' (DB.tasks_of db' project_id') ->
          100 - otr <= 100 - Spec.on_time_rate (DB.tasks_of db' project_id') ->
          ProjectHealth.health_score h' <= ProjectHealth.health_score h).
Proof.
  intros Hreq Hne op otr clamped.
  destruct (get_project_health_run db now project_id user_id project Hreq Hne)
    as [h [Hh [_ [_ [_ [Hs _]]]]]].
  fold op otr in Hs.
  assert (Hop : 0 <= op) by apply overdue_percentage_nonneg.
  assert (Hotr : otr <= 100) by apply on_time_rate_le_100.
  pose proof (health_score_of_clamp op otr Hop Hotr) as Hc.
  fold clamped in Hc.
  destruct (round_1_close (health_score_of op otr)) as [Hlo Hhi].
  exists h. split; [exact Hh|].
  split; [rewrite Hs, <- Hc; exact Hlo|].
  split; [rewrite Hs, <- Hc; exact Hhi|].
  split.
  - rewrite Hs.
    destruct (health_score_of_bounds op otr Hop Hotr) as [H0 H100].
    split.
    + change 0 with (round 0 1). now apply round_le.
    + change 100 with (round 100 1). now apply round_le.
  - intros db' now' project_id' user_id' project' h' Hreq' Hne' Hh' Hop' Hotr'.
    destruct (get_project_health_run db' now' project_id' user_id' project'
                Hreq' Hne') as [h'' [Hh'' [_ [_ [_ [Hs' _]]]]]].
    rewrite Hh' in Hh''. injection Hh'' as <-.
    rewrite Hs, Hs'. apply round_le.
    now apply health_score_of_antitone.
Qed.

(** Two projects of three tasks with one overdue.  Where the other two
    are completed without due date, the formula gives -16.67 and the
    score is the lower bound, 0; where nothing is completed it gives
    33.33..., returned as 33.3. *)
Lemma health_score_is_rounded_clamp_witness :
  (exists h,
      get_project_health Sample.db_one_of_three_overdue Sample.now 10 1 = Ok h
      /\ ProjectHealth.health_score h == 0)
  /\ (exists h,
        get_project_health Cases.db_third_overdue Sample.now 10 1 = Ok h
        /\ (333#10) - (1#20) <= ProjectHealth.health_score h
        /\ ProjectHealth.health_score h <= (100#3) + (1#20)).
Proof.
  split.
  - destruct (health_score_is_rounded_clamp Sample.db_one_of_three_overdue
                Sample.now 10 1 Sample.apollo)
      as [h [Hh [Hlo [Hhi [[H0 _] _]]]]].
    + reflexivity.
    + discriminate.
    + exists h. split; [exact Hh|].
      vm_compute in Hh. injection Hh as <-. reflexivity.
  - destruct (health_score_is_rounded_clamp Cases.db_third_overdue
                Sample.now 10 1 Sample.apollo)
      as [h [Hh [Hlo [Hhi _]]]].
    + reflexivity.
    + discriminate.
    + exists h. split; [exact Hh|]. split.
      * eapply Qle_trans; [|exact Hlo]. vm_compute. discriminate.
      * eapply Qle_trans; [exact Hhi|]. vm_compute. discriminate.
Defined.

(** C7, as stated, fails: with one task of three overdue and nothing
    completed the formula gives 100/3, and the score returned is 33.3. *)
Lemma health_score_counterexample :
  exists h,
    get_project_health Cases.db_third_overdue Sample.now 10 1 = Ok h
    /\ DB.tasks_of Cases.db_third_overdue 10 <> []
    /\ Spec.clamp 0 100
         (100
          - Spec.overdue_percentage Sample.now
              (DB.tasks_of Cases.db_third_overdue 10) * 2
          - (100 - Spec.on_time_rate (DB.tasks_of Cases.db_third_overdue 10))
            * (1#2))
       == 100#3
    /\ ProjectHealth.health_score h == 333#10
    /\ ~ ProjectHealth.health_score h
         == Spec.clamp 0 100
              (100
               - Spec.overdue_percentage Sample.now
                   (DB.tasks_of Cases.db_third_overdue 10) * 2
               - (100 - Spec.on_time_rate
                          (DB.tasks_of Cases.db_third_overdue 10))
                 * (1#2)).
Proof.
  eexists. split; [vm_compute; reflexivity|].
  split; [discriminate|].
  split; [vm_compute; reflexivity|].
  split; [vm_compute; reflexivity|].
  vm_compute. discriminate.
Qed.

(** C2, as amended.  For a project with a completed task, the on-time
    completion rate [get_project_health] returns is the number of
    completions at or before the due date over the number of all the
    completed tasks, as a percentage rounded to one decimal: a completed
    task without due date or completion timestamp stays in the
    denominator.  When every completed task has both, this is the rate
    over the tasks that have both. *)
Theorem on_time_rate_over_completed (db : DB.t) (now : datetime)
    (project_id user_id : Z) (project : Project.t) :
  require_member db project_id user_id = Ok project ->
  Spec.completed_tasks (DB.tasks_of db project_id) <> [] ->
  let completed := Spec.completed_tasks (DB.tasks_of db project_id) in
  exists h,
    get_project_health db now project_id user_id = Ok h
    /\ ProjectHealth.on_time_completion_rate h
       = round (Qnat (List.length (filter Spec.on_time completed))
                / Qnat (List.length completed) * 100) 1
    /\ (forallb Spec.has_due_and_completion completed = true ->
        ProjectHealth.on_time_completion_rate h
        = round (Spec.on_time_rate_as_specified (DB.tasks_of db project_id)) 1).
Proof.
  intros Hreq Hne completed.
  assert (Hne' : DB.tasks_of db project_id <> []).
  { intros E. apply Hne. unfold Spec.completed_tasks. now rewrite E. }
  destruct (get_project_health_run db now project_id user_id project Hreq Hne')
    as [h [Hh [_ [_ [Hr _]]]]].
  assert (E : Spec.on_time_rate (DB.tasks_of db project_id)
              = Qnat (List.length (filter Spec.on_time completed))
                / Qnat (List.length completed) * 100).
  { unfold Spec.on_time_rate. subst completed.
    destruct (Spec.completed_tasks (DB.tasks_of db project_id)) eqn:E0;
      [congruence | reflexivity]. }
  exists h. split; [exact Hh|]. split.
  - now rewrite Hr, E.
  - intros Hall. rewrite Hr, E. unfold Spec.on_time_rate_as_specified.
    fold completed.
    assert (Hf : filter Spec.has_due_and_completion completed = completed).
    { clear - Hall. induction completed as [|t l IH]; [reflexivity|].
      simpl in *. apply andb_true_iff in Hall as [Ht Hl].
      rewrite Ht. f_equal. now apply IH. }
    now rewrite Hf.
Qed.

Lemma on_time_rate_over_completed_witness :
  exists h,
    get_project_health Sample.db_two_completed Sample.now 10 1 = Ok h
    /\ ProjectHealth.on_time_completion_rate h == 50.
Proof.
  destruct (on_time_rate_over_completed Sample.db_two_completed Sample.now
              10 1 Sample.apollo)
    as [h [Hh [Hr _]]].
  - reflexivity.
  - discriminate.
  - exists h. split; [exact Hh|]. rewrite Hr. vm_compute. reflexivity.
Defined.

(** C2, as stated, fails: of two completed tasks, one on time and one
    without due date, the rate over the tasks that have both fields is
    100, the rate returned is 50. *)
Lemma on_time_rate_counterexample :
  exists h,
    get_project_health Sample.db_two_completed Sample.now 10 1 = Ok h
    /\ Spec.completed_tasks (DB.tasks_of Sample.db_two_completed 10) <> []
    /\ round (Spec.on_time_rate_as_specified
                (DB.tasks_of Sample.db_two_completed 10)) 1 == 100
    /\ ProjectHealth.on_time_completion_rate h == 50
    /\ ~ ProjectHealth.on_time_completion_rate h
         == round (Spec.on_time_rate_as_specified
                     (DB.tasks_of Sample.db_two_completed 10)) 1.
Proof.
  eexists. split; [vm_compute; reflexivity|].
  split; [discriminate|].
  split; [vm_compute; reflexivity|].
  split; [vm_compute; reflexivity|].
  vm_compute. discriminate.
Qed.

End Health.

(** ** Risk assessment *)

Section Risk.
Local Open Scope Q_scope.
Import AnalyticsService.

Lemma sum_tags_app (a b : list Spec.tag) :
  Spec.sum_tags (a ++ b) = (Spec.sum_tags a + Spec.sum_tags b)%Z.
Proof.
  induction a as [|t a IH]; simpl; [reflexivity|]. rewrite IH. lia.
Qed.

Lemma sum_points_app (a b : list RiskFactor.t) :
  Spec.sum_points (a ++ b) = (Spec.sum_points a + Spec.sum_points b)%Z.
Proof.
  unfold Spec.sum_points. now rewrite map_app, sum_tags_app.
Qed.

Lemma points_nonneg (t : Spec.tag) : (0 <= Spec.points t)%Z.
Proof.
  destruct t as [k l]. destruct k, l; simpl; lia.
Qed.

Lemma sum_tags_nonneg (ts : list Spec.tag) : (0 <= Spec.sum_tags ts)%Z.
Proof.
  induction ts as [|t ts IH]; simpl; [lia|].
  pose proof (points_nonneg t). lia.
Qed.

Lemma sum_points_perm (a b : list RiskFactor.t) :
  Permutation a b -> Spec.sum_points a = Spec.sum_points b.
Proof.
  unfold Spec.sum_points.
  induction 1; simpl; try lia.
Qed.

(** The sort rearranges, nothing more. *)
Lemma insert_desc_perm {A} (key : A -> Q) (x : A) (l : list A) :
  Permutation (insert_desc key x l) (x :: l).
Proof.
  induction l as [|y l IH]; simpl; [reflexivity|].
  destruct (Qltb (key x) (key y)); [|reflexivity].
  rewrite IH. apply perm_swap.
Qed.

Lemma sorted_desc_perm {A} (key : A -> Q) (l : list A) :
  Permutation (sorted_desc key l) l.
Proof.
  induction l as [|x l IH]; simpl; [reflexivity|].
  rewrite insert_desc_perm. now constructor.
Qed.

Lemma extends_refl (st : risk_state) : Spec.extends st st [].
Proof.
  split; [now rewrite app_nil_r | unfold Spec.sum_points; simpl; lia].
Qed.

Lemma extends_fire (st : risk_state) (f : RiskFactor.t) (p : Z) :
  Spec.points (Spec.tag_of f) = p -> Spec.extends st (fire st f p) [f].
Proof.
  intros H. subst p. split; [reflexivity|].
  unfold fire, Spec.sum_points. cbn [snd map Spec.sum_tags fold_right]. lia.
Qed.

Lemma deadline_risk_run (now : datetime) (project : Project.t)
    (tasks : list Task.t) (st : risk_state) :
  exists st' fs,
    deadline_risk now project tasks st = Ok st'
    /\ Spec.extends st st' fs
    /\ map Spec.tag_of fs = Spec.deadline_family now project tasks.
Proof.
  unfold deadline_risk, Spec.deadline_family, Spec.days_to_deadline,
    ensure_utc.
  destruct (Project.deadline project) as [d|].
  2:{ exists st, []. split; [reflexivity|]. split; [apply extends_refl|reflexivity]. }
  destruct (td_days (d - now) <=? 0)%Z.
  { eexists _, [_]. split; [reflexivity|].
    split; [now apply extends_fire | reflexivity]. }
  assert (E : (0 <? List.length (filter (fun t => negb (is_completed t)) tasks))%nat
              = negb (Nat.eqb (List.length (Spec.incomplete_tasks tasks)) 0)).
  { unfold Spec.incomplete_tasks.
    destruct (List.length (filter (fun t => negb (is_completed t)) tasks));
      reflexivity. }
  rewrite E.
  destruct ((td_days (d - now) <=? 7)%Z
            && negb (Nat.eqb (List.length (Spec.incomplete_tasks tasks)) 0)).
  { eexists _, [_]. split; [reflexivity|].
    split; [now apply extends_fire | reflexivity]. }
  unfold Spec.overdue_ratio_high, Spec.overdue_tasks.
  destruct (Qltb (Qnat (List.length tasks) * (3 # 10))
                 (Qnat (List.length (filter (Task.is_overdue now) tasks))))
    eqn:Er.
  2:{ exists st, []. split; [reflexivity|]. split; [apply extends_refl|reflexivity]. }
  apply Qltb_lt in Er.
  assert (Hpos : 0 < Qnat (List.length tasks)).
  { apply Qnat_pos.
    pose proof (filter_length_le (Task.is_overdue now) tasks) as Hle.
    destruct (List.length tasks) as [|n] eqn:En; [|lia].
    exfalso.
    assert (List.length (filter (Task.is_overdue now) tasks) = 0%nat) as E0 by lia.
    rewrite E0 in Er. try rewrite En in Er. vm_compute in Er. discriminate. }
  rewrite truediv_pos by assumption. cbn [bind].
  eexists _, [_]. split; [reflexivity|].
  split; [now apply extends_fire | reflexivity].
Qed.

Lemma budget_risk_run (budget : option Budget.t) (st : risk_state) :
  exists fs,
    Spec.extends st (budget_risk budget st) fs
    /\ map Spec.tag_of fs = Spec.budget_family budget.
Proof.
  unfold budget_risk, Spec.budget_family.
  destruct budget as [b|].
  2:{ exists []. split; [apply extends_refl|reflexivity]. }
  destruct (Qltb 100 (Budget.utilization_percentage b)).
  { eexists [_]. split; [now apply extends_fire | reflexivity]. }
  destruct (Qltb 90 (Budget.utilization_percentage b)).
  { eexists [_]. split; [now apply extends_fire | reflexivity]. }
  destruct (Qltb 75 (Budget.utilization_percentage b)).
  { eexists [_]. split; [now apply extends_fire | reflexivity]. }
  exists []. split; [apply extends_refl|reflexivity].
Qed.

Lemma workload_risk_run (project : Project.t) (tasks : list Task.t)
    (st : risk_state) :
  exists st' fs,
    workload_risk project tasks st = Ok st'
    /\ Spec.extends st st' fs
    /\ map Spec.tag_of fs = Spec.workload_family project tasks.
Proof.
  unfold workload_risk, Spec.workload_family, Spec.tasks_per_member.
  replace (0 <? List.length (Project.members project) + 1)%nat with true
    by (symmetry; apply Nat.ltb_lt; lia).
  rewrite truediv_pos by (apply Qnat_pos; lia). cbn [bind].
  destruct (Qltb 10 (Qnat (List.length tasks)
                     / Qnat (List.length (Project.members project) + 1))).
  { eexists _, [_]. split; [reflexivity|].
    split; [now apply extends_fire | reflexivity]. }
  exists st, []. split; [reflexivity|]. split; [apply extends_refl|reflexivity].
Qed.

Lemma velocity_risk_run (tasks : list Task.t) (st : risk_state) :
  exists st' fs,
    velocity_risk tasks st = Ok st'
    /\ Spec.extends st st' fs
    /\ map Spec.tag_of fs = Spec.velocity_family tasks.
Proof.
  unfold velocity_risk, Spec.velocity_family, Spec.completion_rate,
    Spec.completed_tasks.
  assert (H : exists r,
             match tasks with
             | [] => Ok 0
             | _ :: _ =>
                 q <- truediv (Qnat (List.length (filter is_completed tasks)))
                              (Qnat (List.length tasks)) ;;
                 Ok (q * 100)
             end = Ok r
             /\ r = match tasks with
                    | [] => 0
                    | _ :: _ => Qnat (List.length (filter is_completed tasks))
                                / Qnat (List.length tasks) * 100
                    end).
  { destruct tasks as [|t l] eqn:E; [eauto|]. rewrite <- E.
    rewrite truediv_pos by (apply Qnat_pos; rewrite E; simpl; lia).
    cbn [bind]. eauto. }
  destruct H as [r [Hr Er]]. rewrite Hr. cbn [bind]. rewrite <- Er.
  destruct (Qltb r 30).
  { eexists _, [_]. split; [reflexivity|].
    split; [now apply extends_fire | reflexivity]. }
  exists st, []. split; [reflexivity|]. split; [apply extends_refl|reflexivity].
Qed.

(** What an assessment returns: the factors of the table that fire, by
    decreasing impact, and their capped sum. *)
Lemma get_risk_assessment_run (db : DB.t) (now : datetime)
    (project_id user_id : Z) (project : Project.t) :
  require_member_or_owner db project_id user_id = Ok project ->
  exists r fs,
    get_risk_assessment db now project_id user_id = Ok r
    /\ Permutation (RiskAssessment.risk_factors r) fs
    /\ map Spec.tag_of fs
       = Spec.fired now project (DB.tasks_of db project_id)
                    (DB.budget_of db project_id)
    /\ RiskAssessment.overall_risk_score r = Spec.capped_score fs
    /\ RiskAssessment.recommendations r
       = _generate_risk_recommendations fs project (DB.tasks_of db project_id).
Proof.
  intros Hreq. unfold get_risk_assessment. rewrite Hreq. cbn [bind].
  destruct (deadline_risk_run now project (DB.tasks_of db project_id) ([], 0%Z))
    as [st1 [fs1 [H1 [[F1 S1] T1]]]].
  rewrite H1. cbn [bind].
  destruct (budget_risk_run (DB.budget_of db project_id) st1)
    as [fs2 [[F2 S2] T2]].
  destruct (workload_risk_run project (DB.tasks_of db project_id)
              (budget_risk (DB.budget_of db project_id) st1))
    as [st3 [fs3 [H3 [[F3 S3] T3]]]].
  rewrite H3. cbn [bind].
  destruct (velocity_risk_run (DB.tasks_of db project_id) st3)
    as [st4 [fs4 [H4 [[F4 S4] T4]]]].
  rewrite H4. cbn [bind].
  destruct st4 as [risk_factors risk_score]. simpl in F4, S4.
  simpl in F1, S1.
  assert (Hf : risk_factors = fs1 ++ fs2 ++ fs3 ++ fs4).
  { rewrite F4, F3, F2, F1. now rewrite <- !app_assoc. }
  assert (Hs : risk_score = Spec.sum_points (fs1 ++ fs2 ++ fs3 ++ fs4)).
  { rewrite S4, S3, S2, S1, !sum_points_app. lia. }
  eexists _, (fs1 ++ fs2 ++ fs3 ++ fs4). split; [reflexivity|].
  cbn [RiskAssessment.risk_factors RiskAssessment.overall_risk_score
       RiskAssessment.recommendations].
  split; [rewrite Hf; apply sorted_desc_perm|].
  split; [unfold Spec.fired; now rewrite !map_app, T1, T2, T3, T4|].
  split; [unfold Spec.capped_score; now rewrite Hs | now rewrite Hf].
Qed.


Lemma fired_in_table (now : datetime) (project : Project.t)
    (tasks : list Task.t) (budget : option Budget.t) (t : Spec.tag) :
  In t (Spec.fired now project tasks budget) ->
  In (t, Spec.points t) Spec.table.
Proof.
  unfold Spec.fired, Spec.deadline_family, Spec.budget_family,
    Spec.workload_family, Spec.velocity_family.
  rewrite !in_app_iff.
  intros [H|[H|[H|H]]];
    repeat match type of H with
      | In _ (match ?x with _ => _ end) => destruct x
      | In _ (if ?c then _ else _) => destruct c
      end;
    simpl in H; intuition (subst; simpl; auto 10).
Qed.

Lemma deadline_family_points (now : datetime) (project : Project.t)
    (tasks : list Task.t) :
  (Spec.sum_tags (Spec.deadline_family now project tasks) <= 40)%Z.
Proof.
  unfold Spec.deadline_family.
  repeat match goal with
    | |- context [match ?x with _ => _ end] => destruct x
    end; simpl; lia.
Qed.

Lemma budget_family_points (budget : option Budget.t) :
  (Spec.sum_tags (Spec.budget_family budget) <= 35)%Z.
Proof.
  unfold Spec.budget_family.
  repeat match goal with
    | |- context [match ?x with _ => _ end] => destruct x
    end; simpl; lia.
Qed.

Lemma workload_family_points (project : Project.t) (tasks : list Task.t) :
  (Spec.sum_tags (Spec.workload_family project tasks) <= 15)%Z.
Proof.
  unfold Spec.workload_family.
  destruct (Qltb 10 (Spec.tasks_per_member project tasks)); simpl; lia.
Qed.

Lemma velocity_family_points (tasks : list Task.t) :
  (Spec.sum_tags (Spec.velocity_family tasks) <= 25)%Z.
Proof.
  unfold Spec.velocity_family.
  destruct (Qltb (Spec.completion_rate tasks) 30); simpl; lia.
Qed.

Lemma fired_at_most_115 (now : datetime) (project : Project.t)
    (tasks : list Task.t) (budget : option Budget.t) :
  (Spec.sum_tags (Spec.fired now project tasks budget) <= 115)%Z.
Proof.
  unfold Spec.fired. rewrite !sum_tags_app.
  pose proof (deadline_family_points now project tasks).
  pose proof (budget_family_points budget).
  pose proof (workload_family_points project tasks).
  pose proof (velocity_family_points tasks).
  lia.
Qed.

Lemma capped_score_monotone (fs more : list RiskFactor.t) :
  (Spec.capped_score fs <= Spec.capped_score (fs ++ more))%Z.
Proof.
  unfold Spec.capped_score. rewrite sum_points_app.
  pose proof (sum_tags_nonneg (map Spec.tag_of more)) as H.
  fold (Spec.sum_points more) in H. lia.
Qed.

(** C8.  For a caller with access, the overall risk score of
    [get_risk_assessment] is the sum of the points the table gives the
    fired factors (40/30/20 for the deadline family, 35/25/15 for the
    budget family, 15 for workload, 25 for velocity), capped at 100.
    The uncapped sum can reach 115 but the score never exceeds 100, and
    it never decreases when more factors fire. *)
Theorem risk_score_is_capped_sum (db : DB.t) (now : datetime)
    (project_id user_id : Z) (project : Project.t) :
  require_member_or_owner db project_id user_id = Ok project ->
  exists r,
    get_risk_assessment db now project_id user_id = Ok r
    /\ Permutation (map Spec.tag_of (RiskAssessment.risk_factors r))
                   (Spec.fired now project (DB.tasks_of db project_id)
                               (DB.budget_of db project_id))
    /\ Forall (fun f => In (Spec.tag_of f, Spec.points (Spec.tag_of f))
                           Spec.table)
              (RiskAssessment.risk_factors r)
    /\ RiskAssessment.overall_risk_score r
       = Z.min (Spec.sum_points (RiskAssessment.risk_factors r)) 100
    /\ (Spec.sum_points (RiskAssessment.risk_factors r) <= 115)%Z
    /\ (RiskAssessment.overall_risk_score r <= 100)%Z
    /\ (forall more,
          (RiskAssessment.overall_risk_score r
           <= Spec.capped_score (RiskAssessment.risk_factors r ++ more))%Z)
    /\ (forall fs more,
          (Spec.capped_score fs <= Spec.capped_score (fs ++ more))%Z).
Proof.
  intros Hreq.
  destruct (get_risk_assessment_run db now project_id user_id project Hreq)
    as [r [fs [Hr [Hperm [Htags [Hscore _]]]]]].
  assert (Hsum : Spec.sum_points (RiskAssessment.risk_factors r)
                 = Spec.sum_points fs) by now apply sum_points_perm.
  assert (Hcap : RiskAssessment.overall_risk_score r
                 = Spec.capped_score (RiskAssessment.risk_factors r)).
  { unfold Spec.capped_score. rewrite Hsum. exact Hscore. }
  exists r. split; [exact Hr|].
  split; [rewrite <- Htags; now apply Permutation_map|].
  split.
  { apply (Permutation_Forall (Permutation_sym Hperm)).
    apply Forall_forall. intros f Hf.
    apply (fired_in_table now project (DB.tasks_of db project_id)
             (DB.budget_of db project_id)).
    rewrite <- Htags. now apply in_map. }
  split; [exact Hcap|].
  split.
  { rewrite Hsum. unfold Spec.sum_points. rewrite Htags.
    apply fired_at_most_115. }
  split; [rewrite Hcap; unfold Spec.capped_score; lia|].
  split; [intros more; rewrite Hcap; apply capped_score_monotone|].
  apply capped_score_monotone.
Qed.

(** A project on which every family fires: 40 + 35 + 15 + 25 = 115
    points, a score of 100. *)
Lemma risk_score_is_capped_sum_witness :
  exists r,
    get_risk_assessment Sample.db_all_factors Sample.now 12 1 = Ok r
    /\ Spec.sum_points (RiskAssessment.risk_factors r) = 115%Z
    /\ RiskAssessment.overall_risk_score r = 100%Z.
Proof.
  destruct (risk_score_is_capped_sum Sample.db_all_factors Sample.now 12 1
              Sample.mercury)
    as [r [Hr [Hperm [_ [Hscore _]]]]].
  - reflexivity.
  - exists r. split; [exact Hr|].
    assert (Hsum : Spec.sum_points (RiskAssessment.risk_factors r) = 115%Z).
    { unfold Spec.sum_points.
      assert (E : forall a b, Permutation a b -> Spec.sum_tags a = Spec.sum_tags b)
        by (induction 1; simpl; lia).
      rewrite (E _ _ Hperm). vm_compute. reflexivity. }
    split; [exact Hsum|]. rewrite Hscore, Hsum. reflexivity.
Defined.

(** C5, as amended.  The overdue-ratio factor belongs to the deadline
    analysis.  For a project that has a deadline which neither passed
    nor is within seven days with incomplete tasks, and more than 30% of
    whose tasks are overdue, the medium-severity overdue factor fires
    and adds 20 points to the points of the budget, workload and
    velocity factors.  For a project without deadline the factor never
    fires. *)
Theorem overdue_ratio_factor (db : DB.t) (now : datetime)
    (project_id user_id : Z) (project : Project.t) :
  require_member_or_owner db project_id user_id = Ok project ->
  let tasks := DB.tasks_of db project_id in
  exists r,
    get_risk_assessment db now project_id user_id = Ok r
    /\ (forall deadline,
          Project.deadline project = Some deadline ->
          (0 < Spec.days_to_deadline now deadline)%Z ->
          ~ ((Spec.days_to_deadline now deadline <= 7)%Z
             /\ Spec.incomplete_tasks tasks <> []) ->
          Qnat (List.length tasks) * (3#10)
            < Qnat (List.length (Spec.overdue_tasks now tasks)) ->
          (exists f, In f (RiskAssessment.risk_factors r)
                     /\ RiskFactor.type f = RiskFactor.task_overdue
                     /\ RiskFactor.severity f = RiskFactor.medium)
          /\ RiskAssessment.overall_risk_score r
             = (20 + Spec.sum_tags
                       (Spec.budget_family (DB.budget_of db project_id)
                        ++ Spec.workload_family project tasks
                        ++ Spec.velocity_family tasks))%Z)
    /\ (Project.deadline project = None ->
        forall f, In f (RiskAssessment.risk_factors r) ->
                  RiskFactor.type f <> RiskFactor.task_overdue).
Proof.
  intros Hreq tasks.
  destruct (get_risk_assessment_run db now project_id user_id project Hreq)
    as [r [fs [Hr [Hperm [Htags [Hscore _]]]]]].
  fold tasks in Htags.
  exists r. split; [exact Hr|]. split.
  - intros deadline Hd Hpos Hnear Hratio.
    assert (Hfam : Spec.deadline_family now project tasks
                   = [(RiskFactor.task_overdue, RiskFactor.medium)]).
    { unfold Spec.deadline_family. rewrite Hd.
      replace (Spec.days_to_deadline now deadline <=? 0)%Z with false
        by (symmetry; apply Z.leb_gt; lia).
      destruct (Spec.days_to_deadline now deadline <=? 7)%Z eqn:E7.
      - apply Z.leb_le in E7.
        destruct (List.length (Spec.incomplete_tasks tasks)) eqn:El.
        + simpl. unfold Spec.overdue_ratio_high.
          apply Qltb_lt in Hratio. now rewrite Hratio.
        + exfalso. apply Hnear. split; [exact E7|].
          intros E. rewrite E in El. discriminate.
      - simpl. unfold Spec.overdue_ratio_high.
        apply Qltb_lt in Hratio. now rewrite Hratio. }
    unfold Spec.fired in Htags. rewrite Hfam in Htags.
    split.
    + destruct fs as [|f fs']; [discriminate|].
      simpl in Htags. unfold Spec.tag_of at 1 in Htags.
      injection Htags as Ht Hs _.
      exists f. split.
      * apply (Permutation_in f (Permutation_sym Hperm)). now left.
      * auto.
    + rewrite Hscore. unfold Spec.capped_score, Spec.sum_points.
      rewrite Htags.
      change (Spec.sum_tags ([(RiskFactor.task_overdue, RiskFactor.medium)] ++ ?l))
        with (20 + Spec.sum_tags l)%Z.
      rewrite !sum_tags_app.
      pose proof (budget_family_points (DB.budget_of db project_id)).
      pose proof (workload_family_points project tasks).
      pose proof (velocity_family_points tasks).
      lia.
  - intros Hnone f Hf Ht.
    apply (Permutation_in f Hperm) in Hf.
    apply (in_map Spec.tag_of) in Hf. rewrite Htags in Hf.
    unfold Spec.fired, Spec.deadline_family in Hf. rewrite Hnone in Hf.
    simpl in Hf.
    unfold Spec.budget_family, Spec.workload_family, Spec.velocity_family in Hf.
    rewrite !in_app_iff in Hf.
    unfold Spec.tag_of in Hf. rewrite Ht in Hf.
    destruct Hf as [H|[H|H]];
      repeat match type of H with
        | In _ (match ?x with _ => _ end) => destruct x
        end;
      simpl in H; intuition discriminate.
Qed.

Lemma overdue_ratio_factor_witness :
  exists r,
    get_risk_assessment Sample.db_one_of_three_overdue Sample.now 11 1 = Ok r
    /\ RiskAssessment.overall_risk_score r = 20%Z.
Proof.
  destruct (overdue_ratio_factor Sample.db_one_of_three_overdue Sample.now
              11 1 Sample.gemini)
    as [r [Hr [Hfire _]]].
  - reflexivity.
  - exists r. split; [exact Hr|].
    destruct (Hfire (19767 * DAY)%Z) as [_ Hscore].
    + reflexivity.
    + vm_compute. reflexivity.
    + intros [H _]. vm_compute in H. apply H. reflexivity.
    + vm_compute. reflexivity.
    + rewrite Hscore. vm_compute. reflexivity.
Defined.

(** C5, as stated, fails: a project without deadline, a third of whose
    tasks are overdue, gets no overdue factor and no points. *)
Lemma overdue_ratio_counterexample :
  Project.deadline Sample.apollo = None
  /\ Qnat (List.length (DB.tasks_of Sample.db_one_of_three_overdue 10)) * (3#10)
     < Qnat (List.length (Spec.overdue_tasks Sample.now
                            (DB.tasks_of Sample.db_one_of_three_overdue 10)))
  /\ exists r,
       get_risk_assessment Sample.db_one_of_three_overdue Sample.now 10 1 = Ok r
       /\ RiskAssessment.risk_factors r = []
       /\ RiskAssessment.overall_risk_score r = 0%Z.
Proof.
  split; [reflexivity|]. split; [vm_compute; reflexivity|].
  eexists. split; [vm_compute; reflexivity|]. split; reflexivity.
Qed.

End Risk.

(** ** Recommendations *)

Section Recommendations.
Local Open Scope Q_scope.

(** The risk generator falls back on the "on track" message. *)
Lemma risk_recommendations_fallback (risk_factors : list RiskFactor.t)
    (project : Project.t) (tasks : list Task.t) :
  flat_map AnalyticsService.risk_advice risk_factors = [] ->
  AnalyticsService._generate_risk_recommendations risk_factors project tasks
  = [Advice.project_on_track].
Proof.
  intros H. unfold AnalyticsService._generate_risk_recommendations.
  rewrite H. reflexivity.
Qed.

(** So does the variance generator. *)
Lemma variance_recommendations_fallback
    (category_analysis : list (string * CategoryAnalysis.t))
    (variance_percentage : Q) :
  abs variance_percentage <= 20 -> variance_percentage <= 10 ->
  FinanceService._generate_variance_recommendations
    category_analysis [] variance_percentage
  = [Advice.variance_acceptable].
Proof.
  intros H20 H10. unfold FinanceService._generate_variance_recommendations.
  apply Qltb_ge in H20. apply Qltb_ge in H10. rewrite H20, H10.
  reflexivity.
Qed.

(** C9.  On an input on which no rule fires, the risk and the variance
    generators return their single "on track" message, but the
    performance and the forecast generators return the empty list: a
    stable trend with a predicted rate of 60 and high confidence, and a
    high-confidence forecast within budget with a flat trend. *)
Theorem recommendations_without_fallback :
  (forall project tasks,
      AnalyticsService._generate_risk_recommendations [] project tasks
      = [Advice.project_on_track])
  /\ FinanceService._generate_variance_recommendations [] [] 0
     = [Advice.variance_acceptable]
  /\ AnalyticsService._generate_performance_recommendations
       AnalyticsService.stable 60 AnalyticsService.high = []
  /\ FinanceService._generate_forecast_recommendations
       [ForecastPoint.mk (2024, 2)%Z 100 Impact.high] None 0 = [].
Proof.
  repeat split; reflexivity.
Qed.

End Recommendations.

(** ** Budgets and expenses *)

Section Ledger.
Local Open Scope Q_scope.
Import FinanceService.

(** C6.  The overrun percentage is computed without a guard.  A budget
    created without an allocated amount has 0 allocated; the first
    expense added to its project exceeds it, and the notification
    divides the overrun by 0: [add_expense] raises
    [ZeroDivisionError]. *)
Theorem budget_overrun_divides_by_zero :
  create_budget Sample.db_no_budget 1 10 None None
  = Ok (Sample.db_zero_budget, Sample.zero_budget)
  /\ add_expense Sample.db_zero_budget Sample.now 1 10 Sample.ten
     = Raise ZeroDivisionError.
Proof.
  split; reflexivity.
Qed.

(** The same for every budget with nothing allocated. *)
Lemma overrun_notification_raises (db : DB.t) (project : Project.t)
    (budget : Budget.t) (user_id : Z) :
  Budget.allocated_amount budget == 0 ->
  _create_budget_overrun_notification db project budget user_id
  = Raise ZeroDivisionError.
Proof.
  intros H. unfold _create_budget_overrun_notification.
  now rewrite truediv_zero.
Qed.

(** *** Rows *)

Lemma find_update_first_same {A} (p : A -> bool) (f : A -> A) (l : list A) :
  (forall x, p x = true -> p (f x) = true) ->
  find p (update_first p f l) = option_map f (find p l).
Proof.
  intros Hf. induction l as [|x l IH]; simpl; [reflexivity|].
  destruct (p x) eqn:E; simpl.
  - now rewrite (Hf x E).
  - now rewrite E.
Qed.

Lemma find_update_first_other {A} (p q : A -> bool) (f : A -> A)
    (l : list A) :
  (forall x, p x = true -> q x = false /\ q (f x) = false) ->
  find q (update_first p f l) = find q l.
Proof.
  intros Hf. induction l as [|x l IH]; simpl; [reflexivity|].
  destruct (p x) eqn:E; simpl.
  - destruct (Hf x E) as [H1 H2]. now rewrite H1, H2.
  - now rewrite IH.
Qed.

Lemma budget_of_set_budget_same (db : DB.t) (project_id : Z)
    (f : Budget.t -> Budget.t) :
  (forall b, Budget.project_id (f b) = Budget.project_id b) ->
  DB.budget_of (set_budget db project_id f) project_id
  = option_map f (DB.budget_of db project_id).
Proof.
  intros Hf. unfold DB.budget_of, set_budget. simpl.
  apply find_update_first_same. intros x Hx. now rewrite Hf.
Qed.

Lemma budget_of_set_budget_other (db : DB.t) (project_id q : Z)
    (f : Budget.t -> Budget.t) :
  (forall b, Budget.project_id (f b) = Budget.project_id b) ->
  q <> project_id ->
  DB.budget_of (set_budget db project_id f) q = DB.budget_of db q.
Proof.
  intros Hf Hq. unfold DB.budget_of, set_budget. simpl.
  apply find_update_first_other. intros x Hx.
  rewrite Hf. apply Z.eqb_eq in Hx.
  assert ((Budget.project_id x =? q)%Z = false) by (apply Z.eqb_neq; lia).
  auto.
Qed.

(** *** The three mutations *)

Lemma add_expense_spent (db : DB.t) (now : datetime) (user_id project_id : Z)
    (data : ExpenseData.t) (db' : DB.t) (e : Expense.t) :
  add_expense db now user_id project_id data = Ok (db', e) ->
  Expense.project_id e = project_id
  /\ DB.expenses db' = DB.expenses db ++ [e]
  /\ (forall b, DB.budget_of db project_id = Some b ->
                exists b', DB.budget_of db' project_id = Some b'
                           /\ Budget.spent_amount b'
                              = Budget.spent_amount b + Expense.amount e).
Proof.
  unfold add_expense.
  destruct (require_member db project_id user_id) as [project|];
    cbn [bind]; [|discriminate].
  set (expense := Expense.mk _ _ _ _ _ _ _ _).
  set (db1 := set_expenses db (DB.expenses db ++ [expense])).
  assert (Hb1 : forall q, DB.budget_of db1 q = DB.budget_of db q)
    by reflexivity.
  destruct (DB.budget_of db1 project_id) as [b|] eqn:Eb.
  - set (budget := Budget.with_spent_amount b _).
    set (db2 := set_budget db1 project_id (fun _ => budget)).
    assert (Hpid : Budget.project_id b = project_id).
    { pose proof Eb as Eb'. unfold DB.budget_of in Eb'.
      apply find_some in Eb' as [_ Eb']. now apply Z.eqb_eq in Eb'. }
    assert (Hb2 : DB.budget_of db2 project_id = Some budget).
    { unfold DB.budget_of, db2, set_budget. simpl.
      rewrite find_update_first_same.
      - pose proof Eb as Eb'. unfold DB.budget_of in Eb'. simpl in Eb'.
        now rewrite Eb'.
      - intros x _. simpl. rewrite Hpid. apply Z.eqb_refl. }
    assert (Hcore :
              DB.expenses db2 = DB.expenses db ++ [expense]
              /\ (forall b0, DB.budget_of db project_id = Some b0 ->
                     exists b', DB.budget_of db2 project_id = Some b'
                                /\ Budget.spent_amount b'
                                   = Budget.spent_amount b0
                                     + Expense.amount expense)).
    { split; [reflexivity|].
      intros b0 Hb0. rewrite Hb1 in Eb. rewrite Eb in Hb0.
      injection Hb0 as <-. exists budget. split; [exact Hb2|]. reflexivity. }
    destruct (Qltb (Budget.allocated_amount budget) (Budget.spent_amount budget)).
    + unfold _create_budget_overrun_notification.
      destruct (truediv _ _); cbn [bind]; [|discriminate].
      intros H. injection H as <- <-.
      split; [reflexivity|]. exact Hcore.
    + cbn [bind]. intros H. injection H as <- <-.
      split; [reflexivity|]. exact Hcore.
  - cbn [bind]. intros H. injection H as <- <-.
    split; [reflexivity|]. split; [reflexivity|].
    intros b0 Hb0. rewrite Hb1 in Eb. congruence.
Qed.

Lemma get_expense_find (db : DB.t) (expense_id : Z) (e : Expense.t) :
  DB.get_expense_or_404 db expense_id = Ok e ->
  find (fun x => (Expense.id x =? expense_id)%Z) (DB.expenses db) = Some e.
Proof.
  unfold DB.get_expense_or_404.
  destruct (find _ _); [intros H; now injection H as -> | discriminate].
Qed.

Lemma update_expense_spent (db : DB.t) (user_id expense_id : Z)
    (data : ExpenseData.t) (db' : DB.t) (e e' : Expense.t) :
  update_expense db user_id expense_id data = Ok (db', e') ->
  DB.get_expense_or_404 db expense_id = Ok e ->
  Expense.project_id e' = Expense.project_id e
  /\ (forall b, DB.budget_of db (Expense.project_id e) = Some b ->
                exists b', DB.budget_of db' (Expense.project_id e) = Some b'
                           /\ Budget.spent_amount b'
                              = Budget.spent_amount b
                                + (Expense.amount e' - Expense.amount e)).
Proof.
  intros Hupd Hget.
  unfold update_expense in Hupd. rewrite Hget in Hupd. cbn [bind] in Hupd.
  destruct (project_of_expense db e) as [project|]; cbn [bind] in Hupd;
    [|discriminate].
  destruct (negb (any_member project user_id)); [discriminate|].
  set (expense := Expense.mk _ _ _ _ _ _ _ _) in Hupd.
  set (pid := Expense.project_id e) in *.
  change (Expense.project_id expense) with pid in Hupd.
  set (db1 := set_expenses db _) in Hupd.
  set (f := fun b : Budget.t =>
              Budget.with_spent_amount b
                (Budget.spent_amount b
                 + (Expense.amount expense - Expense.amount e))) in Hupd.
  assert (Hf : forall b, Budget.project_id (f b) = Budget.project_id b)
    by reflexivity.
  assert (Hb1 : forall q, DB.budget_of db1 q = DB.budget_of db q)
    by reflexivity.
  rewrite Hb1 in Hupd.
  destruct (DB.budget_of db pid) as [b|] eqn:Eb.
  - injection Hupd as <- <-. split; [reflexivity|].
    intros b0 Hb0. injection Hb0 as <-.
    rewrite budget_of_set_budget_same by exact Hf.
    rewrite Hb1, Eb. simpl. eexists. split; [reflexivity|]. reflexivity.
  - injection Hupd as <- <-. split; [reflexivity|].
    intros b0 Hb0. discriminate.
Qed.

Lemma delete_expense_spent (db : DB.t) (user_id expense_id : Z)
    (db' : DB.t) (r : bool) (e : Expense.t) :
  delete_expense db user_id expense_id = Ok (db', r) ->
  DB.get_expense_or_404 db expense_id = Ok e ->
  forall b, DB.budget_of db (Expense.project_id e) = Some b ->
            exists b', DB.budget_of db' (Expense.project_id e) = Some b'
                       /\ Budget.spent_amount b'
                          = Budget.spent_amount b - Expense.amount e.
Proof.
  intros Hdel Hget.
  unfold delete_expense in Hdel. rewrite Hget in Hdel. cbn [bind] in Hdel.
  destruct (project_of_expense db e) as [project|]; cbn [bind] in Hdel;
    [|discriminate].
  destruct (negb (any_member project user_id)); [discriminate|].
  set (pid := Expense.project_id e) in *.
  set (f := fun b : Budget.t =>
              Budget.with_spent_amount b
                (Budget.spent_amount b - Expense.amount e)) in Hdel.
  assert (Hf : forall b, Budget.project_id (f b) = Budget.project_id b)
    by reflexivity.
  destruct (DB.budget_of db pid) as [b|] eqn:Eb.
  - injection Hdel as <- <-.
    intros b0 Hb0. injection Hb0 as <-.
    change (DB.budget_of (set_expenses (set_budget db pid f) _) pid)
      with (DB.budget_of (set_budget db pid f) pid).
    rewrite budget_of_set_budget_same by exact Hf.
    rewrite Eb. simpl. eexists. split; [reflexivity|]. reflexivity.
  - injection Hdel as <- <-.
    intros b0 Hb0. discriminate.
Qed.

Lemma update_expense_row (db : DB.t) (user_id expense_id : Z)
    (data : ExpenseData.t) (db' : DB.t) (e e' : Expense.t) :
  update_expense db user_id expense_id data = Ok (db', e') ->
  DB.get_expense_or_404 db expense_id = Ok e ->
  Expense.id e' = Expense.id e
  /\ Expense.amount e'
     = match ExpenseData.amount data with
       | Some v => v | None => Expense.amount e end
  /\ DB.expenses db'
     = update_first (fun x => (Expense.id x =? expense_id)%Z)
                    (fun _ => e') (DB.expenses db).
Proof.
  intros Hupd Hget.
  unfold update_expense in Hupd. rewrite Hget in Hupd. cbn [bind] in Hupd.
  destruct (project_of_expense db e) as [project|]; cbn [bind] in Hupd;
    [|discriminate].
  destruct (negb (any_member project user_id)); [discriminate|].
  injection Hupd as <- <-.
  split; [reflexivity|]. split; [reflexivity|].
  destruct (DB.budget_of _ _); reflexivity.
Qed.

Lemma delete_expense_rows (db : DB.t) (user_id expense_id : Z)
    (db' : DB.t) (r : bool) :
  delete_expense db user_id expense_id = Ok (db', r) ->
  r = true
  /\ DB.expenses db'
     = remove_first (fun x => (Expense.id x =? expense_id)%Z)
                    (DB.expenses db).
Proof.
  unfold delete_expense.
  destruct (DB.get_expense_or_404 db expense_id) as [e|]; cbn [bind];
    [|discriminate].
  destruct (project_of_expense db e) as [project|]; cbn [bind];
    [|discriminate].
  destruct (negb (any_member project user_id)); [discriminate|].
  intros H. injection H as <- <-.
  split; [reflexivity|].
  destruct (DB.budget_of _ _); reflexivity.
Qed.

(** C10, as amended.  Every expense mutation that commits changes the
    budget's running total by one operation on the amount concerned:
    [add_expense] appends the expense and sets [spent_amount] to
    [spent_amount + amount]; [update_expense] replaces the expense,
    whose amount is the requested one, and sets [spent_amount] to
    [spent_amount + (new - old)]; [delete_expense] removes the expense
    and sets [spent_amount] to [spent_amount - amount]. *)
Theorem expense_mutations_adjust_spent_amount :
  (forall db now user_id project_id data db' e,
      add_expense db now user_id project_id data = Ok (db', e) ->
      Expense.project_id e = project_id
      /\ DB.expenses db' = DB.expenses db ++ [e]
      /\ (forall b, DB.budget_of db project_id = Some b ->
                    exists b', DB.budget_of db' project_id = Some b'
                               /\ Budget.spent_amount b'
                                  = Budget.spent_amount b + Expense.amount e))
  /\ (forall db user_id expense_id data db' e e',
        update_expense db user_id expense_id data = Ok (db', e') ->
        DB.get_expense_or_404 db expense_id = Ok e ->
        Expense.project_id e' = Expense.project_id e
        /\ Expense.id e' = Expense.id e
        /\ Expense.amount e'
           = match ExpenseData.amount data with
             | Some v => v | None => Expense.amount e end
        /\ DB.expenses db'
           = update_first (fun x => (Expense.id x =? expense_id)%Z)
                          (fun _ => e') (DB.expenses db)
        /\ (forall b, DB.budget_of db (Expense.project_id e) = Some b ->
                      exists b',
                        DB.budget_of db' (Expense.project_id e) = Some b'
                        /\ Budget.spent_amount b'
                           = Budget.spent_amount b
                             + (Expense.amount e' - Expense.amount e)))
  /\ (forall db user_id expense_id db' r e,
        delete_expense db user_id expense_id = Ok (db', r) ->
        DB.get_expense_or_404 db expense_id = Ok e ->
        r = true
        /\ DB.expenses db'
           = remove_first (fun x => (Expense.id x =? expense_id)%Z)
                          (DB.expenses db)
        /\ (forall b, DB.budget_of db (Expense.project_id e) = Some b ->
                      exists b',
                        DB.budget_of db' (Expense.project_id e) = Some b'
                        /\ Budget.spent_amount b'
                           = Budget.spent_amount b - Expense.amount e)).
Proof.
  split; [|split].
  - intros db now user_id project_id data db' e H.
    destruct (add_expense_spent db now user_id project_id data db' e H)
      as [H1 [H2 H3]].
    auto.
  - intros db user_id expense_id data db' e e' H Hget.
    destruct (update_expense_spent db user_id expense_id data db' e e' H Hget)
      as [H1 H2].
    destruct (update_expense_row db user_id expense_id data db' e e' H Hget)
      as [H3 [H4 H5]].
    auto.
  - intros db user_id expense_id db' r e H Hget.
    pose proof (delete_expense_spent db user_id expense_id db' r e H Hget)
      as H1.
    destruct (delete_expense_rows db user_id expense_id db' r H) as [H2 H3].
    auto.
Qed.

(** On a budget of which 60 are spent in three expenses: a fourth
    expense of 10 brings the total to 70, its update to 25 brings it to
    85, its deletion back to 60. *)
Lemma expense_mutations_adjust_spent_amount_witness :
  exists db1 e1 db2 e2 db3 b1 b2 b3,
    add_expense Sample.db_three_expenses Sample.now 1 10 Sample.ten
    = Ok (db1, e1)
    /\ update_expense db1 1 4
         (ExpenseData.mk None (Some (25#1)) None None) = Ok (db2, e2)
    /\ delete_expense db2 1 4 = Ok (db3, true)
    /\ Expense.amount e2 = 25
    /\ DB.budget_of db1 10 = Some b1 /\ Budget.spent_amount b1 == 70
    /\ DB.budget_of db2 10 = Some b2 /\ Budget.spent_amount b2 == 85
    /\ DB.budget_of db3 10 = Some b3 /\ Budget.spent_amount b3 == 60
    /\ DB.expenses db3 = DB.expenses Sample.db_three_expenses.
Proof.
  destruct expense_mutations_adjust_spent_amount as [Hadd [Hupd Hdel]].
  destruct (add_expense Sample.db_three_expenses Sample.now 1 10 Sample.ten)
    as [[db1 e1]|] eqn:E1; [|vm_compute in E1; discriminate].
  destruct (Hadd _ _ _ _ _ _ _ E1) as [_ [_ Hb1]].
  destruct (Hb1 _ eq_refl) as [b1 [Eb1 Hs1]].
  vm_compute in E1. injection E1 as <- <-.
  lazymatch type of Eb1 with
  | DB.budget_of ?d _ = _ =>
      destruct (update_expense d 1 4
                  (ExpenseData.mk None (Some (25#1)) None None))
        as [[db2 e2]|] eqn:E2; [|vm_compute in E2; discriminate]
  end.
  destruct (Hupd _ _ _ _ _ _ _ E2 eq_refl) as [_ [_ [Ha2 [_ Hb2]]]].
  destruct (Hb2 _ Eb1) as [b2 [Eb2 Hs2]].
  vm_compute in E2. injection E2 as <- <-.
  lazymatch type of Eb2 with
  | DB.budget_of ?d _ = _ =>
      destruct (delete_expense d 1 4) as [[db3 r]|] eqn:E3;
        [|vm_compute in E3; discriminate]
  end.
  destruct (Hdel _ _ _ _ _ _ E3 eq_refl) as [-> [_ Hb3]].
  destruct (Hb3 _ Eb2) as [b3 [Eb3 Hs3]].
  vm_compute in E3. injection E3 as <-.
  do 8 eexists.
  split; [reflexivity|]. split; [reflexivity|]. split; [reflexivity|].
  split; [reflexivity|].
  split; [exact Eb1|]. split; [rewrite Hs1; reflexivity|].
  split; [exact Eb2|].
  split; [rewrite Hs2, Hs1; reflexivity|].
  split; [exact Eb3|].
  split; [rewrite Hs3, Hs2, Hs1; reflexivity|].
  reflexivity.
Defined.

(** C10, as stated, fails on the numbers the code computes with.  On a
    new budget, two expenses of 0.1 and 0.2 leave the running total
    equal to the sum of the expenses; deleting the first of them leaves
    a running total of 0.20000000000000004 against expenses that sum to
    0.2. *)
Lemma spent_amount_drifts :
  Ledger64.consistent Ledger64.fresh = true
  /\ Ledger64.consistent Ledger64.two_expenses = true
  /\ Ledger64.consistent Ledger64.one_deleted = false
  /\ PrimFloat.eqb (Ledger64.spent_amount Ledger64.one_deleted)
                   Ledger64.drifted_total = true
  /\ PrimFloat.eqb (Ledger64.expenses_total Ledger64.one_deleted)
                   Ledger64.exact_total = true.
Proof. repeat split; vm_compute; reflexivity. Qed.

End Ledger.

(** ** Access errors *)

Section Access.
Local Open Scope Q_scope.

(** The productivity metrics involve no membership check and no
    unguarded division: the call always returns. *)
Lemma get_productivity_metrics_returns (db : DB.t) (now : datetime)
    (user_id : Z) (project_id : option Z) :
  exists m,
    AnalyticsService.get_productivity_metrics db now user_id project_id
    = Ok m.
Proof.
  unfold AnalyticsService.get_productivity_metrics.
  match goal with
  | |- context [List.length ?l] =>
      match l with
      | match project_id with _ => _ end => generalize l; intros tasks
      end
  end.
  destruct (0 <? List.length tasks)%nat eqn:E.
  - apply Nat.ltb_lt in E. rewrite truediv_pos by now apply Qnat_pos.
    cbn [bind].
    match goal with
    | |- context [match ?l with [] => Ok 0 | _ :: _ => _ end] =>
        destruct l as [|d ds] eqn:El
    end.
    + cbn [bind]. eauto.
    + rewrite truediv_pos by (apply Qnat_pos; simpl; lia).
      cbn [bind]. eauto.
  - cbn [bind].
    match goal with
    | |- context [match ?l with [] => Ok 0 | _ :: _ => _ end] =>
        destruct l as [|d ds] eqn:El
    end.
    + cbn [bind]. eauto.
    + rewrite truediv_pos by (apply Qnat_pos; simpl; lia).
      cbn [bind]. eauto.
Qed.

(** The two errors of the membership checks. *)
Lemma require_member_error (db : DB.t) (project_id user_id : Z) (e : exn) :
  require_member db project_id user_id = Raise e ->
  e = NotFound \/ e = PermissionError "User is not a member of this project".
Proof.
  unfold require_member, DB.get_project_or_404.
  destruct (find _ _) as [p|]; cbn [bind].
  - destruct (negb (any_member p user_id)); [|discriminate].
    intros H. injection H as <-. now right.
  - intros H. injection H as <-. now left.
Qed.

Lemma require_member_or_owner_error (db : DB.t) (project_id user_id : Z)
    (e : exn) :
  require_member_or_owner db project_id user_id = Raise e ->
  e = NotFound \/ e = PermissionError "User is not a member of this project".
Proof.
  unfold require_member_or_owner, DB.get_project_or_404.
  destruct (find _ _) as [p|]; cbn [bind].
  - destruct (negb _); [|discriminate].
    intros H. injection H as <-. now right.
  - intros H. injection H as <-. now left.
Qed.

(** C1, as amended.  When the membership check of a call fails, for a
    missing project or a user without access, [get_resource_utilization],
    [get_project_health], [get_project_stats] and [get_risk_assessment]
    raise that error unchanged.  [get_budget_variance_analysis],
    [get_expense_forecasting] and [get_cost_optimization_analysis]
    catch it, like every exception, and return their error payload,
    which carries the error in its message. *)
Theorem access_errors (db : DB.t) (now : datetime)
    (project_id user_id : Z) (forecast_months : Z) (e : exn) :
  (require_member db project_id user_id = Raise e ->
   (e = NotFound
    \/ e = PermissionError "User is not a member of this project")
   /\ AnalyticsService.get_resource_utilization db now project_id user_id
      = Raise e
   /\ AnalyticsService.get_project_health db now project_id user_id
      = Raise e
   /\ AnalyticsService.get_project_stats db now user_id project_id
      = Raise e)
  /\ (require_member_or_owner db project_id user_id = Raise e ->
      (e = NotFound
       \/ e = PermissionError "User is not a member of this project")
      /\ AnalyticsService.get_risk_assessment db now project_id user_id
         = Raise e
      /\ FinanceService.get_budget_variance_analysis db now user_id project_id
         = Ok (FinanceService.variance_error_payload e)
      /\ FinanceService.get_expense_forecasting
           db now user_id project_id forecast_months
         = Ok (FinanceService.forecast_error_payload e forecast_months)
      /\ FinanceService.get_cost_optimization_analysis db user_id project_id
         = Ok (FinanceService.cost_error_payload e)).
Proof.
  split; intros H.
  - split; [now apply (require_member_error db project_id user_id)|].
    assert (Hr : AnalyticsService.get_resource_utilization
                   db now project_id user_id = Raise e).
    { unfold AnalyticsService.get_resource_utilization. now rewrite H. }
    split; [exact Hr|]. split.
    + unfold AnalyticsService.get_project_health. now rewrite H.
    + unfold AnalyticsService.get_project_stats.
      destruct (get_productivity_metrics_returns db now user_id
                  (Some project_id)) as [m Hm].
      rewrite Hm. cbn [bind]. now rewrite Hr.
  - split; [now apply (require_member_or_owner_error db project_id user_id)|].
    split; [|split; [|split]].
    + unfold AnalyticsService.get_risk_assessment. now rewrite H.
    + unfold FinanceService.get_budget_variance_analysis,
        FinanceService.variance_analysis_body. now rewrite H.
    + unfold FinanceService.get_expense_forecasting,
        FinanceService.expense_forecasting_body. now rewrite H.
    + unfold FinanceService.get_cost_optimization_analysis,
        FinanceService.cost_optimization_body. now rewrite H.
Qed.

(** Bob asks about Alice's project, and about a project that does not
    exist. *)
Lemma access_errors_witness :
  AnalyticsService.get_project_health Sample.db_three_expenses Sample.now 10 2
  = Raise (PermissionError "User is not a member of this project")
  /\ AnalyticsService.get_risk_assessment Sample.db_three_expenses Sample.now 99 2
     = Raise NotFound
  /\ FinanceService.get_expense_forecasting
       Sample.db_three_expenses Sample.now 2 99 3
     = Ok (FinanceService.forecast_error_payload NotFound 3).
Proof.
  split; [|split].
  - apply (access_errors Sample.db_three_expenses Sample.now 10 2 3
             (PermissionError "User is not a member of this project")).
    reflexivity.
  - apply (access_errors Sample.db_three_expenses Sample.now 99 2 3 NotFound).
    reflexivity.
  - apply (access_errors Sample.db_three_expenses Sample.now 99 2 3 NotFound).
    reflexivity.
Defined.

(** C1, as stated, fails: Bob, who is no member of Alice's project, gets
    an ordinary payload from each of the three finance analyses, with
    status [error], [forecast_available = False], [has_expenses = False];
    nothing is raised. *)
Lemma access_errors_counterexample :
  require_member_or_owner Sample.db_three_expenses 10 2
  = Raise (PermissionError "User is not a member of this project")
  /\ (exists p,
        FinanceService.get_budget_variance_analysis
          Sample.db_three_expenses Sample.now 2 10 = Ok p
        /\ VarianceAnalysis.status p = VarianceAnalysis.error
        /\ VarianceAnalysis.has_budget p = false)
  /\ (exists p,
        FinanceService.get_expense_forecasting
          Sample.db_three_expenses Sample.now 2 10 3 = Ok p
        /\ ExpenseForecast.forecast_available p = false
        /\ ExpenseForecast.data_points p = Some 0%nat)
  /\ (exists p,
        FinanceService.get_cost_optimization_analysis
          Sample.db_three_expenses 2 10 = Ok p
        /\ CostOptimization.has_expenses p = false).
Proof.
  split; [reflexivity|].
  split; [|split]; eexists; (split; [reflexivity|]); repeat split.
Qed.

End Access.

(** ** Expense forecasting *)

Section Forecast.
Local Open Scope Q_scope.
Import FinanceService.

(** The regression guards its division. *)
Lemma linear_trend_returns (y : list Q) : exists slope, linear_trend y = Ok slope.
Proof.
  unfold linear_trend.
  match goal with
  | |- context [Qeq_bool ?d 0] => destruct (Qeq_bool d 0) eqn:E
  end; simpl.
  - eauto.
  - unfold truediv. rewrite E. eauto.
Qed.

(** What the forecast of a caller with access looks like. *)
Lemma get_expense_forecasting_run (db : DB.t) (now : datetime)
    (user_id project_id : Z) (forecast_months : Z) (project : Project.t) :
  require_member_or_owner db project_id user_id = Ok project ->
  let expenses := DB.expenses_of db project_id in
  ((List.length expenses < 3)%nat ->
   get_expense_forecasting db now user_id project_id forecast_months
   = Ok (insufficient_payload (List.length expenses) forecast_months))
  /\ ((3 <= List.length expenses)%nat ->
      exists p,
        get_expense_forecasting db now user_id project_id forecast_months
        = Ok p
        /\ ExpenseForecast.forecast_available p = true
        /\ ExpenseForecast.message p = None
        /\ ExpenseForecast.data_points p = None
        /\ List.length (ExpenseForecast.forecast_data p)
           = Z.to_nat forecast_months
        /\ option_map HistoricalData.months_analyzed
             (ExpenseForecast.historical_data p)
           = Some (List.length (monthly_totals expenses))).
Proof.
  intros Hreq expenses.
  unfold get_expense_forecasting, expense_forecasting_body.
  rewrite Hreq. cbn [bind]. fold expenses.
  split; intros Hlen.
  - apply Nat.ltb_lt in Hlen. rewrite Hlen. reflexivity.
  - apply Nat.ltb_ge in Hlen. rewrite Hlen.
    set (hist := map snd (monthly_totals expenses)).
    assert (Ht : exists trend,
               (if (List.length hist <? 2)%nat
                then Ok (match hist with a :: _ => a | [] => 0 end, 0)
                else
                  trend_slope <- linear_trend hist ;;
                  Ok (match np_mean hist with Some m => m | None => 0 end,
                      trend_slope)) = Ok trend).
    { destruct (List.length hist <? 2)%nat; [eauto|].
      destruct (linear_trend_returns hist) as [s Hs]. rewrite Hs.
      cbn [bind]. eauto. }
    destruct Ht as [[avg_monthly trend_slope] Ht]. rewrite Ht. cbn [bind].
    set (forecast_data := map _ (range (Z.to_nat forecast_months))).
    set (total_forecast := sum (map ForecastPoint.predicted_amount forecast_data)).
    set (current_spent := sum (map Expense.amount expenses)).
    assert (Hb : exists budget_impact,
               match DB.budget_of db project_id with
               | Some budget =>
                   utilization <-
                     (if Qltb 0 (Budget.allocated_amount budget)
                      then q <- truediv (current_spent + total_forecast)
                                        (Budget.allocated_amount budget) ;;
                           Ok (q * 100)
                      else Ok 0) ;;
                   Ok (Some (BudgetImpact.mk
                               (Budget.allocated_amount budget - current_spent)
                               (total_forecast
                                - (Budget.allocated_amount budget - current_spent))
                               (Qltb (Budget.allocated_amount budget - current_spent)
                                     total_forecast)
                               (current_spent + total_forecast)
                               utilization))
               | None => Ok None
               end = Ok budget_impact).
    { destruct (DB.budget_of db project_id) as [budget|]; [|eauto].
      destruct (Qltb 0 (Budget.allocated_amount budget)) eqn:E.
      - apply Qltb_lt in E. rewrite truediv_pos by assumption.
        cbn [bind]. eauto.
      - cbn [bind]. eauto. }
    destruct Hb as [budget_impact Hb]. rewrite Hb. cbn [bind].
    eexists. split; [reflexivity|].
    cbn [ExpenseForecast.forecast_available ExpenseForecast.message
         ExpenseForecast.data_points ExpenseForecast.forecast_data
         ExpenseForecast.historical_data option_map
         HistoricalData.months_analyzed].
    repeat split.
    + unfold forecast_data, range. now rewrite length_map, length_seq.
    + unfold hist. now rewrite length_map.
Qed.




End Forecast.

(** ** Time buckets *)

Section Buckets.
Local Open Scope Z_scope.

Lemma closed_interval (lo hi t : Z) :
  (lo <=? t) && (t <=? hi) = true <-> lo <= t <= hi.
Proof.
  rewrite andb_true_iff, !Z.leb_le. tauto.
Qed.

(** C3, as amended.  In the weekly buckets of completed tasks, in the
    monthly expense buckets of the resource utilization and in the
    monthly buckets of the variance analysis, a record is counted in a
    bucket iff its timestamp lies in the closed interval
    [[bucket_start, bucket_end]].  The end of a bucket is the start of
    the next one in time, so a record whose timestamp is that shared
    instant is counted in both. *)
Theorem buckets_are_closed_intervals (now : datetime) (i : nat) :
  (forall t,
      AnalyticsService.completed_in_week now i t = true
      <-> is_completed t = true
          /\ exists upd,
               Task.last_progress_update t = Some upd
               /\ AnalyticsService.week_start now i <= upd
                  <= AnalyticsService.week_end now i)
  /\ (forall e,
        AnalyticsService.incurred_in_month now i e = true
        <-> AnalyticsService.month_start now i <= Expense.incurred_at e
            <= AnalyticsService.month_end now i)
  /\ (forall e,
        FinanceService.incurred_in_month now i e = true
        <-> FinanceService.month_start now i <= Expense.incurred_at e
            <= FinanceService.month_end now i)
  /\ AnalyticsService.week_end now (S i) = AnalyticsService.week_start now i
  /\ AnalyticsService.month_end now (S i) = AnalyticsService.month_start now i
  /\ FinanceService.month_end now (S i) = FinanceService.month_start now i
  /\ (forall tasks t,
        In t tasks -> is_completed t = true ->
        Task.last_progress_update t = Some (AnalyticsService.week_start now i) ->
        In t (filter (AnalyticsService.completed_in_week now i) tasks)
        /\ In t (filter (AnalyticsService.completed_in_week now (S i)) tasks))
  /\ (forall expenses e,
        In e expenses ->
        Expense.incurred_at e = AnalyticsService.month_start now i ->
        In e (filter (AnalyticsService.incurred_in_month now i) expenses)
        /\ In e (filter (AnalyticsService.incurred_in_month now (S i)) expenses))
  /\ (forall expenses e,
        In e expenses ->
        Expense.incurred_at e = FinanceService.month_start now i ->
        In e (FinanceService.month_expenses now expenses i)
        /\ In e (FinanceService.month_expenses now expenses (S i))).
Proof.
  assert (Hw : AnalyticsService.week_end now (S i)
               = AnalyticsService.week_start now i).
  { unfold AnalyticsService.week_end, AnalyticsService.week_start, weeks.
    f_equal. lia. }
  assert (Hm : AnalyticsService.month_end now (S i)
               = AnalyticsService.month_start now i).
  { unfold AnalyticsService.month_end, AnalyticsService.month_start, days.
    lia. }
  assert (Hf : FinanceService.month_end now (S i)
               = FinanceService.month_start now i).
  { unfold FinanceService.month_end, FinanceService.month_start, days.
    lia. }
  assert (Hws : forall j, AnalyticsService.week_start now j
                          <= AnalyticsService.week_end now j).
  { intros j. unfold AnalyticsService.week_end, AnalyticsService.week_start,
      weeks, DAY, SECOND. lia. }
  assert (Hms : forall j, AnalyticsService.month_start now j
                          <= AnalyticsService.month_end now j).
  { intros j. unfold AnalyticsService.month_end, days, DAY, SECOND. lia. }
  assert (Hfs : forall j, FinanceService.month_start now j
                          <= FinanceService.month_end now j).
  { intros j. unfold FinanceService.month_end, days, DAY, SECOND. lia. }
  assert (Cw : forall j t,
             AnalyticsService.completed_in_week now j t = true
             <-> is_completed t = true
                 /\ exists upd,
                      Task.last_progress_update t = Some upd
                      /\ AnalyticsService.week_start now j <= upd
                         <= AnalyticsService.week_end now j).
  { intros j t. unfold AnalyticsService.completed_in_week.
    rewrite andb_true_iff.
    destruct (Task.last_progress_update t) as [upd|].
    - rewrite closed_interval. split.
      + intros [Hc Hu]. split; [exact Hc|]. now exists upd.
      + intros [Hc [u [Eu Hu]]]. injection Eu as ->. now split.
    - split; [intros [_ H]; discriminate|].
      intros [_ [u [Eu _]]]. discriminate. }
  assert (Cm : forall j e,
             AnalyticsService.incurred_in_month now j e = true
             <-> AnalyticsService.month_start now j <= Expense.incurred_at e
                 <= AnalyticsService.month_end now j).
  { intros j e. apply closed_interval. }
  assert (Cf : forall j e,
             FinanceService.incurred_in_month now j e = true
             <-> FinanceService.month_start now j <= Expense.incurred_at e
                 <= FinanceService.month_end now j).
  { intros j e. apply closed_interval. }
  split; [apply Cw|]. split; [apply Cm|]. split; [apply Cf|].
  split; [exact Hw|]. split; [exact Hm|]. split; [exact Hf|].
  split; [|split].
  - intros tasks t Hin Hc Hu. rewrite !filter_In, !Cw. split.
    + split; [exact Hin|]. split; [exact Hc|].
      eexists. split; [exact Hu|]. pose proof (Hws i). lia.
    + split; [exact Hin|]. split; [exact Hc|].
      eexists. split; [exact Hu|]. pose proof (Hws (S i)). lia.
  - intros expenses e Hin He. rewrite !filter_In, !Cm, He. split.
    + split; [exact Hin|]. pose proof (Hms i). lia.
    + split; [exact Hin|]. pose proof (Hms (S i)). lia.
  - intros expenses e Hin He. unfold FinanceService.month_expenses.
    rewrite !filter_In, !Cf, He. split.
    + split; [exact Hin|]. pose proof (Hfs i). lia.
    + split; [exact Hin|]. pose proof (Hfs (S i)). lia.
Qed.

(** The expense of 2024-01-01T00:00:00 is in the bucket that starts
    there and in the one that ends there. *)
Lemma buckets_are_closed_intervals_witness :
  let e := Sample.expense 1 (50#1) (19723 * DAY) in
  Expense.incurred_at e = FinanceService.month_start Sample.now 0
  /\ In e (FinanceService.month_expenses Sample.now
             (DB.expenses_of Sample.db_on_the_boundary 10) 0)
  /\ In e (FinanceService.month_expenses Sample.now
             (DB.expenses_of Sample.db_on_the_boundary 10) 1).
Proof.
  intros e.
  assert (He : Expense.incurred_at e = FinanceService.month_start Sample.now 0)
    by reflexivity.
  split; [exact He|].
  destruct (buckets_are_closed_intervals Sample.now 0)
    as [_ [_ [_ [_ [_ [_ [_ [_ H]]]]]]]].
  apply H; [|exact He]. simpl. now left.
Defined.

(** C3, as stated, fails.  The only expense of the project, 50, is dated
    at the end of the second-to-last monthly bucket, outside the
    half-open interval, and is counted there, and again in the last
    bucket; the only task, completed a week ago to the microsecond, is
    counted in the last two weekly buckets. *)
Lemma buckets_counterexample :
  let e := Sample.expense 1 (50#1) (19723 * DAY) in
  DB.expenses_of Sample.db_on_the_boundary 10 = [e]
  /\ FinanceService.incurred_in_month Sample.now 1 e = true
  /\ ~ (FinanceService.month_start Sample.now 1 <= Expense.incurred_at e
        < FinanceService.month_end Sample.now 1)
  /\ FinanceService.incurred_in_month Sample.now 0 e = true
  /\ (exists p,
        FinanceService.get_budget_variance_analysis
          Sample.db_on_the_boundary Sample.now 1 10 = Ok p
        /\ map MonthVariance.actual (VarianceAnalysis.monthly_variance p)
           = [0; 0; 0; 0; 50; 50]%Q)
  /\ (exists r,
        AnalyticsService.get_resource_utilization
          Sample.db_on_the_boundary Sample.now 10 1 = Ok r
        /\ map MonthAmount.amount (ResourceUtilization.monthly_expenses r)
           = [0; 0; 0; 0; 0; 0; 0; 0; 0; 0; 50; 50]%Q)
  /\ (exists m,
        AnalyticsService.get_productivity_metrics
          Sample.db_on_the_boundary Sample.now 1 None = Ok m
        /\ ProductivityMetrics.total_tasks m = 1%nat
        /\ map WeekEntry.completed
               (ProductivityMetrics.tasks_completed_per_week m)
           = [0; 0; 0; 0; 0; 0; 0; 0; 0; 0; 1; 1]%nat).
Proof.
  intros e.
  split; [reflexivity|]. split; [reflexivity|].
  split; [vm_compute; intros [_ H]; discriminate|].
  split; [reflexivity|].
  split; [|split]; eexists; (split; [vm_compute; reflexivity|]);
    repeat split.
Qed.

End Buckets.

(** * Further properties *)

(** ** Productivity metrics *)

Section Metrics.
Local Open Scope Q_scope.
Import AnalyticsService.

Lemma round_0_100 (x : Q) (n : nat) :
  0 <= x <= 100 -> 0 <= round x n <= 100.
Proof.
  intros [H0 H100]. split.
  - assert (E : round 0 n == 0).
    { unfold round. rewrite Qred_correct.
      replace (round_half_even (0 * inject_Z (10 ^ Z.of_nat n))) with 0%Z.
      - change (inject_Z 0) with 0. unfold Qdiv. ring.
      - symmetry. rewrite (round_half_even_comp _ 0) by lra. reflexivity. }
    rewrite <- E. now apply round_le.
  - assert (E : round 100 n == 100).
    { unfold round. rewrite Qred_correct.
      assert (Hs : 100 * inject_Z (10 ^ Z.of_nat n)
                   == inject_Z (100 * 10 ^ Z.of_nat n)).
      { rewrite inject_Z_mult. reflexivity. }
      rewrite (round_half_even_comp _ _ Hs).
      assert (Hr : forall z, round_half_even (inject_Z z) = z).
      { intros z. unfold round_half_even. rewrite Qfloor_Z.
        assert (Hl : Qltb (inject_Z z - inject_Z z) (1 # 2) = true)
          by (apply Qltb_lt; lra).
        now rewrite Hl. }
      rewrite Hr, inject_Z_mult.
      pose proof (scale_pos n) as Hp. field.
      intros E. rewrite E in Hp. exact (Qlt_irrefl 0 Hp). }
    rewrite <- E. now apply round_le.
Qed.

Lemma status_partition (tasks : list Task.t) :
  (List.length (filter is_completed tasks)
   + List.length (filter (fun t => TaskStatus.eqb (Task.status t)
                                     TaskStatus.in_progress) tasks)
   + List.length (filter (fun t => TaskStatus.eqb (Task.status t)
                                     TaskStatus.pending) tasks)
   = List.length tasks)%nat.
Proof.
  induction tasks as [|t l IH]; simpl; [reflexivity|].
  unfold is_completed at 1. destruct (Task.status t); simpl; lia.
Qed.

(** The metrics of a user: the call always returns; every task is
    counted under exactly one of the three statuses; the completion
    rate lies between 0 and 100 and is 0 without tasks; there are
    twelve weekly buckets, none of which counts more than the completed
    tasks. *)
Theorem productivity_metrics_counts (db : DB.t) (now : datetime)
    (user_id : Z) (project_id : option Z) :
  exists m,
    get_productivity_metrics db now user_id project_id = Ok m
    /\ (ProductivityMetrics.completed_tasks m
        + ProductivityMetrics.in_progress_tasks m
        + ProductivityMetrics.pending_tasks m
        = ProductivityMetrics.total_tasks m)%nat
    /\ 0 <= ProductivityMetrics.completion_rate m <= 100
    /\ (ProductivityMetrics.total_tasks m = 0%nat ->
        ProductivityMetrics.completion_rate m == 0)
    /\ List.length (ProductivityMetrics.tasks_completed_per_week m) = 12%nat
    /\ Forall (fun w => (WeekEntry.completed w
                         <= ProductivityMetrics.completed_tasks m)%nat)
              (ProductivityMetrics.tasks_completed_per_week m).
Proof.
  unfold get_productivity_metrics.
  match goal with
  | |- context [List.length ?l] =>
      match l with
      | match project_id with _ => _ end => generalize l; intros tasks
      end
  end.
  assert (Hrate : exists rate,
             (if (0 <? List.length tasks)%nat
              then q <- truediv (Qnat (List.length (filter is_completed tasks)))
                                (Qnat (List.length tasks)) ;;
                   Ok (q * 100)
              else Ok 0) = Ok rate
             /\ 0 <= rate <= 100
             /\ (List.length tasks = 0%nat -> rate == 0)).
  { destruct (0 <? List.length tasks)%nat eqn:E.
    - apply Nat.ltb_lt in E. rewrite truediv_pos by now apply Qnat_pos.
      cbn [bind]. eexists. split; [reflexivity|]. split.
      + apply percentage_bounds; [apply filter_length_le | exact E].
      + intros E0. lia.
    - eexists. split; [reflexivity|]. split; [lra|]. intros _. reflexivity. }
  destruct Hrate as [rate [Hrate [Hb Hz]]]. rewrite Hrate. cbn [bind].
  match goal with
  | |- context [match ?l with [] => Ok 0 | _ :: _ => _ end] =>
      assert (Havg : exists avg,
                 match l with
                 | [] => Ok 0
                 | _ :: _ => truediv (inject_Z (sumZ l)) (Qnat (List.length l))
                 end = Ok avg)
  end.
  { match goal with
    | |- context [match ?l with [] => Ok 0 | _ :: _ => _ end] =>
        destruct l as [|d ds]
    end; [eauto|].
    rewrite truediv_pos by (apply Qnat_pos; simpl; lia). eauto. }
  destruct Havg as [avg Havg]. rewrite Havg. cbn [bind].
  eexists. split; [reflexivity|].
  cbn [ProductivityMetrics.completed_tasks ProductivityMetrics.in_progress_tasks
       ProductivityMetrics.pending_tasks ProductivityMetrics.total_tasks
       ProductivityMetrics.completion_rate
       ProductivityMetrics.tasks_completed_per_week].
  split; [apply status_partition|].
  split; [now apply round_0_100|].
  split.
  { intros E0. rewrite (round_comp rate 0 1) by auto. reflexivity. }
  split.
  { unfold week_data, range. now rewrite length_rev, length_map, length_seq. }
  unfold week_data. apply Forall_rev, Forall_map, Forall_forall.
  intros i _. cbn [WeekEntry.completed]. unfold week_completed.
  assert (Hsub : forall l,
             (List.length (filter (completed_in_week now i) l)
              <= List.length (filter is_completed l))%nat).
  { induction l as [|t l IH]; simpl; [lia|].
    unfold completed_in_week at 1.
    destruct (is_completed t); simpl; [|exact IH].
    destruct (match Task.last_progress_update t with
              | Some upd => _ | None => false end); simpl; lia. }
  apply Hsub.
Qed.

End Metrics.

(** ** Health status and bottlenecks *)

Section HealthMore.
Local Open Scope Q_scope.
Import AnalyticsService.

(** *** The sort *)

Lemma insert_desc_sorted {A} (key : A -> Q) (x : A) (l : list A) :
  StronglySorted (fun a b => key b <= key a) l ->
  StronglySorted (fun a b => key b <= key a) (insert_desc key x l).
Proof.
  induction 1 as [|y l Hl IH Hy]; simpl.
  - constructor; constructor.
  - destruct (Qltb (key x) (key y)) eqn:E.
    + apply Qltb_lt in E. constructor; [exact IH|].
      apply (Permutation_Forall (Permutation_sym (insert_desc_perm key x l))).
      constructor; [now apply Qlt_le_weak | exact Hy].
    + apply Qltb_ge in E. constructor.
      * now constructor.
      * constructor; [exact E|].
        eapply Forall_impl; [|exact Hy].
        intros z Hz. simpl in Hz. lra.
Qed.

Lemma sorted_desc_sorted {A} (key : A -> Q) (l : list A) :
  StronglySorted (fun a b => key b <= key a) (sorted_desc key l).
Proof.
  induction l as [|x l IH]; simpl; [constructor|].
  now apply insert_desc_sorted.
Qed.

Lemma In_firstn {A} (n : nat) (l : list A) (x : A) :
  In x (firstn n l) -> In x l.
Proof.
  revert l. induction n as [|n IH]; intros [|y l]; simpl; try tauto.
  intros [H|H]; [now left | right; now apply IH].
Qed.

Lemma firstn_sorted {A} (R : A -> A -> Prop) (n : nat) (l : list A) :
  StronglySorted R l -> StronglySorted R (firstn n l).
Proof.
  revert l. induction n as [|n IH]; intros l Hl; [constructor|].
  destruct Hl as [|y l Hl Hy]; simpl; [constructor|].
  constructor; [now apply IH|].
  apply Forall_forall. intros z Hz. apply In_firstn in Hz.
  rewrite Forall_forall in Hy. now apply Hy.
Qed.

(** *** The payload *)

Lemma health_bottlenecks (db : DB.t) (now : datetime)
    (project_id user_id : Z) (h : ProjectHealth.t) :
  get_project_health db now project_id user_id = Ok h ->
  ProjectHealth.bottleneck_tasks h
  = firstn 5 (sorted_desc bottleneck_key
                (bottlenecks now (DB.tasks_of db project_id))).
Proof.
  unfold get_project_health.
  destruct (require_member db project_id user_id); cbn [bind];
    [|discriminate].
  destruct (DB.tasks_of db project_id) as [|t l] eqn:E.
  - intros H. injection H as <-. reflexivity.
  - rewrite <- E. destruct (fold_left _ _ _) as [otc td].
    repeat match goal with
      | |- Py.bind ?c _ = _ -> _ =>
          destruct c; cbn [bind]; [|discriminate]
      end.
    intros H. injection H as <-. reflexivity.
Qed.

Lemma health_score_status (db : DB.t) (now : datetime)
    (project_id user_id : Z) (h : ProjectHealth.t) :
  get_project_health db now project_id user_id = Ok h ->
  exists s, 0 <= s <= 100
            /\ ProjectHealth.health_score h = round s 1
            /\ ProjectHealth.status h = status_of s.
Proof.
  intros H.
  destruct (require_member db project_id user_id) as [project|e] eqn:Hreq.
  2:{ unfold get_project_health in H. rewrite Hreq in H. discriminate. }
  destruct (DB.tasks_of db project_id) as [|t l] eqn:E.
  - unfold get_project_health in H. rewrite Hreq in H. cbn [bind] in H.
    rewrite E in H. injection H as <-. exists 100. split; [lra|]. split; reflexivity.
  - assert (Hne : DB.tasks_of db project_id <> []) by (rewrite E; discriminate).
    destruct (get_project_health_run db now project_id user_id project
                Hreq Hne) as [h' [Hh' [_ [_ [_ [Hs Hst]]]]]].
    rewrite H in Hh'. injection Hh' as <-.
    eexists. split; [|split; [exact Hs | exact Hst]].
    apply health_score_of_bounds.
    + apply overdue_percentage_nonneg.
    + apply on_time_rate_le_100.
Qed.

(** The status agrees with the score next to it: a healthy project
    shows a score of 80 or more, a project in warning a score from 60 to
    80, a critical project a score of 60 or less; the score is always
    between 0 and 100. *)
Theorem health_status_matches_score (db : DB.t) (now : datetime)
    (project_id user_id : Z) (h : ProjectHealth.t) :
  get_project_health db now project_id user_id = Ok h ->
  0 <= ProjectHealth.health_score h <= 100
  /\ (ProjectHealth.status h = HealthStatus.healthy ->
      80 <= ProjectHealth.health_score h)
  /\ (ProjectHealth.status h = HealthStatus.warning ->
      60 <= ProjectHealth.health_score h <= 80)
  /\ (ProjectHealth.status h = HealthStatus.critical ->
      ProjectHealth.health_score h <= 60).
Proof.
  intros H. destruct (health_score_status db now project_id user_id h H)
    as [s [Hb [Hs Hst]]].
  rewrite Hs, Hst. unfold status_of.
  assert (E80 : round 80 1 == 80) by reflexivity.
  assert (E60 : round 60 1 == 60) by reflexivity.
  split; [now apply round_0_100|].
  destruct (Qle_bool 80 s) eqn:H80; [|destruct (Qle_bool 60 s) eqn:H60];
    cbv iota.
  - apply Qle_bool_iff in H80.
    split; [intros _; rewrite <- E80; now apply round_le|].
    split; intros Hx; discriminate Hx.
  - apply Qle_bool_gt in H80. apply Qle_bool_iff in H60.
    split; [intros Hx; discriminate Hx|].
    split; [|intros Hx; discriminate Hx].
    intros _. split.
    + rewrite <- E60. now apply round_le.
    + rewrite <- E80. apply round_le. now apply Qlt_le_weak.
  - apply Qle_bool_gt in H60.
    split; [intros Hx; discriminate Hx|].
    split; [intros Hx; discriminate Hx|].
    intros _. rewrite <- E60. apply round_le. now apply Qlt_le_weak.
Qed.

Lemma health_status_matches_score_witness :
  exists h,
    get_project_health Sample.db_two_completed Sample.now 10 1 = Ok h
    /\ ProjectHealth.status h = HealthStatus.warning
    /\ 60 <= ProjectHealth.health_score h <= 80.
Proof.
  destruct (get_project_health Sample.db_two_completed Sample.now 10 1)
    as [h|] eqn:E; [|vm_compute in E; discriminate].
  destruct (health_status_matches_score _ _ _ _ h E) as [_ [_ [Hw _]]].
  assert (Hst : ProjectHealth.status h = HealthStatus.warning).
  { vm_compute in E. injection E as <-. reflexivity. }
  exists h. split; [reflexivity|]. split; [exact Hst|]. now apply Hw.
Defined.

Lemma flat_map_filter_length {A B} (p : A -> bool) (f : A -> B)
    (l : list A) :
  List.length (flat_map (fun x => if p x then [f x] else []) l)
  = List.length (filter p l).
Proof.
  induction l as [|x l IH]; simpl; [reflexivity|].
  rewrite length_app, IH. destruct (p x); reflexivity.
Qed.

(** The bottleneck list holds the overdue tasks that have subtasks, at
    most five of them, those with the largest product of subtask count
    and days overdue first. *)
Theorem bottlenecks_ranked (db : DB.t) (now : datetime)
    (project_id user_id : Z) (h : ProjectHealth.t) :
  get_project_health db now project_id user_id = Ok h ->
  List.length (ProjectHealth.bottleneck_tasks h)
  = Nat.min 5 (List.length
                 (filter (fun t => (0 <? Task.subtasks t)%nat
                                   && Task.is_overdue now t)
                         (DB.tasks_of db project_id)))
  /\ StronglySorted
       (fun a b =>
          (Z.of_nat (Bottleneck.subtask_count b) * Bottleneck.days_overdue b
           <= Z.of_nat (Bottleneck.subtask_count a) * Bottleneck.days_overdue a)%Z)
       (ProjectHealth.bottleneck_tasks h)
  /\ (forall b, In b (ProjectHealth.bottleneck_tasks h) ->
        exists task,
          In task (DB.tasks_of db project_id)
          /\ Bottleneck.id b = Task.id task
          /\ Bottleneck.subtask_count b = Task.subtasks task
          /\ (0 < Task.subtasks task)%nat
          /\ Task.is_overdue now task = true).
Proof.
  intros H. rewrite (health_bottlenecks db now project_id user_id h H).
  set (tasks := DB.tasks_of db project_id).
  split; [|split].
  - rewrite length_firstn.
    rewrite (Permutation_length (sorted_desc_perm bottleneck_key _)).
    unfold bottlenecks.
    rewrite (flat_map_filter_length
               (fun t => (0 <? Task.subtasks t)%nat && Task.is_overdue now t)).
    reflexivity.
  - apply firstn_sorted.
    pose proof (sorted_desc_sorted bottleneck_key (bottlenecks now tasks)) as Hs.
    eapply StronglySorted_ind with (P := fun l => StronglySorted _ l);
      [constructor | | exact Hs].
    intros a l Hl IH Ha. constructor; [exact IH|].
    eapply Forall_impl; [|exact Ha].
    intros b Hb. unfold bottleneck_key in Hb. now rewrite <- Zle_Qle in Hb.
  - intros b Hb. apply In_firstn in Hb.
    apply (Permutation_in b (sorted_desc_perm bottleneck_key _)) in Hb.
    unfold bottlenecks in Hb. apply in_flat_map in Hb as [task [Ht Hb]].
    destruct ((0 <? Task.subtasks task)%nat && Task.is_overdue now task)
      eqn:E; [|contradiction].
    apply andb_true_iff in E as [E1 E2]. apply Nat.ltb_lt in E1.
    destruct Hb as [<-|[]]. exists task. simpl. auto.
Qed.

Lemma bottlenecks_ranked_witness :
  exists h,
    get_project_health Cases.db_bottlenecks Sample.now 10 1 = Ok h
    /\ map Bottleneck.id (ProjectHealth.bottleneck_tasks h) = [2; 1; 3]%Z.
Proof.
  destruct (get_project_health Cases.db_bottlenecks Sample.now 10 1)
    as [h|] eqn:E; [|vm_compute in E; discriminate].
  destruct (bottlenecks_ranked _ _ _ _ h E) as [Hlen _].
  exists h. split; [reflexivity|].
  vm_compute in E. injection E as <-. reflexivity.
Defined.

End HealthMore.

(** ** Ranking of the risk factors, and the advice *)

Section SetOfList.
Context {K : Type} (eqb : K -> K -> bool).
Hypothesis eqb_sound : forall a b, eqb a b = true -> a = b.

Lemma set_add_In (k x : K) (s : list K) :
  In x (set_add eqb k s) <-> In x s \/ x = k.
Proof.
  induction s as [|k' s IH]; simpl.
  - intuition.
  - destruct (eqb k' k) eqn:E.
    + apply eqb_sound in E. subst k'. simpl. intuition.
    + simpl. rewrite IH. intuition.
Qed.

Lemma set_add_NoDup (k : K) (s : list K) :
  eqb k k = true -> NoDup s -> NoDup (set_add eqb k s).
Proof.
  intros Hk. induction 1 as [|k' s Hnin Hs IH]; simpl.
  - constructor; [intros [] | constructor].
  - destruct (eqb k' k) eqn:E.
    + now constructor.
    + constructor; [|exact IH].
      rewrite set_add_In. intros [H|H]; [contradiction|].
      subst k'. congruence.
Qed.

Lemma fold_set_add_In (l s : list K) (x : K) :
  In x (fold_left (fun s k => set_add eqb k s) l s) <-> In x s \/ In x l.
Proof.
  revert s. induction l as [|k l IH]; intros s; simpl.
  - intuition.
  - rewrite IH, set_add_In. intuition.
Qed.

Lemma fold_set_add_NoDup (l s : list K) :
  (forall k, In k l -> eqb k k = true) ->
  NoDup s -> NoDup (fold_left (fun s k => set_add eqb k s) l s).
Proof.
  revert s. induction l as [|k l IH]; intros s Hl Hs; simpl; [exact Hs|].
  apply IH.
  - intros k' Hk'. apply Hl. now right.
  - apply set_add_NoDup; [apply Hl; now left | exact Hs].
Qed.

Lemma list_set_In (l : list K) (x : K) : In x (list_set eqb l) <-> In x l.
Proof.
  unfold list_set. rewrite fold_set_add_In. simpl. intuition.
Qed.

Lemma list_set_NoDup (l : list K) :
  (forall k, In k l -> eqb k k = true) -> NoDup (list_set eqb l).
Proof.
  intros H. apply fold_set_add_NoDup; [exact H | constructor].
Qed.
End SetOfList.

Section RiskMore.
Local Open Scope Q_scope.
Import AnalyticsService.

Lemma advice_eqb_sound (a b : Advice.t) : Advice.eqb a b = true -> a = b.
Proof.
  destruct a; destruct b; simpl; intros H; try discriminate H; reflexivity.
Qed.

Lemma risk_advice_texts (f : RiskFactor.t) (a : Advice.t) :
  In a (risk_advice f) -> Advice.eqb a a = true.
Proof.
  unfold risk_advice.
  destruct (RiskFactor.type f); try destruct (critical_or_high _);
    simpl; intuition (subst; reflexivity).
Qed.

(** The advice of a risk assessment is never empty and never repeats
    itself: it consists of the advice of the rules that fire, or of the
    "on track" message alone when no rule fires. *)
Theorem risk_recommendations_distinct (risk_factors : list RiskFactor.t)
    (project : Project.t) (tasks : list Task.t) :
  let recommendations :=
    _generate_risk_recommendations risk_factors project tasks in
  recommendations <> []
  /\ NoDup recommendations
  /\ (forall a,
        In a recommendations
        <-> In a (flat_map risk_advice risk_factors)
            \/ (flat_map risk_advice risk_factors = []
                /\ a = Advice.project_on_track)).
Proof.
  unfold _generate_risk_recommendations.
  set (recs := flat_map risk_advice risk_factors).
  assert (Htexts : forall a, In a recs -> Advice.eqb a a = true).
  { intros a Ha. unfold recs in Ha. apply in_flat_map in Ha as [f [_ Hf]].
    now apply (risk_advice_texts f). }
  destruct recs as [|a0 recs'] eqn:E.
  - simpl. split; [discriminate|]. split.
    + constructor; [intros [] | constructor].
    + intros a. simpl. intuition (subst; auto).
  - split; [|split].
    + intros H.
      assert (Hin : In a0 (list_set Advice.eqb (a0 :: recs'))).
      { apply (list_set_In Advice.eqb advice_eqb_sound). now left. }
      rewrite H in Hin. contradiction.
    + apply (list_set_NoDup Advice.eqb advice_eqb_sound). exact Htexts.
    + intros a. rewrite (list_set_In Advice.eqb advice_eqb_sound).
      split; [auto|]. intros [H|[H _]]; [exact H | discriminate H].
Qed.


(** The whole dictionary an assessment returns. *)
Lemma get_risk_assessment_payload (db : DB.t) (now : datetime)
    (project_id user_id : Z) (r : RiskAssessment.t) :
  get_risk_assessment db now project_id user_id = Ok r ->
  exists project fs,
    require_member_or_owner db project_id user_id = Ok project
    /\ map Spec.tag_of fs
       = Spec.fired now project (DB.tasks_of db project_id)
                    (DB.budget_of db project_id)
    /\ r = RiskAssessment.mk
             (Spec.capped_score fs)
             (risk_level_of (Spec.capped_score fs))
             (sorted_desc impact_key fs)
             (_generate_risk_recommendations fs project
                (DB.tasks_of db project_id)).
Proof.
  intros H.
  destruct (require_member_or_owner db project_id user_id)
    as [project|e] eqn:Hreq.
  2:{ unfold get_risk_assessment in H. rewrite Hreq in H. discriminate H. }
  unfold get_risk_assessment in H. rewrite Hreq in H. cbn [bind] in H.
  destruct (deadline_risk_run now project (DB.tasks_of db project_id) ([], 0%Z))
    as [st1 [fs1 [H1 [[F1 S1] T1]]]].
  rewrite H1 in H. cbn [bind] in H.
  destruct (budget_risk_run (DB.budget_of db project_id) st1)
    as [fs2 [[F2 S2] T2]].
  destruct (workload_risk_run project (DB.tasks_of db project_id)
              (budget_risk (DB.budget_of db project_id) st1))
    as [st3 [fs3 [H3 [[F3 S3] T3]]]].
  rewrite H3 in H. cbn [bind] in H.
  destruct (velocity_risk_run (DB.tasks_of db project_id) st3)
    as [st4 [fs4 [H4 [[F4 S4] T4]]]].
  rewrite H4 in H. cbn [bind] in H.
  destruct st4 as [risk_factors risk_score]. simpl in F4, S4.
  simpl in F1, S1.
  assert (Hf : risk_factors = fs1 ++ fs2 ++ fs3 ++ fs4).
  { rewrite F4, F3, F2, F1. now rewrite <- !app_assoc. }
  assert (Hs : risk_score = Spec.sum_points (fs1 ++ fs2 ++ fs3 ++ fs4)).
  { rewrite S4, S3, S2, S1, !sum_points_app. lia. }
  exists project, (fs1 ++ fs2 ++ fs3 ++ fs4).
  split; [reflexivity|].
  split; [unfold Spec.fired; now rewrite !map_app, T1, T2, T3, T4|].
  injection H as <-. unfold Spec.capped_score. now rewrite Hs, Hf.
Qed.

Lemma count_perm {A} (p : A -> bool) (l l' : list A) :
  Permutation l l' -> Notions.count p l = Notions.count p l'.
Proof.
  unfold Notions.count.
  induction 1 as [|x l l' _ IH|x y l|l l' l'' _ IH1 _ IH2]; simpl.
  - reflexivity.
  - destruct (p x); simpl; now rewrite IH.
  - destruct (p x), (p y); reflexivity.
  - now rewrite IH1.
Qed.

(** The impact that goes with each entry of the table. *)
Lemma fired_counts (now : datetime) (project : Project.t)
    (tasks : list Task.t) (budget : option Budget.t)
    (fs : list RiskFactor.t) :
  map Spec.tag_of fs = Spec.fired now project tasks budget ->
  (List.length fs <= 4)%nat
  /\ (Notions.count Notions.deadline_family fs <= 1)%nat
  /\ (Notions.count Notions.budget_family fs <= 1)%nat
  /\ (Notions.count Notions.workload_family fs <= 1)%nat
  /\ (Notions.count Notions.velocity_family fs <= 1)%nat.
Proof.
  intros H.
  assert (Hc : forall (p : RiskFactor.t -> bool) (q : Spec.tag -> bool),
             (forall f, p f = q (Spec.tag_of f)) ->
             Notions.count p fs
             = List.length (filter q (Spec.fired now project tasks budget))).
  { intros p q Hpq. rewrite <- H. unfold Notions.count. clear H.
    induction fs as [|f fs IH]; simpl; [reflexivity|].
    rewrite Hpq. destruct (q (Spec.tag_of f)); simpl; now rewrite IH. }
  assert (Hl : List.length fs
               = List.length (Spec.fired now project tasks budget))
    by (rewrite <- H; now rewrite length_map).
  rewrite Hl.
  rewrite (Hc Notions.deadline_family
             (fun t => match fst t with
                       | RiskFactor.deadline | RiskFactor.task_overdue => true
                       | _ => false end)) by reflexivity.
  rewrite (Hc Notions.budget_family
             (fun t => match fst t with
                       | RiskFactor.budget => true | _ => false end))
    by reflexivity.
  rewrite (Hc Notions.workload_family
             (fun t => match fst t with
                       | RiskFactor.workload => true | _ => false end))
    by reflexivity.
  rewrite (Hc Notions.velocity_family
             (fun t => match fst t with
                       | RiskFactor.velocity => true | _ => false end))
    by reflexivity.
  unfold Spec.fired, Spec.deadline_family, Spec.budget_family,
    Spec.workload_family, Spec.velocity_family.
  repeat match goal with
    | |- context [match ?x with _ => _ end] =>
        match type of x with
        | option _ => destruct x
        | bool => destruct x
        end
    end; simpl; lia.
Qed.

Lemma sorted_by_integer_key {A} (key : A -> Z) (l : list A) :
  StronglySorted (fun a b => inject_Z (key b) <= inject_Z (key a)) l ->
  StronglySorted (fun a b => (key b <= key a)%Z) l.
Proof.
  induction 1 as [|a l Hl IH Ha]; [constructor|].
  constructor; [exact IH|].
  eapply Forall_impl; [|exact Ha].
  intros b Hb. simpl in Hb. now rewrite <- Zle_Qle in Hb.
Qed.

(** The factors of an assessment come by decreasing impact; at most one
    factor of the deadline family fires, one of the budget family, one
    for workload and one for velocity; the level is low below 30,
    medium below 60, high below 80 and critical from 80 on. *)
Theorem risk_factors_ranked (db : DB.t) (now : datetime)
    (project_id user_id : Z) (r : RiskAssessment.t) :
  get_risk_assessment db now project_id user_id = Ok r ->
  StronglySorted (fun a b => (RiskFactor.impact b <= RiskFactor.impact a)%Z)
                 (RiskAssessment.risk_factors r)
  /\ (Notions.count Notions.deadline_family (RiskAssessment.risk_factors r)
      <= 1)%nat
  /\ (Notions.count Notions.budget_family (RiskAssessment.risk_factors r)
      <= 1)%nat
  /\ (Notions.count Notions.workload_family (RiskAssessment.risk_factors r)
      <= 1)%nat
  /\ (Notions.count Notions.velocity_family (RiskAssessment.risk_factors r)
      <= 1)%nat
  /\ (List.length (RiskAssessment.risk_factors r) <= 4)%nat
  /\ (RiskAssessment.risk_level r = RiskFactor.low
      <-> (RiskAssessment.overall_risk_score r < 30)%Z)
  /\ (RiskAssessment.risk_level r = RiskFactor.medium
      <-> (30 <= RiskAssessment.overall_risk_score r < 60)%Z)
  /\ (RiskAssessment.risk_level r = RiskFactor.high
      <-> (60 <= RiskAssessment.overall_risk_score r < 80)%Z)
  /\ (RiskAssessment.risk_level r = RiskFactor.critical
      <-> (80 <= RiskAssessment.overall_risk_score r)%Z).
Proof.
  intros H.
  destruct (get_risk_assessment_payload db now project_id user_id r H)
    as [project [fs [_ [Htags ->]]]].
  cbn [RiskAssessment.risk_factors RiskAssessment.risk_level
       RiskAssessment.overall_risk_score].
  destruct (fired_counts now project _ _ fs Htags)
    as [Hlen [Hd [Hb [Hw Hv]]]].
  pose proof (sorted_desc_perm impact_key fs) as Hperm.
  split.
  { apply sorted_by_integer_key.
    exact (sorted_desc_sorted impact_key fs). }
  rewrite !(count_perm _ _ _ Hperm), (Permutation_length Hperm).
  repeat (split; [assumption|]).
  unfold risk_level_of.
  destruct (Spec.capped_score fs <? 30)%Z eqn:E30;
    [|destruct (Spec.capped_score fs <? 60)%Z eqn:E60;
      [|destruct (Spec.capped_score fs <? 80)%Z eqn:E80]];
    try apply Z.ltb_lt in E30; try apply Z.ltb_ge in E30;
    try apply Z.ltb_lt in E60; try apply Z.ltb_ge in E60;
    try apply Z.ltb_lt in E80; try apply Z.ltb_ge in E80;
    repeat match goal with |- _ /\ _ => split end;
    (split; intros Hx; [try discriminate Hx; lia | try reflexivity; lia]).
Qed.

Lemma risk_factors_ranked_witness :
  exists r,
    get_risk_assessment Sample.db_all_factors Sample.now 12 1 = Ok r
    /\ map RiskFactor.impact (RiskAssessment.risk_factors r)
       = [90; 80; 65; 45]%Z
    /\ RiskAssessment.risk_level r = RiskFactor.critical.
Proof.
  destruct (get_risk_assessment Sample.db_all_factors Sample.now 12 1)
    as [r|] eqn:E; [|vm_compute in E; discriminate].
  destruct (risk_factors_ranked _ _ _ _ r E) as [Hs _].
  exists r. split; [reflexivity|].
  vm_compute in E. injection E as <-. split; reflexivity.
Defined.

End RiskMore.

(** ** More on budgets and expenses *)

Section LedgerMore.
Local Open Scope Q_scope.
Import FinanceService.

(** *** Rows found and rows kept *)

Lemma find_app_last {A} (p : A -> bool) (l : list A) (x : A) :
  (forall y, In y l -> p y = false) -> p x = true ->
  find p (l ++ [x]) = Some x.
Proof.
  intros Hl Hx. induction l as [|y l IH]; simpl.
  - now rewrite Hx.
  - rewrite (Hl y) by now left. apply IH. intros z Hz. apply Hl. now right.
Qed.

Lemma find_app_other {A} (p : A -> bool) (l : list A) (x : A) :
  p x = false -> find p (l ++ [x]) = find p l.
Proof.
  intros Hx. induction l as [|y l IH]; simpl.
  - now rewrite Hx.
  - destruct (p y); [reflexivity | exact IH].
Qed.

Lemma In_remove_first {A} (p : A -> bool) (l : list A) (x : A) :
  In x (remove_first p l) -> In x l.
Proof.
  induction l as [|y l IH]; simpl; [tauto|].
  destruct (p y); simpl; [tauto|].
  intros [H|H]; [now left | right; now apply IH].
Qed.

(** *** The row [add_expense] writes *)

Lemma add_expense_row (db : DB.t) (now : datetime) (user_id project_id : Z)
    (data : ExpenseData.t) (db' : DB.t) (e : Expense.t) :
  add_expense db now user_id project_id data = Ok (db', e) ->
  exists project,
    require_member db project_id user_id = Ok project
    /\ Expense.id e = next_id (map Expense.id (DB.expenses db))
    /\ Expense.amount e
       = match ExpenseData.amount data with Some v => v | None => 0 end
    /\ Expense.category e
       = match ExpenseData.category data with
         | Some v => v | None => Some "General"%string end
    /\ Expense.created_by e = user_id
    /\ DB.projects db' = DB.projects db
    /\ DB.tasks db' = DB.tasks db
    /\ (DB.budget_of db project_id = None ->
        DB.budgets db' = DB.budgets db
        /\ DB.notifications db' = DB.notifications db)
    /\ (forall b,
          DB.budget_of db project_id = Some b ->
          let spent := Budget.spent_amount b + Expense.amount e in
          (Qltb (Budget.allocated_amount b) spent = false ->
           DB.notifications db' = DB.notifications db)
          /\ (Qltb (Budget.allocated_amount b) spent = true ->
              ~ Budget.allocated_amount b == 0
              /\ DB.notifications db'
                 = DB.notifications db
                   ++ map (fun member =>
                             Notification.mk (User.id member)
                               (Notification.budget_overrun
                                  (Project.name project)
                                  (Budget.currency b)
                                  (spent - Budget.allocated_amount b)
                                  ((spent - Budget.allocated_amount b)
                                   / Budget.allocated_amount b * 100)))
                          (Project.members project))).
Proof.
  unfold add_expense.
  destruct (require_member db project_id user_id) as [project|];
    cbn [bind]; [|discriminate].
  set (expense := Expense.mk _ _ _ _ _ _ _ _).
  set (db1 := set_expenses db (DB.expenses db ++ [expense])).
  change (DB.budget_of db1 project_id) with (DB.budget_of db project_id).
  destruct (DB.budget_of db project_id) as [b|] eqn:Eb.
  - cbn [Budget.allocated_amount Budget.spent_amount Budget.with_spent_amount].
    destruct (Qltb (Budget.allocated_amount b)
                   (Budget.spent_amount b + Expense.amount expense)) eqn:Eo.
    + unfold _create_budget_overrun_notification.
      cbn [Budget.allocated_amount Budget.spent_amount Budget.currency
           Budget.with_spent_amount].
      unfold truediv.
      destruct (Qeq_bool (Budget.allocated_amount b) 0) eqn:Ez;
        cbn [bind]; [discriminate|].
      intros H. injection H as <- <-. exists project.
      repeat (split; [reflexivity|]).
      split; [intros Hx; discriminate Hx|].
      intros b0 Hb0. injection Hb0 as <-. cbv zeta. split.
      * intros Hx. rewrite Eo in Hx. discriminate Hx.
      * intros _. split; [now apply Qeq_bool_neq|]. reflexivity.
    + cbn [bind]. intros H. injection H as <- <-. exists project.
      repeat (split; [reflexivity|]).
      split; [intros Hx; discriminate Hx|].
      intros b0 Hb0. injection Hb0 as <-. cbv zeta. split.
      * intros _. reflexivity.
      * intros Hx. rewrite Eo in Hx. discriminate Hx.
  - cbn [bind]. intros H. injection H as <- <-. exists project.
    repeat (split; [reflexivity|]).
    split; [intros _; split; reflexivity|].
    intros b0 Hb0. discriminate Hb0.
Qed.


Lemma require_member_project (db : DB.t) (project_id user_id : Z)
    (project : Project.t) :
  require_member db project_id user_id = Ok project ->
  find (fun p => (Project.id p =? project_id)%Z) (DB.projects db)
  = Some project
  /\ any_member project user_id = true.
Proof.
  unfold require_member, DB.get_project_or_404.
  destruct (find _ _) as [p|]; cbn [bind]; [|discriminate].
  destruct (any_member p user_id) eqn:E; simpl; [|discriminate].
  intros H. injection H as <-. auto.
Qed.

(** An added expense that takes the spending above the allocated amount
    notifies every member of the project, once, of the overrun and its
    percentage; an expense that stays within the budget notifies
    nobody, and neither does one on a project without budget. *)
Theorem overrun_notifies_each_member (db : DB.t) (now : datetime)
    (user_id project_id : Z) (data : ExpenseData.t) (db' : DB.t)
    (e : Expense.t) :
  add_expense db now user_id project_id data = Ok (db', e) ->
  exists project,
    DB.get_project_or_404 db project_id = Ok project
    /\ (DB.budget_of db project_id = None ->
        DB.notifications db' = DB.notifications db)
    /\ (forall b,
          DB.budget_of db project_id = Some b ->
          let spent := Budget.spent_amount b + Expense.amount e in
          (spent <= Budget.allocated_amount b ->
           DB.notifications db' = DB.notifications db)
          /\ (Budget.allocated_amount b < spent ->
              DB.notifications db'
              = DB.notifications db
                ++ map (fun member =>
                          Notification.mk (User.id member)
                            (Notification.budget_overrun
                               (Project.name project)
                               (Budget.currency b)
                               (spent - Budget.allocated_amount b)
                               ((spent - Budget.allocated_amount b)
                                / Budget.allocated_amount b * 100)))
                       (Project.members project))).
Proof.
  intros H.
  destruct (add_expense_row db now user_id project_id data db' e H)
    as [project [Hreq [_ [_ [_ [_ [_ [_ [Hnone Hsome]]]]]]]]].
  exists project. split.
  { destruct (require_member_project db project_id user_id project Hreq)
      as [Hf _].
    unfold DB.get_project_or_404. now rewrite Hf. }
  split; [intros Hn; now apply Hnone|].
  intros b Hb. destruct (Hsome b Hb) as [Hle Hgt]. cbv zeta. split.
  - intros Hx. apply Hle. now apply Qltb_ge.
  - intros Hx. apply Hgt. now apply Qltb_lt.
Qed.

Lemma overrun_notifies_each_member_witness :
  exists db' e,
    add_expense Sample.db_three_expenses Sample.now 1 10
      (ExpenseData.mk None (Some (2000#1)) None None) = Ok (db', e)
    /\ List.length (DB.notifications db') = 1%nat.
Proof.
  destruct (add_expense Sample.db_three_expenses Sample.now 1 10
              (ExpenseData.mk None (Some (2000#1)) None None))
    as [[db' e]|] eqn:E; [|vm_compute in E; discriminate].
  destruct (overrun_notifies_each_member _ _ _ _ _ _ _ E)
    as [project [Hp [_ Hb]]].
  destruct (Hb _ eq_refl) as [_ Hover].
  exists db', e. split; [reflexivity|].
  vm_compute in Hp. injection Hp as <-.
  rewrite Hover.
  - reflexivity.
  - vm_compute in E. injection E as <- <-. vm_compute. reflexivity.
Defined.

(** A project has at most one budget through [create_budget]: the
    budget just created is the one the project's queries find, the
    budgets of the other projects are untouched, and a further creation
    for the project is refused, with [ValueError] when a member asks
    for it and with the error of the membership check otherwise. *)
Theorem create_budget_once (db : DB.t) (user_id project_id : Z)
    (allocated_amount : option Q) (currency : option string)
    (db1 : DB.t) (b : Budget.t) :
  create_budget db user_id project_id allocated_amount currency
  = Ok (db1, b) ->
  DB.budget_of db project_id = None
  /\ DB.budget_of db1 project_id = Some b
  /\ Budget.project_id b = project_id
  /\ Budget.allocated_amount b
     = match allocated_amount with Some a => a | None => 0 end
  /\ Budget.currency b
     = match currency with Some c => c | None => "USD"%string end
  /\ (forall q, q <> project_id -> DB.budget_of db1 q = DB.budget_of db q)
  /\ DB.expenses db1 = DB.expenses db
  /\ (forall user_id' allocated_amount' currency',
        create_budget db1 user_id' project_id allocated_amount' currency'
        = match require_member db1 project_id user_id' with
          | Ok _ => Raise (ValueError "Budget already exists for this project")
          | Raise e => Raise e
          end).
Proof.
  unfold create_budget.
  destruct (require_member db project_id user_id) as [project|] eqn:Hreq;
    cbn [bind]; [|discriminate].
  destruct (DB.budget_of db project_id) as [b0|] eqn:Eb; [discriminate|].
  intros H. injection H as <- <-.
  set (b := Budget.mk _ _ _ _ _).
  assert (Hnone : forall y, In y (DB.budgets db) ->
                            (Budget.project_id y =? project_id)%Z = false).
  { intros y Hy. unfold DB.budget_of in Eb.
    exact (find_none _ _ Eb y Hy). }
  assert (Hb1 : DB.budget_of
                  (DB.mk (DB.projects db) (DB.tasks db) (DB.budgets db ++ [b])
                     (DB.expenses db) (DB.notifications db)) project_id
                = Some b).
  { unfold DB.budget_of. cbn [DB.budgets].
    apply find_app_last; [exact Hnone | apply Z.eqb_refl]. }
  split; [reflexivity|]. split; [exact Hb1|].
  repeat (split; [reflexivity|]).
  split.
  { intros q Hq. unfold DB.budget_of. cbn [DB.budgets].
    apply find_app_other. apply Z.eqb_neq. simpl. lia. }
  split; [reflexivity|].
  intros user_id' a' c'.
  destruct (require_member
              (DB.mk (DB.projects db) (DB.tasks db) (DB.budgets db ++ [b])
                 (DB.expenses db) (DB.notifications db))
              project_id user_id') as [project'|e']; cbn [bind];
    [|reflexivity].
  now rewrite Hb1.
Qed.

Lemma create_budget_once_witness :
  DB.budget_of Sample.db_zero_budget 10 = Some Sample.zero_budget
  /\ create_budget Sample.db_zero_budget 1 10 (Some (500#1)) None
     = Raise (ValueError "Budget already exists for this project")
  /\ create_budget Sample.db_zero_budget 2 10 (Some (500#1)) None
     = Raise (PermissionError "User is not a member of this project").
Proof.
  destruct (create_budget_once Sample.db_no_budget 1 10 None None
              Sample.db_zero_budget Sample.zero_budget eq_refl)
    as [_ [Hb [_ [_ [_ [_ [_ Hagain]]]]]]].
  split; [exact Hb|]. split; rewrite Hagain; reflexivity.
Defined.

(** *** update_budget and delete_budget *)

Lemma budget_rows_updated (l : list Budget.t) (budget_id q : Z)
    (b1 : Budget.t) (b' : Budget.t) :
  (forall b, find (fun b => (Budget.id b =? budget_id)%Z) l = Some b ->
             Budget.project_id b1 = Budget.project_id b
             /\ Budget.spent_amount b1 = Budget.spent_amount b) ->
  find (fun b => (Budget.project_id b =? q)%Z)
       (update_first (fun b => (Budget.id b =? budget_id)%Z)
                     (fun _ => b1) l) = Some b' ->
  exists b0,
    find (fun b => (Budget.project_id b =? q)%Z) l = Some b0
    /\ Budget.spent_amount b0 = Budget.spent_amount b'.
Proof.
  induction l as [|y l IH]; simpl; intros Hsame H; [discriminate|].
  destruct (Budget.id y =? budget_id)%Z eqn:Ei.
  - destruct (Hsame y eq_refl) as [Hp Hs]. simpl in H. rewrite Hp in H.
    destruct (Budget.project_id y =? q)%Z.
    + injection H as <-. eauto.
    + eauto.
  - simpl in H. destruct (Budget.project_id y =? q)%Z.
    + injection H as <-. eauto.
    + now apply IH.
Qed.

(** Changing a budget changes the allocated amount and the currency
    only: the running total, the project, the expenses and the
    notifications stay, also when the new amount is below what is spent;
    a total that matched the expenses still matches them. *)
Theorem update_budget_keeps_spent (db : DB.t) (user_id budget_id : Z)
    (allocated_amount : option Q) (currency : option string)
    (db1 : DB.t) (b1 : Budget.t) :
  update_budget db user_id budget_id allocated_amount currency
  = Ok (db1, b1) ->
  exists b,
    get_budget_or_404 db budget_id = Ok b
    /\ Budget.id b1 = Budget.id b
    /\ Budget.project_id b1 = Budget.project_id b
    /\ Budget.spent_amount b1 = Budget.spent_amount b
    /\ Budget.allocated_amount b1
       = match allocated_amount with
         | Some a => a | None => Budget.allocated_amount b end
    /\ Budget.currency b1
       = match currency with Some c => c | None => Budget.currency b end
    /\ DB.expenses db1 = DB.expenses db
    /\ DB.notifications db1 = DB.notifications db
    /\ (forall q, Spec.consistent db q -> Spec.consistent db1 q).
Proof.
  unfold update_budget, get_budget_or_404.
  destruct (find _ (DB.budgets db)) as [b|] eqn:Ef; cbn [bind];
    [|discriminate].
  destruct (project_of_budget db b) as [project|]; cbn [bind];
    [|discriminate].
  destruct (negb (any_member project user_id)); [discriminate|].
  intros H. injection H as <- <-. exists b.
  repeat (split; [reflexivity|]).
  intros q Hcons b' Hb'.
  change (Spec.expenses_total (set_budgets db _) q)
    with (Spec.expenses_total db q).
  unfold DB.budget_of in Hb'. cbn [set_budgets DB.budgets] in Hb'.
  apply budget_rows_updated in Hb'.
  - destruct Hb' as [b0 [Hb0 Hs]]. rewrite <- Hs. now apply Hcons.
  - intros b2 Hb2. rewrite Ef in Hb2. injection Hb2 as <-. split; reflexivity.
Qed.

Lemma update_budget_keeps_spent_witness :
  exists db1 b1,
    update_budget Sample.db_three_expenses 1 1 (Some (40#1)) None
    = Ok (db1, b1)
    /\ Budget.allocated_amount b1 == 40
    /\ Budget.spent_amount b1 == 60
    /\ DB.notifications db1 = [].
Proof.
  destruct (update_budget Sample.db_three_expenses 1 1 (Some (40#1)) None)
    as [[db1 b1]|] eqn:E; [|vm_compute in E; discriminate].
  destruct (update_budget_keeps_spent _ _ _ _ _ _ _ E)
    as [b [Hb [_ [_ [Hs [Ha [_ [_ [Hn _]]]]]]]]].
  vm_compute in Hb. injection Hb as <-.
  exists db1, b1. split; [reflexivity|].
  rewrite Ha, Hs, Hn. repeat split; reflexivity.
Defined.

Lemma find_remove_first_unique {A} (key : A -> Z) (k : Z) (l : list A) :
  NoDup (map key l) ->
  find (fun x => (key x =? k)%Z) (remove_first (fun x => (key x =? k)%Z) l)
  = None.
Proof.
  induction l as [|y l IH]; simpl; intros Hnd; [reflexivity|].
  inversion Hnd as [|? ? Hnin Hnd']; subst.
  destruct (key y =? k)%Z eqn:E.
  - apply Z.eqb_eq in E. subst k.
    destruct (find _ l) as [x|] eqn:Ef; [|reflexivity].
    apply find_some in Ef as [Hin Hx]. apply Z.eqb_eq in Hx.
    exfalso. apply Hnin. rewrite <- Hx. now apply in_map.
  - simpl. rewrite E. now apply IH.
Qed.

(** Deleting a budget removes that row and nothing else: the expenses
    of the project stay.  With budget keys that are unique, the budget
    can no longer be found, so deleting or changing it again fails with
    a not-found error. *)
Theorem delete_budget_removes_row (db : DB.t) (user_id budget_id : Z)
    (db1 : DB.t) (r : bool) :
  NoDup (map Budget.id (DB.budgets db)) ->
  delete_budget db user_id budget_id = Ok (db1, r) ->
  r = true
  /\ DB.expenses db1 = DB.expenses db
  /\ DB.projects db1 = DB.projects db
  /\ get_budget_or_404 db1 budget_id = Raise NotFound
  /\ delete_budget db1 user_id budget_id = Raise NotFound
  /\ (forall a c, update_budget db1 user_id budget_id a c = Raise NotFound)
  /\ (forall b, In b (DB.budgets db1) -> In b (DB.budgets db)).
Proof.
  intros Hnd. unfold delete_budget at 1, get_budget_or_404 at 1.
  destruct (find _ (DB.budgets db)) as [b|] eqn:Ef; cbn [bind];
    [|discriminate].
  destruct (project_of_budget db b) as [project|]; cbn [bind];
    [|discriminate].
  destruct (negb (any_member project user_id)); [discriminate|].
  intros H. injection H as <- <-.
  assert (Hgone : get_budget_or_404
                    (set_budgets db
                       (remove_first (fun b => (Budget.id b =? budget_id)%Z)
                          (DB.budgets db))) budget_id = Raise NotFound).
  { unfold get_budget_or_404. cbn [set_budgets DB.budgets].
    now rewrite (find_remove_first_unique Budget.id budget_id _ Hnd). }
  repeat (split; [reflexivity|]).
  split; [exact Hgone|].
  split; [unfold delete_budget; now rewrite Hgone|].
  split; [intros a c; unfold update_budget; now rewrite Hgone|].
  intros b0. cbn [set_budgets DB.budgets]. apply In_remove_first.
Qed.

Lemma delete_budget_removes_row_witness :
  exists db1,
    delete_budget Sample.db_three_expenses 1 1 = Ok (db1, true)
    /\ DB.budget_of db1 10 = None
    /\ List.length (DB.expenses db1) = 3%nat.
Proof.
  destruct (delete_budget Sample.db_three_expenses 1 1)
    as [[db1 r]|] eqn:E; [|vm_compute in E; discriminate].
  destruct (delete_budget_removes_row Sample.db_three_expenses 1 1 db1 r)
    as [Hr [He _]].
  - repeat constructor. intros [].
  - exact E.
  - subst r. exists db1. split; [reflexivity|].
    split; [|now rewrite He].
    vm_compute in E. injection E as <-. reflexivity.
Defined.

End LedgerMore.

(** ** Who may call what *)

Section AccessMore.
Local Open Scope Q_scope.

(** The membership checks differ.  An owner who is not listed among the
    members of the project is refused by the health, resource and
    expense calls, which look at the members only, and served by the
    risk assessment and the expense forecast, which admit the owner as
    well. *)
Theorem owner_outside_members (db : DB.t) (now : datetime)
    (project_id user_id : Z) (project : Project.t)
    (data : ExpenseData.t) (forecast_months : Z) :
  DB.get_project_or_404 db project_id = Ok project ->
  Project.owner_id project = user_id ->
  any_member project user_id = false ->
  let denied : exn :=
    PermissionError "User is not a member of this project" in
  AnalyticsService.get_project_health db now project_id user_id
  = Raise denied
  /\ AnalyticsService.get_resource_utilization db now project_id user_id
     = Raise denied
  /\ FinanceService.add_expense db now user_id project_id data
     = Raise denied
  /\ (exists r,
        AnalyticsService.get_risk_assessment db now project_id user_id
        = Ok r)
  /\ (exists p,
        FinanceService.get_expense_forecasting
          db now user_id project_id forecast_months = Ok p
        /\ ExpenseForecast.message p
           <> Some (ExpenseForecast.error_generating denied)).
Proof.
  intros Hp Ho Hm denied.
  assert (Hreq : require_member db project_id user_id = Raise denied).
  { unfold require_member. rewrite Hp. cbn [bind]. now rewrite Hm. }
  assert (Hreq' : require_member_or_owner db project_id user_id = Ok project).
  { unfold require_member_or_owner. rewrite Hp. cbn [bind].
    rewrite Hm, Ho, Z.eqb_refl. reflexivity. }
  split; [unfold AnalyticsService.get_project_health; now rewrite Hreq|].
  split; [unfold AnalyticsService.get_resource_utilization; now rewrite Hreq|].
  split; [unfold FinanceService.add_expense; now rewrite Hreq|].
  split.
  - destruct (get_risk_assessment_run db now project_id user_id project Hreq')
      as [r [_ [Hr _]]]. eauto.
  - destruct (get_expense_forecasting_run db now user_id project_id
                forecast_months project Hreq') as [Hfew Hmany].
    destruct (Nat.lt_ge_cases
                (List.length (DB.expenses_of db project_id)) 3) as [Hlt|Hge].
    + eexists. split; [exact (Hfew Hlt)|]. discriminate.
    + destruct (Hmany Hge) as [p [Hp' [_ [Hmsg _]]]].
      exists p. split; [exact Hp'|]. rewrite Hmsg. discriminate.
Qed.

Lemma owner_outside_members_witness :
  AnalyticsService.get_project_health Sample.db_all_factors Sample.now 12 1
  = Raise (PermissionError "User is not a member of this project")
  /\ exists r,
       AnalyticsService.get_risk_assessment
         Sample.db_all_factors Sample.now 12 1 = Ok r.
Proof.
  destruct (owner_outside_members Sample.db_all_factors Sample.now 12 1
              Sample.mercury Sample.ten 3 eq_refl eq_refl eq_refl)
    as [Hh [_ [_ [Hr _]]]].
  split; [exact Hh | exact Hr].
Defined.

End AccessMore.

(** ** Keys of the dictionaries *)

Section DictFacts.
Local Open Scope Q_scope.
Context {K : Type} (eqb : K -> K -> bool).
Hypothesis eqb_spec : forall a b, eqb a b = true <-> a = b.

Lemma eqb_refl_of_spec : forall a, eqb a a = true.
Proof. intros a. now apply eqb_spec. Qed.

Lemma dict_add_keys (k : K) (v : Q) (d : list (K * Q)) :
  map fst (dict_add eqb k v d) = set_add eqb k (map fst d).
Proof.
  induction d as [|[k' v'] d IH]; simpl; [reflexivity|].
  destruct (eqb k' k); simpl; [reflexivity | now rewrite IH].
Qed.

Section Folds.
Context {E : Type} (key : E -> K) (val : E -> Q).

Lemma fold_dict_add_keys (l : list E) (d : list (K * Q)) :
  map fst (fold_left (fun d e => dict_add eqb (key e) (val e) d) l d)
  = fold_left (fun s k => set_add eqb k s) (map key l) (map fst d).
Proof.
  revert d. induction l as [|e l IH]; intros d; simpl; [reflexivity|].
  now rewrite IH, dict_add_keys.
Qed.

Lemma fold_set_add_keys (l : list E) :
  fold_left (fun s e => set_add eqb (key e) s) l []
  = list_set eqb (map key l).
Proof.
  unfold list_set. generalize (@nil K).
  induction l as [|e l IH]; intros s; simpl; [reflexivity | apply IH].
Qed.
End Folds.

(** Of the keys of a duplicate-free list, exactly one is [x]. *)
Lemma one_key_matches (x : K) (ks : list K) :
  NoDup ks -> In x ks ->
  list_sum (map (fun k => if eqb x k then 1%nat else 0%nat) ks) = 1%nat.
Proof.
  induction 1 as [|k ks Hnin Hnd IH]; simpl; [tauto|].
  intros [->|Hin].
  - rewrite eqb_refl_of_spec.
    assert (Hz : list_sum (map (fun k => if eqb x k then 1%nat else 0%nat) ks)
                 = 0%nat).
    { clear IH Hnd. induction ks as [|k ks IH]; simpl; [reflexivity|].
      destruct (eqb x k) eqn:E.
      - apply eqb_spec in E. subst k. exfalso. apply Hnin. now left.
      - apply IH. intros H. apply Hnin. now right. }
    now rewrite Hz.
  - destruct (eqb x k) eqn:E.
    + apply eqb_spec in E. subst k. contradiction.
    + now apply IH.
Qed.

(** Records grouped under duplicate-free keys that cover them all are
    each counted once. *)
Lemma groups_partition {E} (key : E -> K) (l : list E) (ks : list K) :
  NoDup ks -> (forall e, In e l -> In (key e) ks) ->
  list_sum (map (fun k => List.length (filter (fun e => eqb (key e) k) l)) ks)
  = List.length l.
Proof.
  intros Hnd. induction l as [|e l IH]; intros Hcov; simpl.
  - clear. induction ks as [|k ks IHk]; simpl; [reflexivity | exact IHk].
  - assert (Hsplit :
              list_sum (map (fun k =>
                               List.length
                                 (if eqb (key e) k
                                  then e :: filter (fun e => eqb (key e) k) l
                                  else filter (fun e => eqb (key e) k) l)) ks)
              = (list_sum (map (fun k => if eqb (key e) k then 1%nat else 0%nat) ks)
                 + list_sum (map (fun k => List.length
                                             (filter (fun e => eqb (key e) k) l))
                                 ks))%nat).
    { clear. induction ks as [|k ks IHk]; simpl; [reflexivity|].
      rewrite IHk. destruct (eqb (key e) k); simpl; lia. }
    rewrite Hsplit, IH, one_key_matches; auto.
    + apply Hcov. now left.
    + intros e' He'. apply Hcov. now right.
Qed.

End DictFacts.

Section Raising.
(** A loop whose every turn returns, returns. *)
Lemma mapM_returns {A B} (f : A -> result B) (P : A -> B -> Prop)
    (l : list A) :
  (forall x, In x l -> exists y, f x = Ok y /\ P x y) ->
  exists ys, mapM f l = Ok ys /\ Forall2 P l ys.
Proof.
  induction l as [|x l IH]; intros H; simpl.
  - exists []. split; [reflexivity | constructor].
  - destruct (H x (or_introl eq_refl)) as [y [Hy Py]]. rewrite Hy.
    destruct IH as [ys [Hys Pys]]; [intros z Hz; apply H; now right|].
    rewrite Hys. exists (y :: ys). split; [reflexivity | now constructor].
Qed.

Lemma Forall2_length_eq {A B} (P : A -> B -> Prop) (l : list A)
    (ys : list B) :
  Forall2 P l ys -> List.length ys = List.length l.
Proof. induction 1; simpl; congruence. Qed.
End Raising.

(** ** Resource utilization and budget variance *)

Section Views.
Local Open Scope Q_scope.

Lemma string_keys_NoDup (l : list string) : NoDup (list_set String.eqb l).
Proof.
  apply (list_set_NoDup String.eqb).
  - intros a b. apply String.eqb_eq.
  - intros k _. apply String.eqb_refl.
Qed.

Lemma string_keys_In (l : list string) (x : string) :
  In x (list_set String.eqb l) <-> In x l.
Proof.
  apply (list_set_In String.eqb). intros a b. apply String.eqb_eq.
Qed.

(** The expenses of a project by category: every category appears once
    and every expense has its category listed ("Uncategorized" when it
    has none).  The total is the sum of the amounts, the count the
    number of the expenses; there are twelve monthly buckets, and a
    budget section exactly when the project has a budget. *)
Theorem resource_utilization_totals (db : DB.t) (now : datetime)
    (project_id user_id : Z) (r : ResourceUtilization.t) :
  AnalyticsService.get_resource_utilization db now project_id user_id
  = Ok r ->
  let expenses := DB.expenses_of db project_id in
  ResourceUtilization.total_expenses r = sum (map Expense.amount expenses)
  /\ NoDup (map fst (ResourceUtilization.expenses_by_category r))
  /\ (forall c,
        In c (map fst (ResourceUtilization.expenses_by_category r))
        <-> exists e, In e expenses
                      /\ str_or (Expense.category e) "Uncategorized" = c)
  /\ ResourceUtilization.expenses_count r = List.length expenses
  /\ List.length (ResourceUtilization.monthly_expenses r) = 12%nat
  /\ (ResourceUtilization.budget r = None
      <-> DB.budget_of db project_id = None).
Proof.
  unfold AnalyticsService.get_resource_utilization.
  destruct (require_member db project_id user_id); cbn [bind];
    [|discriminate].
  match goal with
  | |- Py.bind ?c _ = _ -> _ => destruct c; cbn [bind]; [|discriminate]
  end.
  intros H. injection H as <-. cbv zeta.
  cbn [ResourceUtilization.total_expenses
       ResourceUtilization.expenses_by_category
       ResourceUtilization.expenses_count
       ResourceUtilization.monthly_expenses ResourceUtilization.budget].
  set (expenses := DB.expenses_of db project_id).
  set (key := fun e : Expense.t => str_or (Expense.category e) "Uncategorized").
  match goal with
  | |- context [fold_left ?f expenses []] =>
      change f with (fun (d : list (string * Q)) (e : Expense.t) =>
                       dict_add String.eqb (key e) (Expense.amount e) d)
  end.
  split; [reflexivity|].
  assert (Hkeys :
            map fst (fold_left
                       (fun d expense =>
                          dict_add String.eqb (key expense)
                                   (Expense.amount expense) d)
                       expenses [])
            = list_set String.eqb (map key expenses)).
  { rewrite (fold_dict_add_keys String.eqb key Expense.amount expenses []).
    reflexivity. }
  split; [rewrite Hkeys; apply string_keys_NoDup|].
  split.
  { intros c. rewrite Hkeys, string_keys_In, in_map_iff.
    split; intros [e [H1 H2]]; exists e; auto. }
  split; [reflexivity|].
  split.
  { unfold AnalyticsService.monthly_expenses, range.
    now rewrite length_rev, length_map, length_seq. }
  destruct (DB.budget_of db project_id); split; intros Hx;
    try discriminate Hx; reflexivity.
Qed.

Lemma resource_utilization_totals_witness :
  exists r,
    AnalyticsService.get_resource_utilization
      Sample.db_three_expenses Sample.now 10 1 = Ok r
    /\ ResourceUtilization.total_expenses r == 60
    /\ map fst (ResourceUtilization.expenses_by_category r)
       = ["Travel"%string]
    /\ ResourceUtilization.expenses_count r = 3%nat.
Proof.
  destruct (AnalyticsService.get_resource_utilization
              Sample.db_three_expenses Sample.now 10 1)
    as [r|] eqn:E; [|vm_compute in E; discriminate].
  destruct (resource_utilization_totals _ _ _ _ r E) as [Ht [_ [_ [Hc _]]]].
  exists r. split; [reflexivity|].
  split; [rewrite Ht; vm_compute; reflexivity|].
  split; [|rewrite Hc; reflexivity].
  vm_compute in E. injection E as <-. reflexivity.
Defined.


Import FinanceService.

Lemma variance_status_is_a_grade (variance_percentage : Q) :
  _get_variance_status variance_percentage <> VarianceAnalysis.error
  /\ _get_variance_status variance_percentage <> VarianceAnalysis.no_budget.
Proof.
  unfold _get_variance_status.
  repeat match goal with
    | |- context [if ?c then _ else _] => destruct c
    end; split; discriminate.
Qed.

Lemma month_variance_returns (now : datetime) (budget : Budget.t)
    (expenses : list Expense.t) (i : nat) :
  exists mv, month_variance now budget expenses i = Ok mv.
Proof.
  unfold month_variance.
  destruct (Qltb 0 (Budget.allocated_amount budget)) eqn:Ea.
  - rewrite truediv_pos by reflexivity. cbn [bind].
    apply Qltb_lt in Ea.
    assert (Hp : Qltb 0 (Budget.allocated_amount budget / 12) = true).
    { apply Qltb_lt. apply Qlt_shift_div_l; [reflexivity | lra]. }
    rewrite Hp.
    assert (Hp' : 0 < Budget.allocated_amount budget / 12)
      by now apply Qltb_lt.
    rewrite truediv_pos by exact Hp'. cbn [bind]. eauto.
  - cbn [bind]. change (Qltb 0 0) with false. cbn [bind]. eauto.
Qed.

(** The categories the variance analysis splits the budget over. *)
Lemma unique_categories_keys (expenses : list Expense.t) :
  fold_left (fun s expense => set_add String.eqb (category_of expense) s)
            expenses []
  = list_set String.eqb (map category_of expenses).
Proof. apply (fold_set_add_keys String.eqb category_of). Qed.


(** For a caller with access the variance analysis never degrades to
    its error response.  Without budget it answers [no_budget]; with a
    budget it grades the variance and reports six monthly buckets and
    one entry per category of the project's expenses ("General" alone
    when there is no expense), in which every expense is counted
    exactly once; the cost drivers are exactly the categories whose
    variance percentage exceeds 20 in absolute value, each with the
    variance of its category, largest absolute variance first. *)
Theorem variance_analysis_returns (db : DB.t) (now : datetime)
    (user_id project_id : Z) (project : Project.t) :
  require_member_or_owner db project_id user_id = Ok project ->
  let expenses := DB.expenses_of db project_id in
  exists p,
    get_budget_variance_analysis db now user_id project_id = Ok p
    /\ VarianceAnalysis.status p <> VarianceAnalysis.error
    /\ (DB.budget_of db project_id = None -> p = no_budget_payload)
    /\ (forall b,
          DB.budget_of db project_id = Some b ->
          VarianceAnalysis.has_budget p = true
          /\ VarianceAnalysis.message p = None
          /\ VarianceAnalysis.status p <> VarianceAnalysis.no_budget
          /\ VarianceAnalysis.budget_amount p
             = round (Budget.allocated_amount b) 2
          /\ VarianceAnalysis.total_spent p
             = round (sum (map Expense.amount expenses)) 2
          /\ List.length (VarianceAnalysis.monthly_variance p) = 6%nat
          /\ NoDup (map fst (VarianceAnalysis.category_analysis p))
          /\ (expenses = [] ->
              map fst (VarianceAnalysis.category_analysis p)
              = ["General"%string])
          /\ (expenses <> [] ->
              forall c,
                In c (map fst (VarianceAnalysis.category_analysis p))
                <-> exists e, In e expenses /\ category_of e = c)
          /\ list_sum (map (fun ca => CategoryAnalysis.expense_count (snd ca))
                           (VarianceAnalysis.category_analysis p))
             = List.length expenses
          /\ StronglySorted
               (fun d1 d2 => abs (CostDriver.variance d2)
                             <= abs (CostDriver.variance d1))
               (VarianceAnalysis.cost_drivers p)
          /\ (forall d,
                In d (VarianceAnalysis.cost_drivers p) ->
                20 < abs (CostDriver.variance_percentage d)
                /\ exists ca,
                     In (CostDriver.category d, ca)
                        (VarianceAnalysis.category_analysis p)
                     /\ CostDriver.variance d = CategoryAnalysis.variance ca
                     /\ CostDriver.variance_percentage d
                        = CategoryAnalysis.variance_percentage ca)
          /\ (forall c ca,
                In (c, ca) (VarianceAnalysis.category_analysis p) ->
                20 < abs (CategoryAnalysis.variance_percentage ca) ->
                exists d,
                  In d (VarianceAnalysis.cost_drivers p)
                  /\ CostDriver.category d = c
                  /\ CostDriver.variance d = CategoryAnalysis.variance ca
                  /\ CostDriver.variance_percentage d
                     = CategoryAnalysis.variance_percentage ca)
          /\ List.length (VarianceAnalysis.cost_drivers p)
             = List.length
                 (filter (fun kv =>
                            Qltb 20 (abs (CategoryAnalysis.variance_percentage
                                            (snd kv))))
                         (VarianceAnalysis.category_analysis p))).
Proof.
  intros Hreq expenses.
  unfold get_budget_variance_analysis, variance_analysis_body.
  rewrite Hreq. cbn [bind]. fold expenses.
  destruct (DB.budget_of db project_id) as [b|] eqn:Eb.
  2:{ exists no_budget_payload. split; [reflexivity|].
      split; [discriminate|]. split; [reflexivity|].
      intros b Hb. discriminate Hb. }
  rewrite unique_categories_keys.
  set (unique := match list_set String.eqb (map category_of expenses) with
                 | [] => ["General"%string]
                 | _ :: _ => list_set String.eqb (map category_of expenses)
                 end).
  assert (Hnd : NoDup unique).
  { unfold unique.
    pose proof (string_keys_NoDup (map category_of expenses)) as H.
    destruct (list_set String.eqb (map category_of expenses));
      [repeat constructor; intros [] | exact H]. }
  assert (Hempty : expenses = [] -> unique = ["General"%string]).
  { intros E. unfold unique. rewrite E. reflexivity. }
  assert (Hcov : expenses <> [] ->
                 forall c, In c unique
                           <-> exists e, In e expenses /\ category_of e = c).
  { intros Hne c.
    assert (Hk : forall c, In c (list_set String.eqb (map category_of expenses))
                           <-> exists e, In e expenses /\ category_of e = c).
    { intros c'. rewrite string_keys_In, in_map_iff.
      split; intros [e [H1 H2]]; exists e; auto. }
    unfold unique.
    destruct (list_set String.eqb (map category_of expenses)) eqn:El;
      [|apply Hk].
    exfalso. destruct expenses as [|e0 l0]; [now apply Hne|].
    assert (Hin : In (category_of e0) []).
    { apply Hk. exists e0. split; [now left | reflexivity]. }
    exact Hin. }
  assert (Hlen : (0 < List.length unique)%nat).
  { unfold unique.
    destruct (list_set String.eqb (map category_of expenses));
      simpl; lia. }
  replace (0 <? List.length unique)%nat with true
    by (symmetry; now apply Nat.ltb_lt).
  rewrite truediv_pos by now apply Qnat_pos. cbn [bind].
  set (planned := Budget.allocated_amount b / Qnat (List.length unique)).
  match goal with
  | |- context [mapM ?f unique] =>
      destruct (mapM_returns f
                  (fun c y =>
                     fst y = c
                     /\ CategoryAnalysis.expense_count (snd y)
                        = List.length
                            (filter (fun e => String.eqb (category_of e) c)
                                    expenses))
                  unique) as [cats [Hcats Fcats]]
  end.
  { intros c _.
    destruct (Qltb 0 planned) eqn:Ep.
    - apply Qltb_lt in Ep. rewrite truediv_pos by exact Ep. cbn [bind].
      eexists. split; [reflexivity|]. split; reflexivity.
    - cbn [bind]. eexists. split; [reflexivity|]. split; reflexivity. }
  rewrite Hcats. cbn [bind].
  destruct (mapM_returns (month_variance now b expenses)
              (fun _ _ => True) (range 6)) as [months [Hmonths Fmonths]].
  { intros i _. destruct (month_variance_returns now b expenses i) as [mv H].
    eauto. }
  rewrite Hmonths. cbn [bind].
  assert (Hvp : exists vp,
             (if Qltb 0 (Budget.allocated_amount b)
              then q <- truediv (sum (map Expense.amount expenses)
                                 - Budget.allocated_amount b)
                                (Budget.allocated_amount b) ;;
                   Ok (q * 100)
              else Ok 0) = Ok vp).
  { destruct (Qltb 0 (Budget.allocated_amount b)) eqn:Ea; [|eauto].
    apply Qltb_lt in Ea. rewrite truediv_pos by exact Ea. cbn [bind]. eauto. }
  destruct Hvp as [vp Hvp]. rewrite Hvp. cbn [bind].
  eexists. split; [reflexivity|].
  cbn [VarianceAnalysis.status VarianceAnalysis.has_budget
       VarianceAnalysis.message VarianceAnalysis.budget_amount
       VarianceAnalysis.total_spent VarianceAnalysis.monthly_variance
       VarianceAnalysis.category_analysis VarianceAnalysis.cost_drivers].
  destruct (variance_status_is_a_grade vp) as [Hne Hnb].
  split; [exact Hne|]. split; [intros Hx; discriminate Hx|].
  intros b0 Hb0. injection Hb0 as <-.
  assert (Hfst : map fst cats = unique).
  { clear - Fcats. induction Fcats as [|c y l ys [Hy _] _ IH]; simpl;
      [reflexivity | now rewrite Hy, IH]. }
  split; [reflexivity|]. split; [reflexivity|]. split; [exact Hnb|].
  split; [reflexivity|]. split; [reflexivity|].
  split.
  { rewrite length_rev. now rewrite (Forall2_length_eq _ _ _ Fmonths). }
  split; [now rewrite Hfst|].
  split; [intros E; rewrite Hfst; now apply Hempty|].
  split; [intros Hne' c; rewrite Hfst; now apply Hcov|].
  split.
  { assert (Hsum : list_sum (map (fun ca => CategoryAnalysis.expense_count (snd ca)) cats)
                   = list_sum (map (fun c => List.length
                                               (filter (fun e => String.eqb (category_of e) c)
                                                       expenses)) unique)).
    { clear - Fcats. induction Fcats as [|c y l ys [_ Hy] _ IH]; simpl;
        [reflexivity | now rewrite Hy, IH]. }
    rewrite Hsum.
    apply (groups_partition String.eqb String.eqb_eq category_of);
      [exact Hnd|].
    intros e He. apply Hcov.
    - intros E. rewrite E in He. exact He.
    - eauto. }
  split; [apply sorted_desc_sorted|].
  split.
  { intros d Hd.
    apply (Permutation_in d (sorted_desc_perm cost_driver_key _)) in Hd.
    apply in_flat_map in Hd as [[c ca] [Hin Hd]].
    destruct (Qltb 20 (abs (CategoryAnalysis.variance_percentage ca)))
      eqn:E20; [|contradiction].
    destruct Hd as [<-|[]]. cbn [CostDriver.variance_percentage
                                   CostDriver.category CostDriver.variance].
    split; [now apply Qltb_lt|]. exists ca. auto. }
  split.
  { intros c ca Hin H20. apply Qltb_lt in H20.
    eexists. split.
    - apply (Permutation_in _
               (Permutation_sym (sorted_desc_perm cost_driver_key _))).
      apply in_flat_map. exists (c, ca). split; [exact Hin|].
      cbv beta iota. rewrite H20. left. reflexivity.
    - cbn [CostDriver.category CostDriver.variance
           CostDriver.variance_percentage]. auto. }
  rewrite (Permutation_length (sorted_desc_perm cost_driver_key _)).
  generalize cats. intros l.
  induction l as [|[c ca] l IH]; [reflexivity|].
  cbn [flat_map filter snd]. rewrite length_app, IH.
  destruct (Qltb 20 (abs (CategoryAnalysis.variance_percentage ca)));
    reflexivity.
Qed.

Lemma variance_analysis_returns_witness :
  exists p,
    get_budget_variance_analysis Sample.db_three_expenses Sample.now 1 10
    = Ok p
    /\ VarianceAnalysis.status p = VarianceAnalysis.critical_variance
    /\ map fst (VarianceAnalysis.category_analysis p) = ["Travel"%string]
    /\ map CostDriver.category (VarianceAnalysis.cost_drivers p)
       = ["Travel"%string].
Proof.
  destruct (variance_analysis_returns Sample.db_three_expenses Sample.now
              1 10 Sample.apollo eq_refl) as [p [Hp _]].
  exists p. split; [exact Hp|].
  vm_compute in Hp. injection Hp as <-. repeat split; reflexivity.
Defined.

End Views.
(** ** The recommendations of the cost analysis *)

Section Cost.
Local Open Scope Q_scope.
Import FinanceService.

Lemma fold_max_spec (l : list (string * Q)) (x : string * Q) :
  let r := fold_left (fun best y => if Qltb (snd best) (snd y) then y else best)
                     l x in
  In r (x :: l) /\ forall y, In y (x :: l) -> snd y <= snd r.
Proof.
  revert x. induction l as [|a l IH]; intros x; cbn zeta; simpl fold_left.
  - split; [now left|]. intros y [<-|[]]. apply Qle_refl.
  - destruct (IH (if Qltb (snd x) (snd a) then a else x)) as [Hin Hmax].
    split.
    + destruct Hin as [Hin|Hin]; [|right; now right].
      rewrite <- Hin. destruct (Qltb (snd x) (snd a)); [right|]; now left.
    + assert (Hx : snd (if Qltb (snd x) (snd a) then a else x)
                   <= snd (fold_left
                             (fun best y =>
                                if Qltb (snd best) (snd y) then y else best)
                             l (if Qltb (snd x) (snd a) then a else x)))
        by (apply Hmax; now left).
      intros y [<-|[<-|Hy]].
      * destruct (Qltb (snd x) (snd a)) eqn:E; [|exact Hx].
        apply Qltb_lt in E. eapply Qle_trans; [|exact Hx].
        now apply Qlt_le_weak.
      * destruct (Qltb (snd x) (snd a)) eqn:E; [exact Hx|].
        apply Qltb_ge in E. eapply Qle_trans; [exact E | exact Hx].
      * apply Hmax. now right.
Qed.

(** The recommendations of the cost analysis need a non-empty table of
    category totals: on an empty one [max] raises ValueError.  Otherwise
    the list ends with the advice on regular audits, so it is never
    empty, and a category is singled out for review only when it has
    the largest total and that total exceeds 40% of the spending. *)
Theorem cost_recommendations (opportunities : list Opportunity.t)
    (category_totals : list (string * Q))
    (cost_efficiency : option CostEfficiency.t) :
  match category_totals with
  | [] =>
      _generate_cost_optimization_recommendations
        opportunities category_totals cost_efficiency
      = Raise (ValueError "max() arg is an empty sequence")
  | _ :: _ =>
      exists recs,
        _generate_cost_optimization_recommendations
          opportunities category_totals cost_efficiency
        = Ok (recs ++ [Advice.regular_expense_audits])
        /\ forall c,
             In (Advice.largest_category_review c) recs ->
             exists v,
               In (c, v) category_totals
               /\ (forall kv, In kv category_totals -> snd kv <= v)
               /\ sum (map snd category_totals) * (4#10) < v
  end.
Proof.
  destruct category_totals as [|x l]; [reflexivity|].
  unfold _generate_cost_optimization_recommendations, max_item.
  cbn [bind].
  destruct (fold_max_spec l x) as [Hin Hmax].
  set (largest := fold_left
                    (fun best y => if Qltb (snd best) (snd y) then y else best)
                    l x) in *.
  match goal with
  | |- context [Ok (?r ++ [Advice.regular_expense_audits])] =>
      exists r; split; [reflexivity|]
  end.
  intros c Hc.
  repeat match type of Hc with
         | In _ (match ?o with _ => _ end) =>
             let E := fresh "E" in destruct o eqn:E
         | In _ (if ?b then _ else _) =>
             let E := fresh "E" in destruct b eqn:E
         | In _ (_ ++ _) =>
             apply in_app_or in Hc; destruct Hc as [Hc|Hc]
         | In _ [_] => destruct Hc as [Hc|[]]
         | In _ [] => destruct Hc
         | _ = Advice.largest_category_review _ =>
             first [discriminate Hc | injection Hc as <-]
         end;
  try (exists (snd largest); split;
       [ rewrite <- surjective_pairing; exact Hin
       | split; [exact Hmax | now apply Qltb_lt] ]).
Qed.

End Cost.
(** ** Expense forecasting: the forecast itself *)

Section ForecastMore.
Local Open Scope Q_scope.
Import FinanceService.

Lemma round_nonneg (x : Q) (n : nat) : 0 <= x -> 0 <= round x n.
Proof.
  intros H.
  assert (E : round 0 n == 0).
  { unfold round. rewrite Qred_correct.
    rewrite (round_half_even_comp (0 * inject_Z (10 ^ Z.of_nat n)) 0)
      by ring.
    change (round_half_even 0) with 0%Z. change (inject_Z 0) with 0.
    unfold Qdiv. ring. }
  rewrite <- E. now apply round_le.
Qed.















End ForecastMore.
(** ** Trend analysis and performance prediction *)

Section Trends.
Local Open Scope Q_scope.
Import AnalyticsService.

Section Counters.
Context {K : Type} (eqb : K -> K -> bool).

Lemma tally_add_counted (k : K) (c : bool) (d : list (K * (nat * nat))) :
  Forall (fun kv => (snd (snd kv) <= fst (snd kv))%nat) d ->
  Forall (fun kv => (snd (snd kv) <= fst (snd kv))%nat)
         (tally_add eqb k c d).
Proof.
  induction 1 as [|[k' [created completed]] d Hx Hd IH]; simpl.
  - constructor; [|constructor]. destruct c; simpl; lia.
  - simpl in Hx.
    destruct (eqb k' k); constructor; try assumption; simpl;
      destruct c; lia.
Qed.

Lemma tally_by_counted (key : datetime -> K) (tasks : list Task.t) :
  Forall (fun kv => (snd (snd kv) <= fst (snd kv))%nat)
         (tally_by eqb key tasks).
Proof.
  unfold tally_by.
  assert (H : forall d,
             Forall (fun kv => (snd (snd kv) <= fst (snd kv))%nat) d ->
             Forall (fun kv => (snd (snd kv) <= fst (snd kv))%nat)
                    (fold_left
                       (fun d task =>
                          match Task.created_at task with
                          | Some created =>
                              tally_add eqb (key created)
                                        (is_completed task) d
                          | None => d
                          end) tasks d)).
  { induction tasks as [|t l IH]; intros d Hd; simpl; [exact Hd|].
    apply IH. destruct (Task.created_at t); [|exact Hd].
    now apply tally_add_counted. }
  apply H. constructor.
Qed.

Lemma tally_get_counted (k : K) (d : list (K * (nat * nat))) :
  Forall (fun kv => (snd (snd kv) <= fst (snd kv))%nat) d ->
  (snd (tally_get eqb k d) <= fst (tally_get eqb k d))%nat.
Proof.
  intros Hd. unfold tally_get.
  destruct (find (fun kv => eqb (fst kv) k) d) as [kv|] eqn:E;
    [|simpl; lia].
  apply find_some in E as [Hin _]. rewrite Forall_forall in Hd.
  exact (Hd _ Hin).
Qed.
End Counters.

Lemma rate_of_bounds (counters : nat * nat) :
  (snd counters <= fst counters)%nat ->
  exists q, rate_of counters = Ok q /\ 0 <= q <= 100.
Proof.
  destruct counters as [created completed]. simpl. intros H.
  unfold rate_of.
  rewrite truediv_pos by (apply Qnat_pos; lia). cbn [bind].
  eexists. split; [reflexivity|].
  apply percentage_bounds; lia.
Qed.

Lemma mean_bounds (lo hi : Q) (l : list Q) (m : Q) :
  Forall (fun x => lo <= x <= hi) l -> np_mean l = Some m -> lo <= m <= hi.
Proof.
  intros Hall Hm. destruct l as [|x l]; [discriminate Hm|].
  injection Hm as <-.
  assert (Hs : forall l', Forall (fun x => lo <= x <= hi) l' ->
                          lo * Qnat (List.length l') <= sum l'
                          /\ sum l' <= hi * Qnat (List.length l')).
  { clear. induction 1 as [|y l' Hy _ IH].
    - change (sum []) with 0. change (Qnat (List.length [])) with 0. lra.
    - cbv beta in Hy. cbn [List.length].
      assert (E : Qnat (S (List.length l')) == Qnat (List.length l') + 1).
      { unfold Qnat. rewrite Nat2Z.inj_succ. unfold Z.succ.
        rewrite inject_Z_plus. reflexivity. }
      rewrite sum_cons, E. lra. }
  destruct (Hs _ Hall) as [Hlo Hhi].
  assert (Hpos : 0 < Qnat (List.length (x :: l)))
    by (apply Qnat_pos; simpl; lia).
  split.
  - apply Qle_shift_div_l; [exact Hpos | exact Hlo].
  - apply Qle_shift_div_r; [exact Hpos | exact Hhi].
Qed.

Lemma Forall_last_n {A} (P : A -> Prop) (n : nat) (l : list A) :
  Forall P l -> Forall P (last_n n l).
Proof.
  intros H. unfold last_n.
  rewrite <- (firstn_skipn (List.length l - n) l) in H.
  now apply Forall_app in H.
Qed.

Lemma Forall_slice_from_end {A} (P : A -> Prop) (a b : nat) (l : list A) :
  Forall P l -> Forall P (slice_from_end a b l).
Proof.
  intros H. unfold slice_from_end.
  rewrite <- (firstn_skipn (List.length l - a) l) in H.
  apply Forall_app in H as [_ H].
  rewrite <- (firstn_skipn (List.length l - b - (List.length l - a))
                           (skipn (List.length l - a) l)) in H.
  now apply Forall_app in H.
Qed.

Lemma abs_nonneg (x : Q) : 0 <= abs x.
Proof.
  unfold abs. destruct (Qle_bool 0 x) eqn:E.
  - now apply Qle_bool_iff.
  - assert (H : ~ 0 <= x) by (intros H; apply Qle_bool_iff in H; congruence).
    lra.
Qed.

Lemma minus_days_cases (t : datetime) (n : Z) :
  minus_days t n
  = if (Z.abs n <=? 999999999)%Z
       && (datetime_min <=? t - DateTime.days n)%Z
       && (t - DateTime.days n <=? datetime_max)%Z
    then Ok (t - DateTime.days n)%Z
    else Raise OverflowError.
Proof.
  unfold minus_days.
  destruct (999999999 <? Z.abs n)%Z eqn:E1.
  - apply Z.ltb_lt in E1.
    replace (Z.abs n <=? 999999999)%Z with false
      by (symmetry; apply Z.leb_gt; exact E1).
    reflexivity.
  - apply Z.ltb_ge in E1.
    replace (Z.abs n <=? 999999999)%Z with true
      by (symmetry; apply Z.leb_le; exact E1).
    cbn [andb].
    destruct (t - DateTime.days n <? datetime_min)%Z eqn:E2.
    + apply Z.ltb_lt in E2.
      replace (datetime_min <=? t - DateTime.days n)%Z with false
        by (symmetry; apply Z.leb_gt; exact E2).
      reflexivity.
    + apply Z.ltb_ge in E2.
      replace (datetime_min <=? t - DateTime.days n)%Z with true
        by (symmetry; apply Z.leb_le; exact E2).
      cbn [andb orb].
      destruct (datetime_max <? t - DateTime.days n)%Z eqn:E3.
      * apply Z.ltb_lt in E3.
        replace (t - DateTime.days n <=? datetime_max)%Z with false
          by (symmetry; apply Z.leb_gt; exact E3).
        reflexivity.
      * apply Z.ltb_ge in E3.
        replace (t - DateTime.days n <=? datetime_max)%Z with true
          by (symmetry; apply Z.leb_le; exact E3).
        reflexivity.
Qed.

(** The trend analysis raises OverflowError when more than 999999999
    days are asked for or when the period would start outside the range
    of [datetime] (years 1 to 9999).  Otherwise it answers: the period
    runs from the start date to now; there is one entry per day of the
    period, oldest first and ending with today; on each day the
    completed tasks are among the created ones and the score lies
    between 0 and 100, as do the two averages; the velocity is never
    negative; there are one or two insights, the first of which is the
    one on the direction of the trend. *)
Theorem trend_analysis_returns (db : DB.t) (now : datetime) (user_id : Z)
    (project_id : option Z) (days : Z) :
  if (Z.abs days <=? 999999999)%Z
     && (datetime_min <=? now - DateTime.days days)%Z
     && (now - DateTime.days days <=? datetime_max)%Z
  then
    exists p,
      get_trend_analysis db now user_id project_id days = Ok p
      /\ TrendAnalysis.period p = ((now - DateTime.days days)%Z, now)
      /\ map DayEntry.date (TrendAnalysis.productivity_trend p)
         = rev (map (fun i => strftime_Ymd (now - DateTime.days (Z.of_nat i))%Z)
                    (range (Z.to_nat days)))
      /\ Forall (fun d =>
                   (DayEntry.tasks_completed d <= DayEntry.tasks_created d)%nat
                   /\ 0 <= DayEntry.productivity_score d <= 100)
                (TrendAnalysis.productivity_trend p)
      /\ 0 <= TrendSummary.recent_average (TrendAnalysis.trend_summary p) <= 100
      /\ 0 <= TrendSummary.earlier_average (TrendAnalysis.trend_summary p) <= 100
      /\ 0 <= TrendSummary.velocity (TrendAnalysis.trend_summary p)
      /\ exists first more,
           TrendAnalysis.insights p = first :: more
           /\ match TrendSummary.direction (TrendAnalysis.trend_summary p) with
              | improving => first = Insight.strong_improvement
                             \/ first = Insight.gradual_improvement
              | declining => first = Insight.significant_decline
                             \/ first = Insight.slight_decline
              | stable => first = Insight.stable_levels
              end
           /\ (more = [] \/ more = [Insight.excellent_performance]
               \/ more = [Insight.consider_breaking_down])
  else
    get_trend_analysis db now user_id project_id days = Raise OverflowError.
Proof.
  unfold get_trend_analysis. rewrite minus_days_cases.
  destruct ((Z.abs days <=? 999999999)%Z
            && (datetime_min <=? now - DateTime.days days)%Z
            && (now - DateTime.days days <=? datetime_max)%Z);
    [|reflexivity].
  cbn [bind].
  set (tasks := tasks_created_since db user_id project_id
                  (now - DateTime.days days)%Z).
  set (daily_data := tally_by Ymd_eqb strftime_Ymd tasks).
  match goal with
  | |- context [mapM ?f (range (Z.to_nat days))] =>
      destruct (mapM_returns f
                  (fun i d =>
                     DayEntry.date d
                     = strftime_Ymd (now - DateTime.days (Z.of_nat i))%Z
                     /\ (DayEntry.tasks_completed d
                         <= DayEntry.tasks_created d)%nat
                     /\ 0 <= DayEntry.productivity_score d <= 100)
                  (range (Z.to_nat days))) as [trend [Htrend Ftrend]]
  end.
  { intros i _.
    pose proof (tally_get_counted Ymd_eqb
                  (strftime_Ymd (now - DateTime.days (Z.of_nat i))%Z)
                  daily_data (tally_by_counted Ymd_eqb strftime_Ymd tasks))
      as Hc.
    destruct (rate_of_bounds _ Hc) as [q [Hq Bq]]. rewrite Hq. cbn [bind].
    eexists. split; [reflexivity|].
    cbn [DayEntry.date DayEntry.tasks_completed DayEntry.tasks_created
         DayEntry.productivity_score].
    split; [reflexivity|]. split; [exact Hc|].
    now apply round_0_100. }
  rewrite Htrend. cbn [bind].
  eexists. split; [reflexivity|].
  cbn [TrendAnalysis.period TrendAnalysis.productivity_trend
       TrendAnalysis.trend_summary
       TrendAnalysis.insights TrendSummary.recent_average
       TrendSummary.earlier_average TrendSummary.velocity
       TrendSummary.direction].
  assert (Hdates : map DayEntry.date trend
                   = map (fun i => strftime_Ymd
                                     (now - DateTime.days (Z.of_nat i))%Z)
                         (range (Z.to_nat days))).
  { clear - Ftrend. induction Ftrend as [|i d l ds [Hd _] _ IH]; simpl;
      [reflexivity | now rewrite Hd, IH]. }
  assert (Hall : Forall (fun d =>
                           (DayEntry.tasks_completed d
                            <= DayEntry.tasks_created d)%nat
                           /\ 0 <= DayEntry.productivity_score d <= 100)
                        (rev trend)).
  { apply Forall_rev. clear - Ftrend.
    induction Ftrend as [|i d l ds [_ Hd] _ IH]; constructor; auto. }
  assert (Hscores : forall l : list DayEntry.t,
             Forall (fun d =>
                       (DayEntry.tasks_completed d
                        <= DayEntry.tasks_created d)%nat
                       /\ 0 <= DayEntry.productivity_score d <= 100) l ->
             0 <= match np_mean (map DayEntry.productivity_score l) with
                  | Some m => m
                  | None => 0
                  end <= 100).
  { intros l Hl.
    destruct (np_mean (map DayEntry.productivity_score l)) as [m|] eqn:Em;
      [|lra].
    apply (mean_bounds 0 100 (map DayEntry.productivity_score l) m);
      [|exact Em].
    apply Forall_forall. intros x Hx. apply in_map_iff in Hx as [d [<- Hd]].
    rewrite Forall_forall in Hl. now apply Hl. }
  split; [reflexivity|].
  split; [rewrite map_rev; now rewrite Hdates|].
  split; [exact Hall|].
  split; [apply round_0_100, Hscores; now apply Forall_last_n|].
  split; [apply round_0_100, Hscores; now apply Forall_slice_from_end|].
  split; [apply round_nonneg, abs_nonneg|].
  unfold _generate_trend_insights.
  match goal with
  | |- context [Qltb ?e ?r] =>
      destruct (Qltb e r); [|destruct (Qltb r e)]
  end.
  all: cbn [app].
  all: repeat match goal with
         | |- context [Qltb ?a ?b] => destruct (Qltb a b)
         | |- context [match np_mean ?l with _ => _ end] =>
             destruct (np_mean l)
         end.
  all: cbn [app]; do 2 eexists; split; [reflexivity|]; split; auto.
Qed.


Lemma linear_regression_returns (y : list Q) :
  y <> [] -> exists slope intercept, linear_regression y = Ok (slope, intercept).
Proof.
  intros Hne. unfold linear_regression.
  match goal with
  | |- context [bind ?s _] => assert (Hs : exists slope, s = Ok slope)
  end.
  { match goal with
    | |- context [Qeq_bool ?d 0] => destruct (Qeq_bool d 0) eqn:E
    end; simpl; [eauto|].
    unfold truediv. rewrite E. eauto. }
  destruct Hs as [slope Hs]. rewrite Hs. cbn [bind].
  rewrite truediv_pos.
  - cbn [bind]. eauto.
  - apply Qnat_pos. unfold range. rewrite length_map, length_seq.
    destruct y; [now elim Hne | simpl; lia].
Qed.

Lemma clamp_0_100 (x : Q) : 0 <= Qmax 0 (Qmin 100 x) <= 100.
Proof.
  unfold Qmax, Qmin.
  destruct (Qle_bool 100 x) eqn:E1.
  - destruct (Qle_bool 0 100) eqn:E2; lra.
  - destruct (Qle_bool 0 x) eqn:E2.
    + apply Qle_bool_iff in E2.
      assert (H : ~ 100 <= x)
        by (intros H; apply Qle_bool_iff in H; congruence).
      lra.
    + lra.
Qed.

(** The performance prediction always answers.  With tasks of fewer
    than three calendar weeks in the last 60 days it reports
    insufficient data: confidence low, rate 0, trend unknown and no
    recommendations.  Otherwise it reports the number of weeks as its
    data points, a predicted rate and a historical average between 0
    and 100, a trend and a list of recommendations. *)
Theorem performance_prediction_returns (db : DB.t) (now : datetime)
    (user_id : Z) (project_id : option Z) :
  let weeks :=
    tally_by Ym_eqb strftime_YWU
      (tasks_created_since db user_id project_id
         (now - DateTime.days 60)%Z) in
  exists p,
    get_performance_prediction db now user_id project_id = Ok p
    /\ ((List.length weeks < 3)%nat ->
        p = PerformancePrediction.mk 0 None None low true None None None)
    /\ ((3 <= List.length weeks)%nat ->
        PerformancePrediction.insufficient_data p = false
        /\ PerformancePrediction.data_points p = Some (List.length weeks)
        /\ 0 <= PerformancePrediction.predicted_weekly_completion_rate p
             <= 100
        /\ (exists average,
              PerformancePrediction.historical_average p = Some average
              /\ 0 <= average <= 100)
        /\ PerformancePrediction.trend p <> None
        /\ PerformancePrediction.trend_slope p <> None
        /\ PerformancePrediction.recommendations p <> None).
Proof.
  intros weeks. unfold get_performance_prediction. fold weeks.
  destruct (mapM_returns (fun kv : Z * Z * (nat * nat) => rate_of (snd kv))
              (fun _ q => 0 <= q <= 100) weeks) as [rates [Hrates Frates]].
  { intros kv Hin. apply rate_of_bounds.
    pose proof (tally_by_counted Ym_eqb strftime_YWU
                  (tasks_created_since db user_id project_id
                     (now - DateTime.days 60)%Z)) as Hc.
    rewrite Forall_forall in Hc. exact (Hc _ Hin). }
  rewrite Hrates. cbn [bind].
  pose proof (Forall2_length_eq _ _ _ Frates) as Hlen.
  rewrite Hlen.
  destruct (List.length weeks <? 3)%nat eqn:E3.
  - apply Nat.ltb_lt in E3. eexists. split; [reflexivity|].
    split; [reflexivity | lia].
  - apply Nat.ltb_ge in E3.
    destruct (linear_regression_returns rates) as [slope [intercept Hl]].
    { intros E. rewrite E in Hlen. simpl in Hlen. lia. }
    rewrite Hl. cbn [bind].
    eexists. split; [reflexivity|]. split; [lia|]. intros _.
    cbn [PerformancePrediction.insufficient_data
         PerformancePrediction.data_points
         PerformancePrediction.predicted_weekly_completion_rate
         PerformancePrediction.historical_average
         PerformancePrediction.trend PerformancePrediction.trend_slope
         PerformancePrediction.recommendations].
    split; [reflexivity|]. split; [reflexivity|].
    split; [apply round_0_100, clamp_0_100|].
    split.
    { destruct (np_mean rates) as [m|] eqn:Em.
      - eexists. split; [reflexivity|]. apply round_0_100.
        apply (mean_bounds 0 100 rates m); [|exact Em].
        clear - Frates. induction Frates; constructor; auto.
      - destruct rates; [simpl in Hlen; lia | discriminate Em]. }
    repeat split; discriminate.
Qed.


(** The performance recommendations have no fallback message: the list
    is empty exactly when the trend is stable, the predicted rate lies
    between 50 and 80 and the confidence is not low. *)
Theorem performance_recommendations_empty_iff (trend : trend)
    (predicted_rate : Q) (confidence : confidence) :
  _generate_performance_recommendations trend predicted_rate confidence = []
  <-> trend = stable
      /\ 50 <= predicted_rate <= 80
      /\ confidence <> low.
Proof.
  unfold _generate_performance_recommendations.
  destruct (Qltb predicted_rate 50) eqn:E50;
    [|destruct (Qltb 80 predicted_rate) eqn:E80].
  - apply Qltb_lt in E50. split.
    + destruct trend, confidence; intros H; discriminate H.
    + intros [_ [[H _] _]]. lra.
  - apply Qltb_lt in E80. split.
    + destruct trend, confidence; intros H; discriminate H.
    + intros [_ [[_ H] _]]. lra.
  - apply Qltb_ge in E50. apply Qltb_ge in E80. split.
    + destruct trend, confidence; intros H; try discriminate H;
        (split; [reflexivity|]; split; [split; assumption|]);
        intros Hx; discriminate Hx.
    + intros [-> [_ Hc]]. destruct confidence; try reflexivity.
      now elim Hc.
Qed.

End Trends.
(** ** The user dashboard *)

Section DashboardFacts.
Local Open Scope Q_scope.
Import AnalyticsService.

Lemma get_productivity_metrics_totals (db : DB.t) (now : datetime)
    (user_id : Z) (project_id : option Z) :
  let query := filter (fun t => (Task.owner_id t =? user_id)%Z) (DB.tasks db) in
  let tasks :=
    match project_id with
    | Some p =>
        if (p =? 0)%Z then query
        else filter (fun t => (Task.project_id t =? p)%Z) query
    | None => query
    end in
  exists m,
    get_productivity_metrics db now user_id project_id = Ok m
    /\ ProductivityMetrics.total_tasks m = List.length tasks
    /\ ProductivityMetrics.completed_tasks m
       = List.length (filter is_completed tasks).
Proof.
  intros query tasks. unfold get_productivity_metrics. fold query. fold tasks.
  match goal with
  | |- context [bind ?c _] => assert (Hc : exists rate, c = Ok rate)
  end.
  { destruct (0 <? List.length tasks)%nat eqn:E; [|eauto].
    apply Nat.ltb_lt in E. rewrite truediv_pos by now apply Qnat_pos.
    cbn [bind]. eauto. }
  destruct Hc as [rate Hc]. rewrite Hc. cbn [bind].
  match goal with
  | |- context [bind ?c _] => assert (Ha : exists avg, c = Ok avg)
  end.
  { match goal with
    | |- context [match ?l with [] => _ | _ :: _ => _ end] =>
        destruct l as [|x l'] eqn:El
    end; [eauto|].
    rewrite truediv_pos by (apply Qnat_pos; simpl; lia). eauto. }
  destruct Ha as [avg Ha]. rewrite Ha. cbn [bind].
  eexists. split; [reflexivity|]. split; reflexivity.
Qed.

Lemma get_resource_utilization_returns (db : DB.t) (now : datetime)
    (project_id user_id : Z) (project : Project.t) :
  require_member db project_id user_id = Ok project ->
  exists r, get_resource_utilization db now project_id user_id = Ok r.
Proof.
  intros Hreq. unfold get_resource_utilization. rewrite Hreq. cbn [bind].
  destruct (filter is_completed (DB.tasks_of db project_id)) eqn:E.
  - cbn [bind]. eauto.
  - rewrite truediv_pos by (apply Qnat_pos; simpl; lia). cbn [bind]. eauto.
Qed.

Lemma filter_filter_length {A} (p q : A -> bool) (l : list A) :
  (List.length (filter p (filter q l)) <= List.length (filter p l))%nat.
Proof.
  induction l as [|x l IH]; simpl; [lia|].
  destruct (q x), (p x) eqn:E; simpl; rewrite ?E; simpl; lia.
Qed.

Lemma get_project_health_counts (db : DB.t) (now : datetime)
    (project_id user_id : Z) (h : ProjectHealth.t) :
  get_project_health db now project_id user_id = Ok h ->
  DB.tasks_of db project_id <> [] ->
  ProjectHealth.total_tasks h = List.length (DB.tasks_of db project_id)
  /\ ProjectHealth.overdue_tasks h
     = Some (List.length (filter (Task.is_overdue now)
                                 (DB.tasks_of db project_id))).
Proof.
  unfold get_project_health.
  destruct (require_member db project_id user_id); cbn [bind];
    [|discriminate].
  destruct (DB.tasks_of db project_id) as [|t l] eqn:E.
  - intros _ H. now elim H.
  - rewrite <- E. destruct (fold_left _ _ _) as [otc td].
    repeat match goal with
      | |- Py.bind ?c _ = _ -> _ =>
          destruct c; cbn [bind]; [|discriminate]
      end.
    intros H _. injection H as <-. split; reflexivity.
Qed.

Lemma project_summary_cases (db : DB.t) (now : datetime) (user_id : Z)
    (project : Project.t) :
  let s := project_summary db now user_id project in
  ProjectSummary.id s = Project.id project
  /\ ProjectSummary.name s = Project.name project
  /\ 0 <= ProjectSummary.health_score s <= 100
  /\ (ProjectSummary.status s = None -> s = minimal_summary project).
Proof.
  cbv zeta. unfold project_summary.
  destruct (get_project_health db now (Project.id project) user_id)
    as [h|e] eqn:Eh.
  - destruct (ProjectHealth.overdue_tasks h) as [n|].
    + cbn [ProjectSummary.id ProjectSummary.name ProjectSummary.health_score
           ProjectSummary.status].
      split; [reflexivity|]. split; [reflexivity|].
      split; [|intros Hx; discriminate Hx].
      destruct (health_score_status db now _ _ h Eh) as [s [Hs [-> _]]].
      now apply round_0_100.
    + unfold minimal_summary. cbn. repeat split; lra.
  - unfold minimal_summary. cbn. repeat split; lra.
Qed.

Lemma length_last_n {A} (n : nat) (l : list A) :
  (List.length (last_n n l) <= n)%nat.
Proof. unfold last_n. rewrite length_skipn. lia. Qed.

(** The dashboard of an unknown user raises NotFound.  For a known user
    it always answers: one summary per project of the user, in the
    order of the projects, each with a score between 0 and 100; the
    three counts of the status distribution add up to the number of
    tasks the dashboard reports, its count of completed tasks is the
    one of the distribution, and the recent activity has at most ten
    entries. *)
Theorem dashboard_returns (db : DB.t) (users : list Account.t)
    (now : datetime) (user_id : Z) :
  match find (fun u => (Account.id u =? user_id)%Z) users with
  | None => get_user_dashboard db users now user_id = Raise NotFound
  | Some user =>
      exists p,
        get_user_dashboard db users now user_id = Ok p
        /\ Dashboard.projects_count p = List.length (Account.projects user)
        /\ map ProjectSummary.id (Dashboard.project_summaries p)
           = map Project.id (Account.projects user)
        /\ map ProjectSummary.name (Dashboard.project_summaries p)
           = map Project.name (Account.projects user)
        /\ Forall (fun s => 0 <= ProjectSummary.health_score s <= 100)
                  (Dashboard.project_summaries p)
        /\ Dashboard.total_tasks p
           = List.length (filter (fun t => (Task.owner_id t =? user_id)%Z)
                                 (DB.tasks db))
        /\ (StatusDistribution.pending (Dashboard.status_distribution p)
            + StatusDistribution.in_progress (Dashboard.status_distribution p)
            + StatusDistribution.completed (Dashboard.status_distribution p)
            = Dashboard.total_tasks p)%nat
        /\ Dashboard.completed_tasks p
           = StatusDistribution.completed (Dashboard.status_distribution p)
        /\ (List.length (Dashboard.recent_activity p) <= 10)%nat
  end.
Proof.
  unfold get_user_dashboard, get_user_or_404.
  destruct (find (fun u => (Account.id u =? user_id)%Z) users) as [user|];
    [|reflexivity].
  cbn [bind].
  destruct (get_productivity_metrics_totals db now user_id None)
    as [m [Hm [Ht Hc]]].
  rewrite Hm.
  eexists. split; [reflexivity|].
  cbn [Dashboard.projects_count Dashboard.project_summaries
       Dashboard.total_tasks Dashboard.status_distribution
       Dashboard.completed_tasks Dashboard.recent_activity
       StatusDistribution.pending StatusDistribution.in_progress
       StatusDistribution.completed].
  split; [reflexivity|].
  split.
  { rewrite map_map. apply map_ext. intros project.
    apply (project_summary_cases db now user_id project). }
  split.
  { rewrite map_map. apply map_ext. intros project.
    apply (project_summary_cases db now user_id project). }
  split.
  { apply Forall_forall. intros s Hs.
    apply in_map_iff in Hs as [project [<- _]].
    apply (project_summary_cases db now user_id project). }
  split; [exact Ht|].
  split.
  { rewrite Ht.
    pose proof (status_partition
                  (filter (fun t => (Task.owner_id t =? user_id)%Z)
                          (DB.tasks db))) as Hp.
    lia. }
  split; [exact Hc|].
  rewrite length_map. apply length_last_n.
Qed.

(** A project without tasks is shown on the dashboard as "unknown" with
    score 0, whoever asks: the health report of an empty project has no
    count of overdue tasks, and the dashboard falls back to its minimal
    summary.  The health report itself calls the same project healthy,
    with score 100, when a member asks for it. *)
Theorem project_without_tasks_is_unknown (db : DB.t) (now : datetime)
    (user_id : Z) (project : Project.t) :
  DB.tasks_of db (Project.id project) = [] ->
  project_summary db now user_id project
  = ProjectSummary.mk (Project.id project) (Project.name project) 0 None 0 0
  /\ forall p,
       require_member db (Project.id project) user_id = Ok p ->
       exists h,
         get_project_health db now (Project.id project) user_id = Ok h
         /\ ProjectHealth.status h = HealthStatus.healthy
         /\ ProjectHealth.health_score h = 100.
Proof.
  intros Hempty. unfold project_summary, get_project_health.
  rewrite Hempty.
  destruct (require_member db (Project.id project) user_id) as [p0|e];
    cbn [bind].
  - split; [reflexivity|]. intros p _. eexists. split; [reflexivity|].
    split; reflexivity.
  - split; [reflexivity|]. intros p Hp. discriminate Hp.
Qed.

Lemma project_without_tasks_is_unknown_witness :
  ProjectSummary.status
    (project_summary Sample.db_no_budget Sample.now 1 Sample.apollo)
  = None.
Proof.
  destruct (project_without_tasks_is_unknown Sample.db_no_budget Sample.now
              1 Sample.apollo eq_refl) as [H _].
  rewrite H. reflexivity.
Defined.

(** For a member, a project with tasks is summarised from its health
    report: its score and status, the number of its tasks and the number
    of its overdue tasks. *)
Theorem project_summary_mirrors_health (db : DB.t) (now : datetime)
    (user_id : Z) (project p : Project.t) :
  require_member db (Project.id project) user_id = Ok p ->
  DB.tasks_of db (Project.id project) <> [] ->
  exists h,
    get_project_health db now (Project.id project) user_id = Ok h
    /\ project_summary db now user_id project
       = ProjectSummary.mk (Project.id project) (Project.name project)
           (ProjectHealth.health_score h)
           (Some (ProjectHealth.status h))
           (List.length (DB.tasks_of db (Project.id project)))
           (List.length (filter (Task.is_overdue now)
                                (DB.tasks_of db (Project.id project)))).
Proof.
  intros Hreq Hne.
  destruct (get_project_health_run db now (Project.id project) user_id p
              Hreq Hne) as [h [Hh _]].
  destruct (get_project_health_counts db now _ _ h Hh Hne) as [Ht Ho].
  exists h. split; [exact Hh|].
  unfold project_summary. rewrite Hh, Ho, Ht. reflexivity.
Qed.

Lemma project_summary_mirrors_health_witness :
  ProjectSummary.total_tasks
    (project_summary Sample.db_two_completed Sample.now 1 Sample.apollo)
  = 2%nat.
Proof.
  destruct (project_summary_mirrors_health Sample.db_two_completed
              Sample.now 1 Sample.apollo Sample.apollo eq_refl)
    as [h [_ Hs]]; [vm_compute; discriminate|].
  rewrite Hs. reflexivity.
Defined.


(** The project statistics are for members only: without membership the
    call raises what the membership check raises, although its first
    part, the productivity metrics, asks for none.  For a member it
    always answers, and the tasks counted by the productivity metrics,
    those of the project the caller owns, are among the tasks counted
    by the health report. *)
Theorem project_stats_for_members (db : DB.t) (now : datetime)
    (user_id project_id : Z) :
  match require_member db project_id user_id with
  | Raise e => get_project_stats db now user_id project_id = Raise e
  | Ok _ =>
      exists s,
        get_project_stats db now user_id project_id = Ok s
        /\ ProjectStats.project_id s = project_id
        /\ ProjectHealth.total_tasks (ProjectStats.project_health s)
           = List.length (DB.tasks_of db project_id)
        /\ (project_id <> 0%Z ->
            (ProductivityMetrics.total_tasks
               (ProjectStats.productivity_metrics s)
             <= ProjectHealth.total_tasks (ProjectStats.project_health s))%nat)
  end.
Proof.
  unfold get_project_stats.
  destruct (get_productivity_metrics_totals db now user_id (Some project_id))
    as [m [Hm [Ht _]]].
  rewrite Hm. cbn [bind].
  destruct (require_member db project_id user_id) as [project|e] eqn:Hreq.
  - destruct (get_resource_utilization_returns db now _ _ project Hreq)
      as [r Hr].
    rewrite Hr. cbn [bind].
    assert (Hh : exists h,
               get_project_health db now project_id user_id = Ok h
               /\ ProjectHealth.total_tasks h
                  = List.length (DB.tasks_of db project_id)).
    { destruct (DB.tasks_of db project_id) as [|t l] eqn:E.
      - unfold get_project_health. rewrite Hreq, E. cbn [bind].
        eexists. split; reflexivity.
      - destruct (get_project_health_run db now project_id user_id project
                    Hreq) as [h [Hh [Hn _]]].
        + rewrite E. discriminate.
        + exists h. rewrite <- E. auto. }
    destruct Hh as [h [Hh Hn]]. rewrite Hh. cbn [bind].
    eexists. split; [reflexivity|].
    cbn [ProjectStats.project_id ProjectStats.project_health
         ProjectStats.productivity_metrics].
    split; [reflexivity|]. split; [exact Hn|].
    intros Hp. rewrite Ht, Hn.
    replace (project_id =? 0)%Z with false
      by (symmetry; now apply Z.eqb_neq).
    unfold DB.tasks_of. apply filter_filter_length.
  - unfold get_resource_utilization. rewrite Hreq. reflexivity.
Qed.

End DashboardFacts.
